(** * MedicalBot chat client: the conversation-turn engine of frontend/script.js

    A shallow embedding of the browser client.  The page is an explicit
    state (the global [userData], the children of [chatMessages], the two
    input controls, the requests in flight); every function of the script
    is a transformer of that state.  An [async] function is cut at each
    [await]: what runs before the [fetch], what runs when the [fetch]
    settles, what runs when the body has been read.  Exceptions are modelled, since [sendMessage] wraps its whole
    body in [try]/[catch] and several paths of the script rely on it.

    Not modelled: [console.log]/[console.error], scrolling, CSS classes
    that no code reads back, the choice of [API_URL], and the numbers of a
    response that are not integers or that print with an exponent. *)

From Stdlib Require Import String Ascii List NArith ZArith Bool Arith Lia DecimalString.
Import ListNotations.
Open Scope string_scope.
Set Warnings "-register-all".

(** ** JavaScript values, as far as the script looks at them *)

Module JS.

(** What [JSON.parse] can produce, plus [undefined] (the value of a property
    that is not there).  [Num] holds the numbers that are integers; a
    string holds its text in UTF-8, one [ascii] per byte; an object keeps
    its properties as an association list in source order. *)
Inductive value : Type :=
| Undefined
| Null
| Bool (b : bool)
| Num (n : Z)
| Str (s : string)
| Arr (items : list value)
| Obj (fields : list (string * value)).

(** A thrown [Error]/[DOMException]: the catch block reads [name] and
    [message] only. *)
Record error : Type := mkError { err_name : string; err_message : string }.

Definition TypeError (msg : string) : error := mkError "TypeError" msg.
Definition NotFoundError : error :=
  mkError "NotFoundError" "The node to be removed is not a child of this node.".
Definition Error (msg : string) : error := mkError "Error" msg.

(** Results of an evaluation that may throw. *)
Definition result (A : Type) : Type := (error + A)%type.

Definition rbind {A B : Type} (r : result A) (k : A -> result B) : result B :=
  match r with
  | inl e => inl e
  | inr a => k a
  end.

(** ToBoolean. *)
Definition truthy (v : value) : bool :=
  match v with
  | Undefined | Null => false
  | Bool b => b
  | Num n => negb (n =? 0)%Z
  | Str s => negb (s =? "")
  | Arr _ | Obj _ => true
  end.

(** [a || b]. *)
Definition orElse (a b : value) : value := if truthy a then a else b.

(** [a ?? b]: only [null] and [undefined] give way. *)
Definition nullish (a b : value) : value :=
  match a with
  | Undefined | Null => b
  | _ => a
  end.

(** [v === "lit"]. *)
Definition isStr (v : value) (lit : string) : bool :=
  match v with
  | Str s => s =? lit
  | _ => false
  end.

(** [Array.isArray(v)]. *)
Definition isArray (v : value) : bool :=
  match v with
  | Arr _ => true
  | _ => false
  end.

(** Own property of a parsed object; [JSON.parse] keeps the last of
    duplicated keys. *)
Fixpoint lookup (k : string) (fields : list (string * value)) : value :=
  match fields with
  | [] => Undefined
  | (k', v) :: rest =>
      match lookup k rest with
      | Undefined => if k' =? k then v else Undefined
      | later => later
      end
  end.

Definition hasOwn (k : string) (fields : list (string * value)) : bool :=
  existsb (fun kv => fst kv =? k) fields.

(** [v.k] for the property names the script reads ([text], [value],
    [options], [doctors], [available_dates], [available_slots], [response],
    [action], [data]): none of them is on a prototype, so only an object's
    own properties answer, and reading from [null]/[undefined] throws. *)
Definition prop (v : value) (k : string) : result value :=
  match v with
  | Undefined => inl (TypeError ("Cannot read properties of undefined (reading '" ++ k ++ "')"))
  | Null => inl (TypeError ("Cannot read properties of null (reading '" ++ k ++ "')"))
  | Obj fields => inr (lookup k fields)
  | _ => inr Undefined
  end.

(** Number to string, for an integer that JavaScript prints digit by
    digit: one below 10^21 in absolute value.  (From 10^21 on JavaScript
    prints an exponent; this function goes on printing digits.) *)
Definition string_of_Z (n : Z) : string := NilZero.string_of_int (Z.to_int n).

(** ToString.  An array joins its elements with commas ([null] and
    [undefined] elements give the empty string).  A parsed object answers
    "[object Object]" through [Object.prototype.toString], unless an own
    (not callable) [toString] property shadows it, and then the conversion
    throws. *)
Fixpoint toString (v : value) : result string :=
  match v with
  | Undefined => inr "undefined"
  | Null => inr "null"
  | Bool true => inr "true"
  | Bool false => inr "false"
  | Num n => inr (string_of_Z n)
  | Str s => inr s
  | Arr items =>
      (fix join (l : list value) : result string :=
         match l with
         | [] => inr ""
         | x :: rest =>
             rbind (match x with
                    | Undefined | Null => inr ""
                    | _ => toString x
                    end)
               (fun sx =>
                  match rest with
                  | [] => inr sx
                  | _ :: _ => rbind (join rest) (fun sr => inr (sx ++ "," ++ sr))
                  end)
         end) items
  | Obj fields =>
      if hasOwn "toString" fields
      then inl (TypeError "Cannot convert object to primitive value")
      else inr "[object Object]"
  end.

(** What [node.textContent = v] stores: the attribute is a nullable
    DOMString, so [null] and [undefined] store the empty string. *)
Definition toText (v : value) : result string :=
  match v with
  | Undefined | Null => inr ""
  | _ => toString v
  end.

(** [s.includes(pat)]. *)
Definition includes (s pat : string) : bool :=
  match String.index 0 pat s with
  | Some _ => true
  | None => false
  end.

(** [s.trim()].  A string holds its text in UTF-8, one [ascii] per byte.
    These are the code points [trim] strips: WhiteSpace (tab, VT, FF,
    U+FEFF and the space separators of Unicode, among them the no-break
    space U+00A0) and LineTerminator (LF, CR, U+2028, U+2029). *)
Definition whiteSpace : list N :=
  [ 0x0009; 0x000B; 0x000C; 0xFEFF;
    0x0020; 0x00A0; 0x1680;
    0x2000; 0x2001; 0x2002; 0x2003; 0x2004; 0x2005; 0x2006;
    0x2007; 0x2008; 0x2009; 0x200A;
    0x202F; 0x205F; 0x3000;
    0x000A; 0x000D; 0x2028; 0x2029 ]%N.

(** UTF-8 of a code point below U+10000 (one, two or three bytes). *)
Definition utf8 (cp : N) : string :=
  (if cp <? 0x80 then String (ascii_of_N cp) ""
   else if cp <? 0x800 then
     String (ascii_of_N (0xC0 + cp / 0x40))
       (String (ascii_of_N (0x80 + cp mod 0x40)) "")
   else
     String (ascii_of_N (0xE0 + cp / 0x1000))
       (String (ascii_of_N (0x80 + (cp / 0x40) mod 0x40))
          (String (ascii_of_N (0x80 + cp mod 0x40)) "")))%N.

Definition spaces : list string := Eval vm_compute in map utf8 whiteSpace.

(** The string is one white-space character. *)
Definition isSpace (s : string) : bool := existsb (String.eqb s) spaces.

(** The string starts with a white-space character. *)
Definition startsWithSpace (s : string) : bool :=
  match s with
  | EmptyString => false
  | String a r1 =>
      isSpace (String a "") ||
      match r1 with
      | EmptyString => false
      | String b r2 =>
          isSpace (String a (String b "")) ||
          match r2 with
          | EmptyString => false
          | String c _ => isSpace (String a (String b (String c "")))
          end
      end
  end.

Fixpoint trimStart (s : string) : string :=
  match s with
  | EmptyString => s
  | String a r1 =>
      if isSpace (String a "") then trimStart r1 else
      match r1 with
      | EmptyString => s
      | String b r2 =>
          if isSpace (String a (String b "")) then trimStart r2 else
          match r2 with
          | EmptyString => s
          | String c r3 =>
              if isSpace (String a (String b (String c ""))) then trimStart r3 else s
          end
      end
  end.

(** From the end: what is kept of the rest is extended by one byte, and
    dropped when that makes it one white-space character. *)
Fixpoint trimEnd (s : string) : string :=
  match s with
  | EmptyString => s
  | String a rest =>
      let kept := String a (trimEnd rest) in
      if isSpace kept then EmptyString else kept
  end.

Definition trim (s : string) : string := trimEnd (trimStart s).

End JS.

(** ** The page *)

Module Chat.
Import JS.

(** The handlers a chat option button can carry: the one [addOptionsToChat]
    registers at creation (script.js 76-85) and the one [handleAction] adds
    to the restart button (script.js 238-242). *)
Inductive Listener : Type :=
| SendOption
| ResetSession.

(** A [button.chat-option-button].  [btn_option] is the array entry the
    click handler closes over. *)
Record Button : Type := mkButton {
  btn_textContent : string;
  btn_option : value;
  btn_disabled : bool;
  btn_opacity : string;
  btn_cursor : string;
  btn_selected : bool;
  btn_listeners : list Listener
}.

(** The children of [chatMessages].  A typing indicator carries the
    identity of its node, because [sendMessage] removes it by reference. *)
Inductive Node : Type :=
| BotMessage (text : string)
| UserMessage (text : string)
| TypingIndicator (node : nat)
| InChatOptions (buttons : list Button)
| ErrorNotice (text : string).

(** Who awaits the promise [sendMessage] returns: [checkBackendConnection]
    does (script.js 34), every other caller drops it. *)
Inductive Awaiter : Type :=
| Detached
| CheckBackendConnection.

(** Where a call of [sendMessage] is suspended: at [await fetch(...)]
    (script.js 123) or at [await response.json()] (script.js 141). *)
Inductive Phase : Type :=
| AwaitingFetch
| AwaitingJson.

(** A call of [sendMessage] that is suspended: the typing indicator it
    created, the body that was serialized when its [fetch] was issued, who
    awaits it, and where it waits. *)
Record Call : Type := mkCall {
  call_indicator : nat;
  call_body : value;
  call_awaiter : Awaiter;
  call_phase : Phase
}.

Record World : Type := mkWorld {
  userData : value;
  chatMessages : list Node;
  userInput_value : string;
  userInput_disabled : bool;
  sendButton_disabled : bool;
  inflight : list Call;
  nextNode : nat
}.

(** How a [fetch] settles: the promise rejects (time-out of the
    [AbortSignal], network failure), or a response arrives, with its
    [ok] flag and its status.  How [response.json()] settles is a
    [result value]: the parsed body, or the error it rejects with. *)
Inductive Outcome : Type :=
| Rejected (e : error)
| Responded (ok : bool) (status : nat).

(** script.js 13-15. *)
Definition initialUserData : value := Obj [("state", Null)].

(** *** Field updates *)

Definition set_userData (v : value) (w : World) : World :=
  mkWorld v (chatMessages w) (userInput_value w) (userInput_disabled w)
          (sendButton_disabled w) (inflight w) (nextNode w).

Definition set_chatMessages (l : list Node) (w : World) : World :=
  mkWorld (userData w) l (userInput_value w) (userInput_disabled w)
          (sendButton_disabled w) (inflight w) (nextNode w).

Definition set_userInput_value (s : string) (w : World) : World :=
  mkWorld (userData w) (chatMessages w) s (userInput_disabled w)
          (sendButton_disabled w) (inflight w) (nextNode w).

Definition set_userInput_disabled (b : bool) (w : World) : World :=
  mkWorld (userData w) (chatMessages w) (userInput_value w) b
          (sendButton_disabled w) (inflight w) (nextNode w).

Definition set_sendButton_disabled (b : bool) (w : World) : World :=
  mkWorld (userData w) (chatMessages w) (userInput_value w) (userInput_disabled w)
          b (inflight w) (nextNode w).

Definition set_inflight (l : list Call) (w : World) : World :=
  mkWorld (userData w) (chatMessages w) (userInput_value w) (userInput_disabled w)
          (sendButton_disabled w) l (nextNode w).

Definition set_nextNode (n : nat) (w : World) : World :=
  mkWorld (userData w) (chatMessages w) (userInput_value w) (userInput_disabled w)
          (sendButton_disabled w) (inflight w) n.

(** [chatMessages.appendChild(node)]. *)
Definition appendChild (n : Node) (w : World) : World :=
  set_chatMessages (chatMessages w ++ [n]) w.

(** *** Statements that may throw

    A statement runs on the page and either completes or throws; what it
    did to the page before throwing stays done. *)
Definition M (A : Type) : Type := World -> result A * World.

Definition ret {A : Type} (a : A) : M A := fun w => (inr a, w).

Definition throw {A : Type} (e : error) : M A := fun w => (inl e, w).

Definition bind {A B : Type} (m : M A) (k : A -> M B) : M B :=
  fun w =>
    match m w with
    | (inl e, w') => (inl e, w')
    | (inr a, w') => k a w'
    end.

Definition lift {A : Type} (r : result A) : M A := fun w => (r, w).

Definition modify (f : World -> World) : M unit := fun w => (inr tt, f w).

Notation "x <- m ;; k" := (bind m (fun x => k))
  (at level 61, m at next level, right associativity).
Notation "m ;;; k" := (bind m (fun _ => k))
  (at level 61, right associativity).

(** [try { m } catch (error) { handler(error) }], for a handler that does
    not throw. *)
Definition tryCatch (m : M unit) (handler : error -> World -> World) (w : World) : World :=
  match m w with
  | (inr _, w') => w'
  | (inl e, w') => handler e w'
  end.

(** *** Queries on the document *)

Definition isTypingIndicator (n : Node) : bool :=
  match n with
  | TypingIndicator _ => true
  | _ => false
  end.

(** Elements of class [bot-message]: bot messages and typing indicators
    (script.js 50, 118). *)
Definition isBotMessage (n : Node) : bool :=
  match n with
  | BotMessage _ | TypingIndicator _ => true
  | _ => false
  end.

Definition isUserMessage (n : Node) : bool :=
  match n with
  | UserMessage _ => true
  | _ => false
  end.

Definition textContent (n : Node) : string :=
  match n with
  | BotMessage t | UserMessage t | ErrorNotice t => t
  | TypingIndicator _ => "Typing..."
  | InChatOptions bs => String.concat "" (map btn_textContent bs)
  end.

(** [chatMessages.removeChild(typingIndicator)] for the indicator a call
    created: throws when the node is no longer a child. *)
Fixpoint removeIndicator (node : nat) (l : list Node) : option (list Node) :=
  match l with
  | [] => None
  | TypingIndicator k :: rest =>
      if (k =? node)%nat then Some rest
      else option_map (cons (TypingIndicator k)) (removeIndicator node rest)
  | n :: rest => option_map (cons n) (removeIndicator node rest)
  end.

Definition removeChild_indicator (node : nat) : M unit :=
  fun w =>
    match removeIndicator node (chatMessages w) with
    | Some l => (inr tt, set_chatMessages l w)
    | None => (inl NotFoundError, w)
    end.

(** [document.querySelector('.typing-indicator')] followed by
    [removeChild] when something was found (script.js 154-157): the first
    indicator in document order goes. *)
Fixpoint removeFirstIndicator (l : list Node) : list Node :=
  match l with
  | [] => []
  | TypingIndicator _ :: rest => rest
  | n :: rest => n :: removeFirstIndicator rest
  end.

(** Removes the [k]-th element of class [bot-message]. *)
Fixpoint removeBotMessageAt (k : nat) (l : list Node) : list Node :=
  match l with
  | [] => []
  | n :: rest =>
      if isBotMessage n then
        match k with
        | O => rest
        | S k' => n :: removeBotMessageAt k' rest
        end
      else n :: removeBotMessageAt k rest
  end.

(** [document.querySelectorAll('.chat-option-button')]: every button of
    every options container, in document order. *)
Definition chatOptionButtons (l : list Node) : list Button :=
  flat_map (fun n => match n with InChatOptions bs => bs | _ => [] end) l.

(** Runs a statement and keeps the page, for statements that are known not
    to throw where they stand. *)
Definition exec (m : M unit) (w : World) : World := snd (m w).

(** *** script.js 47-63: [addBotMessage], [addUserMessage] *)

Definition addBotMessage (message : value) : M unit :=
  text <- lift (toText message) ;;
  modify (appendChild (BotMessage text)).

Definition addUserMessage (message : value) : M unit :=
  text <- lift (toText message) ;;
  modify (appendChild (UserMessage text)).

(** *** script.js 66-92: [addOptionsToChat] *)

(** One turn of the [forEach] callback (script.js 71-87): the button is
    labelled [option.text || option] and its click handler keeps [option]. *)
Definition createOptionButton (option : value) : result Button :=
  rbind (prop option "text") (fun text =>
  rbind (toText (orElse text option)) (fun label =>
  inr (mkButton label option false "" "" false [SendOption]))).

Fixpoint createOptionButtons (items : list value) : result (list Button) :=
  match items with
  | [] => inr []
  | option :: rest =>
      rbind (createOptionButton option) (fun b =>
      rbind (createOptionButtons rest) (fun bs =>
      inr (b :: bs)))
  end.

(** [options.forEach] exists on arrays only; on any other value the call
    throws.  The container joins the page after the loop (script.js 90),
    so a loop that throws leaves the page as it was. *)
Definition addOptionsToChat (options : value) : M unit :=
  match options with
  | Arr items =>
      buttons <- lift (createOptionButtons items) ;;
      modify (appendChild (InChatOptions buttons))
  | Undefined => throw (TypeError "Cannot read properties of undefined (reading 'forEach')")
  | Null => throw (TypeError "Cannot read properties of null (reading 'forEach')")
  | _ => throw (TypeError "options.forEach is not a function")
  end.

(** *** script.js 171-245: [handleAction] *)

(** [data.k] once [data] is known to be truthy (the script always guards
    with [data && data.k]). *)
Definition field (data : value) (k : string) : value :=
  match data with
  | Obj fields => lookup k fields
  | _ => Undefined
  end.

Definition textValue (text value : string) : JS.value :=
  Obj [("text", Str text); ("value", Str value)].

Definition addListener (l : Listener) (b : Button) : Button :=
  mkButton (btn_textContent b) (btn_option b) (btn_disabled b) (btn_opacity b)
           (btn_cursor b) (btn_selected b) (btn_listeners b ++ [l]).

(** Applies [f] to the first button met when the nodes are walked from the
    end of the document, each container from its last button. *)
Fixpoint onFirstButtonBackwards (f : Button -> Button) (reversed : list Node) : list Node :=
  match reversed with
  | [] => []
  | InChatOptions bs :: rest =>
      match rev bs with
      | [] => InChatOptions bs :: onFirstButtonBackwards f rest
      | b :: before => InChatOptions (rev (f b :: before)) :: rest
      end
  | n :: rest => n :: onFirstButtonBackwards f rest
  end.

(** [restartButtons[restartButtons.length - 1]], when there is one
    (script.js 235-237). *)
Definition onLastChatOptionButton (f : Button -> Button) (l : list Node) : list Node :=
  rev (onFirstButtonBackwards f (rev l)).

Definition handleAction (action data : value) : M unit :=
  if isStr action "offer_booking" then
    addOptionsToChat (Arr [textValue "Yes" "Yes"; textValue "No" "No"])
  else if isStr action "show_existing_appointment" then
    addOptionsToChat (Arr [textValue "Cancel Appointment" "cancel";
                           textValue "Book New Appointment" "book new appointment"])
  else if isStr action "confirm_cancellation" then
    addOptionsToChat (Arr [textValue "Yes, Cancel" "yes"; textValue "No, Keep" "no"])
  else if isStr action "show_options" && truthy data && truthy (field data "options") then
    addOptionsToChat (field data "options")
  else if isStr action "request_department" then
    addOptionsToChat (Arr [Str "Cardiology"; Str "Neurology"; Str "General Physician"])
  else if isStr action "request_doctor" then
    if truthy data && truthy (field data "doctors") && isArray (field data "doctors") then
      addOptionsToChat (field data "doctors")
    else
      modify (appendChild
                (ErrorNotice "Error: No department specified. Please type your selection."))
  else if isStr action "request_date" && truthy data && truthy (field data "available_dates") then
    addOptionsToChat (field data "available_dates")
  else if isStr action "request_time" && truthy data && truthy (field data "available_slots") then
    addOptionsToChat (field data "available_slots")
  else if isStr action "show_appointments" then
    addOptionsToChat (Arr [textValue "Cancel Appointment" "cancel";
                           textValue "Book New Appointment" "book new appointment"])
  else if isStr action "conversation_end" then
    modify (set_userInput_disabled true) ;;;
    modify (set_sendButton_disabled true) ;;;
    addOptionsToChat (Arr [textValue "Start New Conversation" "Hello"]) ;;;
    modify (fun w =>
              set_chatMessages
                (onLastChatOptionButton (addListener ResetSession) (chatMessages w)) w)
  else
    ret tt.

(** *** script.js 95-168: [sendMessage] *)

(** script.js 104-108. *)
Definition disableButton (b : Button) : Button :=
  mkButton (btn_textContent b) (btn_option b) true "0.5" "not-allowed"
           (btn_selected b) (btn_listeners b).

Definition disableNode (n : Node) : Node :=
  match n with
  | InChatOptions bs => InChatOptions (map disableButton bs)
  | _ => n
  end.

Definition disableAllButtons (w : World) : World :=
  set_chatMessages (map disableNode (chatMessages w)) w.

(** script.js 111-114. *)
Definition requestData (message : value) (w : World) : value :=
  Obj [("message", message); ("user_data", userData w)].

(** script.js 117-131: the indicator is created and appended, and the
    [fetch] is issued with the body serialized at that moment. *)
Definition issueFetch (message : value) (awaiter : Awaiter) (w : World) : World :=
  let node := nextNode w in
  let body := requestData message w in
  set_inflight (inflight w ++ [mkCall node body awaiter AwaitingFetch])
    (appendChild (TypingIndicator node) (set_nextNode (S node) w)).

(** The [try] block up to the [await] (script.js 96-131). *)
Definition sendMessage_request (message : value) (awaiter : Awaiter) : M unit :=
  (if negb (isStr message "Hello") then addUserMessage message else ret tt) ;;;
  modify disableAllButtons ;;;
  modify (issueFetch message awaiter).

(** The [try] block from the first [await] to the second
    (script.js 133-141). *)
Definition sendMessage_response (call : Call) (o : Outcome) : M unit :=
  match o with
  | Rejected e => throw e
  | Responded ok status =>
      removeChild_indicator (call_indicator call) ;;;
      (if negb ok
       then throw (Error ("HTTP error! Status: " ++ NilZero.string_of_uint (Nat.to_uint status)))
       else ret tt)
  end.

(** The [try] block after the second [await] (script.js 141-150). *)
Definition sendMessage_body (body : result value) : M unit :=
  data <- lift body ;;
  response <- lift (prop data "response") ;;
  addBotMessage response ;;;
  payload <- lift (prop data "data") ;;
  modify (set_userData (orElse payload (Obj []))) ;;;
  action <- lift (prop data "action") ;;
  handleAction action payload.

(** The three notices of the [catch] block (script.js 160-166). *)
Definition tooLongNotice : string :=
  "The server is taking too long to respond. Please check if the backend is running properly.".
Definition cannotConnectNotice : string :=
  "Cannot connect to the server. Please make sure the backend is running at http://localhost:8000".
Definition sorryNotice : string := "Sorry, there was an error processing your request.".

Definition notice (e : error) : string :=
  if err_name e =? "AbortError" then tooLongNotice
  else if includes (err_message e) "NetworkError" || includes (err_message e) "Failed to fetch"
       then cannotConnectNotice
       else sorryNotice.

(** The [catch] block (script.js 152-167). *)
Definition sendMessage_catch (e : error) (w : World) : World :=
  exec (addBotMessage (Str (notice e)))
       (set_chatMessages (removeFirstIndicator (chatMessages w)) w).

(** *** script.js 27-45: [checkBackendConnection] *)

Definition loadingMsg : string := "Connecting to server...".

(** What follows [await sendMessage("Hello")] (script.js 37-40).  The
    promise of [sendMessage] never rejects, its [catch] block not throwing,
    so the [catch] of [checkBackendConnection] is never entered. *)
Definition checkBackendConnection_resume (w : World) : World :=
  let messages := filter isBotMessage (chatMessages w) in
  let n := length messages in
  if (1 <? n)%nat &&
     match nth_error messages (n - 2) with
     | Some m => textContent m =? loadingMsg
     | None => false
     end
  then set_chatMessages (removeBotMessageAt (n - 2) (chatMessages w)) w
  else w.

Definition resume (awaiter : Awaiter) (w : World) : World :=
  match awaiter with
  | Detached => w
  | CheckBackendConnection => checkBackendConnection_resume w
  end.

(** A call of [sendMessage(message)], run until it suspends at the [await]
    or, when the first part throws, until its [catch] block is done. *)
Definition sendMessageAs (awaiter : Awaiter) (message : value) (w : World) : World :=
  match sendMessage_request message awaiter w with
  | (inr _, w') => w'
  | (inl e, w') => resume awaiter (sendMessage_catch e w')
  end.

Definition sendMessage (message : value) : World -> World :=
  sendMessageAs Detached message.

Definition awaitingJson (call : Call) : Call :=
  mkCall (call_indicator call) (call_body call) (call_awaiter call) AwaitingJson.

(** That call when its [fetch] settles: it goes on to wait for the body,
    or it ends in its [catch] block and whoever awaited it goes on. *)
Definition sendMessage_fetched (call : Call) (o : Outcome) (w : World) : World :=
  match sendMessage_response call o w with
  | (inr _, w') => set_inflight (inflight w' ++ [awaitingJson call]) w'
  | (inl e, w') => resume (call_awaiter call) (sendMessage_catch e w')
  end.

(** That call when [response.json()] settles: it runs to its end, through
    its [catch] block if need be, and whoever awaited it goes on. *)
Definition sendMessage_parsed (call : Call) (body : result value) (w : World) : World :=
  resume (call_awaiter call) (tryCatch (sendMessage_body body) sendMessage_catch w).

Definition checkBackendConnection (w : World) : World :=
  sendMessageAs CheckBackendConnection (Str "Hello")
    (exec (addBotMessage (Str loadingMsg)) w).

Definition welcomeMsg : string := "Welcome to the Medical Appointment Booking System!".

(** script.js 18-24. *)
Definition initChat (w : World) : World :=
  checkBackendConnection (exec (addBotMessage (Str welcomeMsg)) w).

(** *** The event handlers *)

(** script.js 78-80: within the container, only the clicked button keeps
    the class [selected]. *)
Definition setSelected (sel : bool) (b : Button) : Button :=
  mkButton (btn_textContent b) (btn_option b) (btn_disabled b) (btn_opacity b)
           (btn_cursor b) sel (btn_listeners b).

Fixpoint selectAt (j : nat) (bs : list Button) : list Button :=
  match bs with
  | [] => []
  | b :: rest =>
      match j with
      | O => setSelected true b :: map (setSelected false) rest
      | S j' => setSelected false b :: selectAt j' rest
      end
  end.

Fixpoint replaceAt (i : nat) (n : Node) (l : list Node) : list Node :=
  match l with
  | [] => []
  | x :: rest =>
      match i with
      | O => n :: rest
      | S i' => x :: replaceAt i' n rest
      end
  end.

(** script.js 83: [option.value || option]. *)
Definition optionValue (option : value) : result value :=
  rbind (prop option "value") (fun v => inr (orElse v option)).

(** The click handler of script.js 76-85, for the button at place [j] of
    the container at place [i].  A throw here is outside every [try]: the
    handler just ends. *)
Definition onOptionClick (i j : nat) (w : World) : World :=
  match nth_error (chatMessages w) i with
  | Some (InChatOptions bs) =>
      match nth_error bs j with
      | Some b =>
          let w1 := set_chatMessages
                      (replaceAt i (InChatOptions (selectAt j bs)) (chatMessages w)) w in
          match optionValue (btn_option b) with
          | inr v => sendMessage v w1
          | inl _ => w1
          end
      | None => w
      end
  | _ => w
  end.

(** The click handler of script.js 238-242. *)
Definition onRestartClick (w : World) : World :=
  set_sendButton_disabled false
    (set_userInput_disabled false
       (set_userData initialUserData w)).

Definition runListener (i j : nat) (l : Listener) (w : World) : World :=
  match l with
  | SendOption => onOptionClick i j w
  | ResetSession => onRestartClick w
  end.

(** script.js 248-254 and the body of 257-263. *)
Definition submitInput (w : World) : World :=
  let message := trim (userInput_value w) in
  if negb (message =? "")
  then set_userInput_value "" (sendMessage (Str message) w)
  else w.

(** script.js 256-264. *)
Definition onKeyPress (key : string) (w : World) : World :=
  if key =? "Enter" then submitInput w else w.

(** *** What can happen to the page *)

Inductive Event : Type :=
| Load
| Input (text : string)
| ClickSend
| KeyPress (key : string)
| ClickOption (i j : nat)
| FetchSettles (indicator : nat) (o : Outcome)
| JsonSettles (indicator : nat) (body : result value).

Fixpoint takeCall (indicator : nat) (l : list Call) : option (Call * list Call) :=
  match l with
  | [] => None
  | c :: rest =>
      if (call_indicator c =? indicator)%nat then Some (c, rest)
      else match takeCall indicator rest with
           | Some (found, others) => Some (found, c :: others)
           | None => None
           end
  end.

(** The browser delivers no click and no key to a disabled control, and
    runs the listeners of a button in the order they were added.  A promise
    settles for the call that waits on it, in the phase it waits in. *)
Definition step (ev : Event) (w : World) : World :=
  match ev with
  | Load => initChat w
  | Input text =>
      if userInput_disabled w then w else set_userInput_value text w
  | ClickSend =>
      if sendButton_disabled w then w else submitInput w
  | KeyPress key =>
      if userInput_disabled w then w else onKeyPress key w
  | ClickOption i j =>
      match nth_error (chatMessages w) i with
      | Some (InChatOptions bs) =>
          match nth_error bs j with
          | Some b =>
              if btn_disabled b then w
              else fold_left (fun w' l => runListener i j l w') (btn_listeners b) w
          | None => w
          end
      | _ => w
      end
  | FetchSettles indicator o =>
      match takeCall indicator (inflight w) with
      | Some (call, others) =>
          match call_phase call with
          | AwaitingFetch => sendMessage_fetched call o (set_inflight others w)
          | AwaitingJson => w
          end
      | None => w
      end
  | JsonSettles indicator body =>
      match takeCall indicator (inflight w) with
      | Some (call, others) =>
          match call_phase call with
          | AwaitingJson => sendMessage_parsed call body (set_inflight others w)
          | AwaitingFetch => w
          end
      | None => w
      end
  end.

Definition run (evs : list Event) (w : World) : World :=
  fold_left (fun w' ev => step ev w') evs w.

(** The page when the script starts: script.js 13-15 for [userData]; the
    document has an empty [chatMessages] and enabled controls. *)
Definition initial : World :=
  mkWorld initialUserData [] "" false false [] 0.

End Chat.

(** ** The other client: options in a panel

    The second script of the repository differs from the first in its
    dispatcher: options are not put in the transcript but in the panel
    [optionButtons], which holds the options of one response at a time.
    Here are its [handleAction] and [displayOptionButtons]; they touch
    nothing but the panel, so the panel is the state.  (The click handler
    of a panel button clears the panel on a timer; it is not modelled.) *)

Module Panel.
Import JS.

(** A [button.option-button]: its label, and the entry its click handler
    passes to [sendMessage] as it is. *)
Record Button : Type := mkButton {
  btn_textContent : string;
  btn_option : value
}.

(** The children of [optionButtons]. *)
Definition State : Type := list Button.

(** The [forEach] of [displayOptionButtons]: each button joins the panel
    as soon as it is made, so a throw keeps the buttons made before it. *)
Fixpoint appendButtons (items : list value) (panel : State) : result unit * State :=
  match items with
  | [] => (inr tt, panel)
  | option :: rest =>
      match toText option with
      | inl e => (inl e, panel)
      | inr label => appendButtons rest (panel ++ [mkButton label option])%list
      end
  end.

(** [displayOptionButtons(options)]: the panel is emptied, then filled if
    [options] is an array. *)
Definition displayOptionButtons (options : value) (panel : State) : result unit * State :=
  match options with
  | Arr items => appendButtons items []
  | _ => (inr tt, [])
  end.

(** [handleAction(action, data)]: [data.options] is read without a guard
    on [data], but only when the action is [show_options]. *)
Definition handleAction (action data : value) (panel : State) : result unit * State :=
  if isStr action "show_options" then
    match prop data "options" with
    | inl e => (inl e, panel)
    | inr options =>
        if truthy options then displayOptionButtons options panel
        else (inr tt, [])
    end
  else (inr tt, []).

End Panel.

(** * Properties *)

Import JS Chat.
Open Scope list_scope.

(** ** Vocabulary of the statements *)

(** *** What the user is offered

    The script keeps no variable for the interaction mode: it is read off
    the page.  The choices open to the user are the option buttons that can
    still be clicked, each with its label and the message a click sends
    (script.js 73, 83). *)
Record Choice : Type := mkChoice {
  choice_label : string;
  choice_value : result value
}.

Definition choiceOf (b : Button) : Choice :=
  mkChoice (btn_textContent b) (optionValue (btn_option b)).

Definition choices (w : World) : list Choice :=
  map choiceOf
      (filter (fun b => negb (btn_disabled b)) (chatOptionButtons (chatMessages w))).

Inductive InteractionMode : Type :=
| FreeText
| ClosedOptions (options : list Choice)
| ConversationEnded (restart : list Choice).

(** Free text can be submitted unless both controls are disabled
    (script.js 227-228); options can be selected while some button is
    enabled. *)
Definition interactionMode (w : World) : InteractionMode :=
  if userInput_disabled w && sendButton_disabled w
  then ConversationEnded (choices w)
  else match choices w with
       | [] => FreeText
       | cs => ClosedOptions cs
       end.

(** *** Other observations *)

(** The session state and the two free-text controls. *)
Definition session (w : World) : value * bool * bool :=
  (userData w, userInput_disabled w, sendButton_disabled w).

Definition userMessages (w : World) : list Node :=
  filter isUserMessage (chatMessages w).

(** The transcript without the typing indicators, which come and go. *)
Definition transcript (w : World) : list Node :=
  filter (fun n => negb (isTypingIndicator n)) (chatMessages w).

Definition allDisabled (w : World) : Prop :=
  Forall (fun b => btn_disabled b = true) (chatOptionButtons (chatMessages w)).



(** What script.js 73 and 83 make of an array entry: label
    [entry.text || entry], value [entry.value || entry]. *)
Definition coerce (entry : value) : result Choice :=
  rbind (prop entry "text") (fun text =>
  rbind (toText (orElse text entry)) (fun label =>
  inr (mkChoice label (optionValue entry)))).

(** The coercion in the words of the specification:
    [{label: text ?? entry, value: value ?? entry}]. *)
Definition coerceNullish (entry : value) : result Choice :=
  rbind (prop entry "text") (fun text =>
  rbind (toText (nullish text entry)) (fun label =>
  inr (mkChoice label (rbind (prop entry "value") (fun v => inr (nullish v entry)))))).

(** The button [handleAction] renders on [conversation_end], once the
    second listener is on it. *)
Definition restartButton : Button :=
  mkButton "Start New Conversation" (textValue "Start New Conversation" "Hello")
           false "" "" false [SendOption; ResetSession].

Definition isReset (l : Listener) : bool :=
  match l with
  | ResetSession => true
  | SendOption => false
  end.

(** The event is a click that reaches a button carrying the restart
    listener. *)
Definition restartClick (ev : Event) (w : World) : bool :=
  match ev with
  | ClickOption i j =>
      match nth_error (chatMessages w) i with
      | Some (InChatOptions bs) =>
          match nth_error bs j with
          | Some b => negb (btn_disabled b) && existsb isReset (btn_listeners b)
          | None => false
          end
      | _ => false
      end
  | _ => false
  end.

(** The event hands the body of a response to the call that waits for it. *)
Definition isJsonSettles (ev : Event) : bool :=
  match ev with
  | JsonSettles _ _ => true
  | _ => false
  end.

(** The text of the reply in a response body: [data.response], as
    [addBotMessage] stores it. *)
Definition replyText (body : value) : result string :=
  rbind (prop body "response") toText.

(** The failures of a turn that the script detects.  At the [fetch]: the
    promise rejects (time-out, network), or the status is not 2xx. *)
Definition failedFetch (o : Outcome) : bool :=
  match o with
  | Rejected _ => true
  | Responded ok _ => negb ok
  end.

(** At the body: reading it rejects (not JSON, time-out), or it is JSON
    [null]. *)
Definition failedBody (body : result value) : bool :=
  match body with
  | inl _ => true
  | inr Null | inr Undefined => true
  | inr _ => false
  end.

(** One of the three notices of the [catch] block. *)
Definition isNotice (text : string) : Prop :=
  text = tooLongNotice \/ text = cannotConnectNotice \/ text = sorryNotice.

(** Between two pages: exactly one message was appended to the
    transcript, one of the three notices, and the session state, the
    controls, the calls in flight and the option buttons are the same. *)
Definition onlyOneNotice (w w' : World) : Prop :=
  (exists text,
      isNotice text /\ transcript w' = transcript w ++ [BotMessage text]) /\
  session w' = session w /\
  inflight w' = inflight w /\
  chatOptionButtons (chatMessages w') = chatOptionButtons (chatMessages w).

(** A turn whose call is answered with a 2xx response and a parsed body,
    before anything else happens on the page. *)
Record Turn : Type := mkTurn {
  turn_message : value;
  turn_status : nat;
  turn_body : value
}.

Definition successfulTurn (t : Turn) (w : World) : World :=
  step (JsonSettles (nextNode w) (inr (turn_body t)))
    (step (FetchSettles (nextNode w) (Responded true (turn_status t)))
       (sendMessage (turn_message t) w)).

Definition conversation (turns : list Turn) (w : World) : World :=
  fold_left (fun w' t => successfulTurn t w') turns w.

(** The message can be shown and the body carries a reply that can be
    shown. *)
Definition wellFormed (t : Turn) : Prop :=
  (exists text, toText (turn_message t) = inr text) /\
  (exists text, replyText (turn_body t) = inr text).

(** The rejection of a [fetch] whose [AbortSignal.timeout] fired. *)
Definition timedOut : Outcome := Rejected (mkError "TimeoutError" "signal timed out").

(** A page used in the examples: the bootstrap turn was answered with
    [offer_booking], so "Yes" and "No" are on offer. *)
Definition bookingOffered : World :=
  run [Load;
       FetchSettles 0 (Responded true 200);
       JsonSettles 0 (inr (Obj [("response", Str "Would you like to book?");
                                ("action", Str "offer_booking");
                                ("data", Obj [("state", Str "offer")])]))]
      initial.

(** Neither a message nor a typing indicator. *)
Definition quiet (n : Node) : Prop := isBotMessage n = false /\ isUserMessage n = false.

(** The controls only ever go from enabled to disabled, and the calls in
    flight stay, between two pages. *)
Definition keepsDisabled (w w' : World) : Prop :=
  (userInput_disabled w = true -> userInput_disabled w' = true) /\
  (sendButton_disabled w = true -> sendButton_disabled w' = true) /\
  inflight w' = inflight w.

(** A statement relates every page to the page it leaves, by [R]. *)
Definition preserves (R : World -> World -> Prop) {A : Type} (m : M A) : Prop :=
  forall w, R w (snd (m w)).

(** *** Vocabulary of the further properties *)

(** What the dispatcher appends and whether it throws, for an action and
    its data, observed on the empty page. *)
Definition rendered (action data : value) : list Node :=
  chatMessages (snd (handleAction action data initial)).

Definition thrown (action data : value) : result unit :=
  fst (handleAction action data initial).

(** The buttons [addOptionsToChat] makes of a fixed list of
    [{text, value}] pairs. *)
Definition menu (entries : list (string * string)) : list Button :=
  map (fun tv => mkButton (fst tv) (textValue (fst tv) (snd tv)) false "" "" false [SendOption])
      entries.

Definition appointmentMenu : list Button :=
  menu [("Cancel Appointment", "cancel"); ("Book New Appointment", "book new appointment")].

Definition noDepartment : Node :=
  ErrorNotice "Error: No department specified. Please type your selection.".

(** The choices open among the buttons of a list of nodes. *)
Definition choicesIn (l : list Node) : list Choice :=
  map choiceOf (filter (fun b => negb (btn_disabled b)) (chatOptionButtons l)).

(** The page on which the dispatcher runs in a turn taken on [w] with
    nothing else in flight: the nodes [before] it, the reply shown, the
    session state replaced. *)
Definition atDispatch (t : Turn) (before : list Node) (reply : string) (w : World) : World :=
  mkWorld (orElse (field (turn_body t) "data") (Obj []))
          (before ++ [BotMessage reply])
          (userInput_value w) (userInput_disabled w) (sendButton_disabled w)
          [] (S (nextNode w)).

(** The user message a call of [sendMessage] shows. *)
Definition echo (message : value) (text : string) : list Node :=
  if isStr message "Hello" then [] else [UserMessage text].

(** The character occurs in the string. *)
Fixpoint occurs (c : ascii) (s : string) : bool :=
  match s with
  | EmptyString => false
  | String b rest => Ascii.eqb b c || occurs c rest
  end.

(** The error [sendMessage] throws on a response that is not ok
    (script.js 137). *)
Definition httpError (status : nat) : error :=
  Error ("HTTP error! Status: " ++ NilZero.string_of_uint (Nat.to_uint status))%string.

(** A button as it was, except that it may have been disabled or
    (de)selected since. *)
Definition sameOrDisabled (b b' : Button) : Prop :=
  btn_textContent b' = btn_textContent b /\
  btn_option b' = btn_option b /\
  btn_listeners b' = btn_listeners b /\
  (btn_disabled b = true -> btn_disabled b' = true).

(** The option buttons of [w] are all still on [w'], in their order and
    before any new one, none of them enabled again. *)
Definition buttonsKept (w w' : World) : Prop :=
  exists kept added,
    chatOptionButtons (chatMessages w') = kept ++ added /\
    Forall2 sameOrDisabled (chatOptionButtons (chatMessages w)) kept.

(** How many typing indicators are on the page, and how many calls wait
    for their [fetch]. *)
Definition indicators (w : World) : nat :=
  length (filter isTypingIndicator (chatMessages w)).

Definition awaitsFetch (c : Call) : bool :=
  match call_phase c with
  | AwaitingFetch => true
  | AwaitingJson => false
  end.

Definition fetching (w : World) : nat :=
  length (filter awaitsFetch (inflight w)).

(** No typing indicator was added and the calls in flight are the same. *)
Definition noMoreTyping (w w' : World) : Prop :=
  indicators w' <= indicators w /\ inflight w' = inflight w.

(** The button [addOptionsToChat] makes of a string entry. *)
Definition stringButton (s : string) : Button :=
  mkButton s (Str s) false "" "" false [SendOption].

(** A page on which two typed messages are in flight and the second has
    been answered with status 500. *)
Definition secondCallFailed : World :=
  run [Input "first"; ClickSend; Input "second"; ClickSend;
       FetchSettles 2 (Responded false 500)]
      bookingOffered.

(** A page on which the conversation ended while "Yes" and "No" of an
    earlier answer were still enabled (two typed messages had been in
    flight together), and the user then clicked "Yes". *)
Definition endedThenClicked : World :=
  run [Input "first"; ClickSend; Input "second"; ClickSend;
       FetchSettles 1 (Responded true 200);
       JsonSettles 1 (inr (Obj [("response", Str "Shall I book?");
                                ("action", Str "offer_booking")]));
       FetchSettles 2 (Responded true 200);
       JsonSettles 2 (inr (Obj [("response", Str "Goodbye.");
                                ("action", Str "conversation_end")]));
       ClickOption 6 0;
       FetchSettles 3 (Responded true 200);
       JsonSettles 3 (inr (Obj [("response", Str "Goodbye.")]))]
      bookingOffered.

(** A page on which two typed messages are in flight, both answered, and
    the body of the second has been read before that of the first. *)
Definition secondBodyRead : World :=
  run [Input "first"; ClickSend; Input "second"; ClickSend;
       FetchSettles 1 (Responded true 200); FetchSettles 2 (Responded true 200);
       JsonSettles 2 (inr (Obj [("response", Str "to second");
                                ("data", Obj [("state", Str "after second")])]))]
      bookingOffered.

(** *** Vocabulary of turns that overlap *)



(** The event is a submission by the user: a click on the send button, a
    key in the input box, a click on an option. *)
Definition submission (ev : Event) : bool :=
  match ev with
  | ClickSend | KeyPress _ | ClickOption _ _ => true
  | Load | Input _ | FetchSettles _ _ | JsonSettles _ _ => false
  end.

(** What the page ends with once the body of the bootstrap response has
    been handled and [checkBackendConnection] has gone on: the reply and
    what the dispatcher rendered, or, the dispatcher having thrown, the
    reply and the notice of the [catch] block.  In that case a reply that
    reads like the connecting message is the one [checkBackendConnection]
    removes (script.js 37-40). *)
Definition afterReply (body : value) (text : string) : list Node :=
  match thrown (field body "action") (field body "data") with
  | inr _ => BotMessage text :: rendered (field body "action") (field body "data")
  | inl e => (if text =? loadingMsg then [] else [BotMessage text]) ++ [BotMessage (notice e)]
  end.

(** ** What each function leaves alone *)

Lemma prop_truthy (data : value) (k : string) :
  truthy data = true -> prop data k = inr (field data k).
Proof. destruct data; simpl; intros H; try reflexivity; discriminate. Qed.

Lemma addBotMessage_Str (s : string) (w : World) :
  addBotMessage (Str s) w = (inr tt, appendChild (BotMessage s) w).
Proof. reflexivity. Qed.

Lemma addBotMessage_session (m : value) (w : World) :
  session (snd (addBotMessage m w)) = session w /\
  inflight (snd (addBotMessage m w)) = inflight w.
Proof.
  unfold addBotMessage, bind, lift, modify.
  destruct (toText m); simpl; auto.
Qed.

Lemma addUserMessage_session (m : value) (w : World) :
  session (snd (addUserMessage m w)) = session w /\
  inflight (snd (addUserMessage m w)) = inflight w /\
  nextNode (snd (addUserMessage m w)) = nextNode w.
Proof.
  unfold addUserMessage, bind, lift, modify.
  destruct (toText m); simpl; auto.
Qed.

Lemma sendMessage_catch_session (e : error) (w : World) :
  session (sendMessage_catch e w) = session w /\
  inflight (sendMessage_catch e w) = inflight w.
Proof. split; reflexivity. Qed.

Lemma resume_session (a : Awaiter) (w : World) :
  session (resume a w) = session w /\ inflight (resume a w) = inflight w.
Proof.
  destruct a; simpl; auto.
  unfold checkBackendConnection_resume.
  destruct (_ && _); auto.
Qed.

(** A call of [sendMessage], up to its [await], touches neither the session
    state nor the two controls. *)
Lemma sendMessageAs_session (a : Awaiter) (m : value) (w : World) :
  session (sendMessageAs a m w) = session w.
Proof.
  unfold sendMessageAs, sendMessage_request, bind, modify, ret.
  destruct (negb (isStr m "Hello")).
  - pose proof (addUserMessage_session m w) as [Hs _].
    destruct (addUserMessage m w) as [[e | []] w1]; simpl in *.
    + rewrite (proj1 (resume_session a _)). exact Hs.
    + exact Hs.
  - reflexivity.
Qed.

(** ** The dispatcher *)

(** Whatever [addOptionsToChat] is given, it appends one container or
    throws and leaves the page as it was. *)
Lemma addOptionsToChat_cases (options : value) (w : World) :
  (exists e, addOptionsToChat options w = (inl e, w)) \/
  (exists bs, addOptionsToChat options w = (inr tt, appendChild (InChatOptions bs) w)).
Proof.
  destruct options; simpl; try (left; eexists; reflexivity).
  unfold bind, lift, modify.
  destruct (createOptionButtons items) as [e | bs].
  - left; eexists; reflexivity.
  - right; eexists; reflexivity.
Qed.

Lemma addOptionsToChat_not_array (options : value) (w : World) :
  isArray options = false ->
  exists e, addOptionsToChat options w = (inl e, w).
Proof.
  destruct options; simpl; intros H; try discriminate; eexists; reflexivity.
Qed.

(** Every truthy [data.options] that is not an array makes the
    [show_options] branch throw. *)
Lemma show_options_truthy_non_array (data : value) (w : World) :
  truthy data = true ->
  truthy (field data "options") = true ->
  isArray (field data "options") = false ->
  exists e, handleAction (Str "show_options") data w = (inl e, w).
Proof.
  intros Hd Ho Ha. unfold handleAction. simpl. rewrite Hd, Ho. simpl.
  apply addOptionsToChat_not_array; assumption.
Qed.

(** C4.  The code at the failing input: [show_options] with
    [options: "Cardiology"] (present, not an array).  [handleAction] passes
    the string to [addOptionsToChat], whose [options.forEach] throws a
    TypeError; in the turn that received it, the [catch] block of
    [sendMessage] then reports an error although the reply was shown and
    the session state replaced.  The sibling branch [request_doctor] guards
    with [Array.isArray]; this branch does not. *)
Theorem show_options_not_array_throws (w : World) :
  handleAction (Str "show_options") (Obj [("options", Str "Cardiology")]) w
    = (inl (TypeError "options.forEach is not a function"), w) /\
  handleAction (Str "request_doctor") (Obj [("doctors", Str "Cardiology")]) w
    = (inr tt, appendChild
                 (ErrorNotice "Error: No department specified. Please type your selection.") w) /\
  chatMessages
    (run [Load;
          FetchSettles 0 (Responded true 200);
          JsonSettles 0 (inr (Obj [("response", Str "Pick a department");
                                   ("action", Str "show_options");
                                   ("data", Obj [("options", Str "Cardiology")])]))]
         initial)
    = [BotMessage welcomeMsg;
       BotMessage loadingMsg;
       BotMessage "Pick a department";
       BotMessage sorryNotice].
Proof. repeat split; reflexivity. Qed.

(** ** Options rendered from an array *)

Lemma createOptionButtons_coerce (items : list value) (cs : list Choice) :
  Forall2 (fun entry c => coerce entry = inr c) items cs ->
  exists bs,
    createOptionButtons items = inr bs /\
    map choiceOf bs = cs /\
    map btn_option bs = items /\
    Forall (fun b => btn_disabled b = false /\ btn_listeners b = [SendOption]) bs.
Proof.
  induction 1 as [| entry c items cs Hc _ IH].
  - exists []; simpl; auto.
  - destruct IH as (bs & Hbs & Hmap & Hopt & Hall).
    simpl. unfold createOptionButton.
    unfold coerce in Hc.
    destruct (prop entry "text") as [e | text]; simpl in *; [discriminate |].
    destruct (toText (orElse text entry)) as [e | label]; simpl in *; [discriminate |].
    rewrite Hbs; simpl.
    eexists; split; [reflexivity |].
    inversion Hc; subst c; simpl.
    repeat split; try (f_equal; assumption).
    constructor; simpl; auto.
Qed.

(** C5 (as amended).  For [show_options] with [data.options] an array
    whose entries all coerce (none is [null], each label converts to a
    string), [handleAction] appends one container holding one enabled
    button per entry, in order, the entry at place [k] giving the label
    [entry.text || entry] and, on click, the message [entry.value || entry].
    So [["A","B"]] gives two options labelled "A" and "B" that send "A" and
    "B". *)
Theorem show_options_renders_each_entry
    (data : value) (items : list value) (cs : list Choice) (w : World) :
  truthy data = true ->
  field data "options" = Arr items ->
  Forall2 (fun entry c => coerce entry = inr c) items cs ->
  exists bs,
    handleAction (Str "show_options") data w
      = (inr tt, appendChild (InChatOptions bs) w) /\
    map choiceOf bs = cs /\
    length bs = length items /\
    Forall (fun b => btn_disabled b = false) bs.
Proof.
  intros Hd Ho Hcs.
  destruct (createOptionButtons_coerce items cs Hcs) as (bs & Hbs & Hmap & Hopt & Hall).
  exists bs. unfold handleAction; simpl. rewrite Hd, Ho; simpl.
  unfold bind, lift, modify. rewrite Hbs.
  repeat split; auto.
  - rewrite <- Hopt. now rewrite length_map.
  - eapply Forall_impl; [| exact Hall]. simpl; tauto.
Qed.

Lemma show_options_renders_each_entry_witness :
  truthy (Obj [("options", Arr [Str "A"; Str "B"])]) = true /\
  field (Obj [("options", Arr [Str "A"; Str "B"])]) "options" = Arr [Str "A"; Str "B"] /\
  choices (exec (handleAction (Str "show_options")
                   (Obj [("options", Arr [Str "A"; Str "B"])]))
                initial)
    = [mkChoice "A" (inr (Str "A")); mkChoice "B" (inr (Str "B"))].
Proof.
  split; [reflexivity |]. split; [reflexivity |].
  destruct (show_options_renders_each_entry
              (Obj [("options", Arr [Str "A"; Str "B"])]) [Str "A"; Str "B"]
              [mkChoice "A" (inr (Str "A")); mkChoice "B" (inr (Str "B"))]
              initial eq_refl eq_refl)
    as (bs & Hrun & Hcs & _ & Hen).
  { repeat constructor. }
  unfold exec. rewrite Hrun. unfold choices. simpl. rewrite app_nil_r.
  rewrite <- Hcs. f_equal.
  clear Hrun Hcs. induction Hen as [| b l Hb _ IH]; simpl; [reflexivity |].
  rewrite Hb. simpl. now rewrite IH.
Defined.

(** C5 (as stated) fails.  An entry [{text: "", value: 0}] is rendered with
    its label and value taken from the entry itself, the empty text and the
    zero being falsy, where [??] would keep "" and 0; and an array holding
    [null] renders nothing at all, reading [option.text] throws. *)
Lemma show_options_nullish_counterexample :
  coerceNullish (Obj [("text", Str ""); ("value", Num 0)])
    = inr (mkChoice "" (inr (Num 0))) /\
  choices (exec (handleAction (Str "show_options")
                   (Obj [("options", Arr [Obj [("text", Str ""); ("value", Num 0)]])]))
                initial)
    = [mkChoice "[object Object]" (inr (Obj [("text", Str ""); ("value", Num 0)]))] /\
  handleAction (Str "show_options") (Obj [("options", Arr [Null])]) initial
    = (inl (TypeError "Cannot read properties of null (reading 'text')"), initial).
Proof. repeat split; reflexivity. Qed.

(** ** Conversation end and restart *)

Lemma onLastChatOptionButton_last (f : Button -> Button) (l : list Node) (b : Button) :
  onLastChatOptionButton f (l ++ [InChatOptions [b]]) = l ++ [InChatOptions [f b]].
Proof.
  unfold onLastChatOptionButton.
  rewrite rev_app_distr; simpl.
  now rewrite rev_involutive.
Qed.

Lemma nth_error_last {A : Type} (l : list A) (x : A) :
  nth_error (l ++ [x]) (length l) = Some x.
Proof. induction l; simpl; auto. Qed.

Lemma keepsDisabled_refl (w : World) : keepsDisabled w w.
Proof. unfold keepsDisabled; auto. Qed.

Lemma keepsDisabled_trans (w1 w2 w3 : World) :
  keepsDisabled w1 w2 -> keepsDisabled w2 w3 -> keepsDisabled w1 w3.
Proof.
  unfold keepsDisabled; intros (A & B & C) (A' & B' & C').
  repeat split; auto; congruence.
Qed.

Lemma keepsDisabled_session (w w' : World) :
  session w' = session w -> inflight w' = inflight w -> keepsDisabled w w'.
Proof.
  unfold session, keepsDisabled; intros H Hi.
  inversion H as [[Hu Hin Hsb]].
  rewrite Hin, Hsb. auto.
Qed.

Lemma addOptionsToChat_session (options : value) (w : World) :
  session (snd (addOptionsToChat options w)) = session w /\
  inflight (snd (addOptionsToChat options w)) = inflight w.
Proof.
  destruct (addOptionsToChat_cases options w) as [[e H] | [bs H]];
    rewrite H; simpl; auto.
Qed.

Lemma handleAction_conversation_end (data : value) (w : World) :
  handleAction (Str "conversation_end") data w
  = (inr tt,
     set_chatMessages (chatMessages w ++ [InChatOptions [restartButton]])
       (set_sendButton_disabled true (set_userInput_disabled true w))).
Proof.
  unfold handleAction; simpl.
  unfold bind, modify; simpl.
  unfold set_chatMessages at 1; simpl.
  rewrite onLastChatOptionButton_last.
  reflexivity.
Qed.

Lemma handleAction_keeps (action data : value) (w : World) :
  userData (snd (handleAction action data w)) = userData w /\
  keepsDisabled w (snd (handleAction action data w)).
Proof.
  destruct (isStr action "conversation_end") eqn:Hend.
  - destruct action; simpl in Hend; try discriminate.
    apply String.eqb_eq in Hend; subst s.
    rewrite handleAction_conversation_end; simpl.
    unfold keepsDisabled; simpl; auto.
  - unfold handleAction. rewrite Hend.
    repeat match goal with
           | |- context [if ?c then _ else _] => destruct c
           end;
      match goal with
      | |- context [addOptionsToChat ?o w] =>
          destruct (addOptionsToChat_session o w) as [Hs Hi];
          split; [unfold session in Hs; congruence | apply keepsDisabled_session; assumption]
      | |- _ => simpl; split; [reflexivity | apply keepsDisabled_session; reflexivity]
      end.
Qed.

(** *** Relating the page before and after a statement *)

Section Preserves.

Variable R : World -> World -> Prop.
Hypothesis R_refl : forall w, R w w.
Hypothesis R_trans : forall w1 w2 w3, R w1 w2 -> R w2 w3 -> R w1 w3.

Lemma preserves_ret {A : Type} (a : A) : preserves R (ret a).
Proof. intros w; apply R_refl. Qed.

Lemma preserves_throw {A : Type} (e : error) : preserves R (@throw A e).
Proof. intros w; apply R_refl. Qed.

Lemma preserves_lift {A : Type} (r : result A) : preserves R (lift r).
Proof. intros w; apply R_refl. Qed.

Lemma preserves_modify (f : World -> World) :
  (forall w, R w (f w)) -> preserves R (modify f).
Proof. intros H w; apply H. Qed.

Lemma preserves_bind {A B : Type} (m : M A) (k : A -> M B) :
  preserves R m -> (forall a, preserves R (k a)) -> preserves R (bind m k).
Proof.
  intros Hm Hk w. unfold bind.
  specialize (Hm w).
  destruct (m w) as [[e | a] w']; simpl in *; [assumption |].
  eapply R_trans; [exact Hm | apply Hk].
Qed.

Lemma preserves_tryCatch (m : M unit) (handler : error -> World -> World) :
  preserves R m -> (forall e w, R w (handler e w)) ->
  forall w, R w (tryCatch m handler w).
Proof.
  intros Hm Hh w. unfold tryCatch.
  specialize (Hm w).
  destruct (m w) as [[e | u] w']; simpl in *; [| assumption].
  eapply R_trans; [exact Hm | apply Hh].
Qed.

End Preserves.

Lemma removeChild_indicator_session (node : nat) (w : World) :
  session (snd (removeChild_indicator node w)) = session w /\
  inflight (snd (removeChild_indicator node w)) = inflight w.
Proof.
  unfold removeChild_indicator.
  destruct (removeIndicator node (chatMessages w)); simpl; auto.
Qed.

Lemma addBotMessage_keeps (m : value) : preserves keepsDisabled (addBotMessage m).
Proof. intros w. apply keepsDisabled_session; apply addBotMessage_session. Qed.

Lemma removeChild_indicator_keeps (node : nat) :
  preserves keepsDisabled (removeChild_indicator node).
Proof. intros w. apply keepsDisabled_session; apply removeChild_indicator_session. Qed.

Lemma handleAction_preserves (action data : value) :
  preserves keepsDisabled (handleAction action data).
Proof. intros w. apply handleAction_keeps. Qed.

Ltac keeps_step :=
  first
    [ apply addBotMessage_keeps
    | apply removeChild_indicator_keeps
    | apply handleAction_preserves
    | apply preserves_throw; apply keepsDisabled_refl
    | apply preserves_ret; apply keepsDisabled_refl
    | apply preserves_lift; apply keepsDisabled_refl
    | apply preserves_modify; intros ?; apply keepsDisabled_session; reflexivity
    | apply preserves_bind; [apply keepsDisabled_trans | | intros ?] ].

Lemma sendMessage_response_keeps (call : Call) (o : Outcome) :
  preserves keepsDisabled (sendMessage_response call o).
Proof.
  destruct o as [e | ok status]; simpl.
  - keeps_step.
  - repeat keeps_step.
    destruct (negb ok); keeps_step.
Qed.

Lemma sendMessage_body_keeps (body : result value) :
  preserves keepsDisabled (sendMessage_body body).
Proof.
  unfold sendMessage_body. repeat keeps_step.
  intros w. unfold keepsDisabled; simpl; auto.
Qed.

Lemma sendMessage_parsed_keeps (call : Call) (body : result value) (w : World) :
  keepsDisabled w (sendMessage_parsed call body w).
Proof.
  unfold sendMessage_parsed.
  eapply keepsDisabled_trans.
  - apply (preserves_tryCatch keepsDisabled keepsDisabled_trans).
    + apply sendMessage_body_keeps.
    + intros e w'. apply keepsDisabled_session; apply sendMessage_catch_session.
  - apply keepsDisabled_session; apply resume_session.
Qed.

Lemma sendMessage_fetched_session (call : Call) (o : Outcome) (w : World) :
  session (sendMessage_fetched call o w) = session w.
Proof.
  unfold sendMessage_fetched.
  assert (Hr : session (snd (sendMessage_response call o w)) = session w).
  { destruct o as [e | ok status]; [reflexivity |].
    unfold sendMessage_response, bind.
    pose proof (removeChild_indicator_session (call_indicator call) w) as [Hs _].
    destruct (removeChild_indicator (call_indicator call) w) as [[e | u] w1];
      simpl in *; [exact Hs |].
    destruct (negb ok); exact Hs. }
  destruct (sendMessage_response call o w) as [[e | u] w']; simpl in Hr.
  - rewrite (proj1 (resume_session _ _)).
    rewrite (proj1 (sendMessage_catch_session _ _)). exact Hr.
  - exact Hr.
Qed.

Lemma onOptionClick_session (i j : nat) (w : World) :
  session (onOptionClick i j w) = session w.
Proof.
  unfold onOptionClick.
  destruct (nth_error (chatMessages w) i) as [[| | | bs |] |]; try reflexivity.
  destruct (nth_error bs j) as [b |]; try reflexivity.
  destruct (optionValue (btn_option b)); [reflexivity |].
  unfold sendMessage. now rewrite sendMessageAs_session.
Qed.

Lemma listeners_session (i j : nat) (ls : list Listener) (w : World) :
  existsb isReset ls = false ->
  session (fold_left (fun w' l => runListener i j l w') ls w) = session w.
Proof.
  revert w. induction ls as [| l ls IH]; intros w H; simpl in *; [reflexivity |].
  apply orb_false_elim in H as [Hl Hls].
  rewrite IH by assumption.
  destruct l; [apply onOptionClick_session | discriminate].
Qed.

Lemma submitInput_session (w : World) : session (submitInput w) = session w.
Proof.
  unfold submitInput.
  destruct (negb _); [| reflexivity].
  unfold sendMessage.
  change (session (sendMessageAs Detached (Str (trim (userInput_value w))) w) = session w).
  apply sendMessageAs_session.
Qed.

Lemma initChat_session (w : World) : session (initChat w) = session w.
Proof.
  unfold initChat, checkBackendConnection.
  now rewrite sendMessageAs_session.
Qed.

(** Every event that is neither a click on a restart button nor the
    arrival of a response body leaves the session state and both controls
    alone. *)
Lemma step_session (ev : Event) (w : World) :
  restartClick ev w = false -> isJsonSettles ev = false ->
  session (step ev w) = session w.
Proof.
  intros Hr Hs. destruct ev; simpl in *; try discriminate.
  - apply initChat_session.
  - destruct (userInput_disabled w); reflexivity.
  - destruct (sendButton_disabled w); [reflexivity | apply submitInput_session].
  - destruct (userInput_disabled w); [reflexivity |].
    unfold onKeyPress. destruct (key =? "Enter"); [apply submitInput_session | reflexivity].
  - destruct (nth_error (chatMessages w) i) as [[| | | bs |] |]; try reflexivity.
    destruct (nth_error bs j) as [b |]; try reflexivity.
    destruct (btn_disabled b); [reflexivity |].
    apply listeners_session. exact Hr.
  - destruct (takeCall indicator (inflight w)) as [[call others] |]; [| reflexivity].
    destruct (call_phase call); [| reflexivity].
    apply (sendMessage_fetched_session call o (set_inflight others w)).
Qed.

(** What is done with the body of a response never enables a control. *)
Lemma step_body_keeps (indicator : nat) (body : result value) (w : World) :
  (userInput_disabled w = true ->
   userInput_disabled (step (JsonSettles indicator body) w) = true) /\
  (sendButton_disabled w = true ->
   sendButton_disabled (step (JsonSettles indicator body) w) = true).
Proof.
  simpl.
  destruct (takeCall indicator (inflight w)) as [[call others] |]; [| auto].
  destruct (call_phase call); [auto |].
  destruct (sendMessage_parsed_keeps call body (set_inflight others w)) as (A & B & _).
  auto.
Qed.

(** C7.  On [conversation_end] the dispatcher disables both free-text
    controls (typing, the send button and the Enter key then do nothing)
    and renders one enabled option, labelled "Start New Conversation" and
    sending "Hello".  A click on it leaves the session state at its initial
    value [{state: null}] and both controls enabled.  No other event
    enables a disabled control, and no other event but the arrival of a
    response body changes the session state. *)
Theorem conversation_end_and_restart (data : value) (w : World) :
  let ended :=
    set_chatMessages (chatMessages w ++ [InChatOptions [restartButton]])
      (set_sendButton_disabled true (set_userInput_disabled true w)) in
  handleAction (Str "conversation_end") data w = (inr tt, ended) /\
  (forall text, step (Input text) ended = ended) /\
  step ClickSend ended = ended /\
  (forall key, step (KeyPress key) ended = ended) /\
  choiceOf restartButton = mkChoice "Start New Conversation" (inr (Str "Hello")) /\
  session (step (ClickOption (length (chatMessages w)) 0) ended)
    = (initialUserData, false, false) /\
  (forall ev w0,
      restartClick ev w0 = false ->
      (userInput_disabled w0 = true -> userInput_disabled (step ev w0) = true) /\
      (sendButton_disabled w0 = true -> sendButton_disabled (step ev w0) = true) /\
      (isJsonSettles ev = false -> userData (step ev w0) = userData w0)).
Proof.
  intros ended.
  split; [apply handleAction_conversation_end |].
  repeat split; try reflexivity.
  - unfold ended; simpl. rewrite nth_error_last; simpl. reflexivity.
  - destruct ev; try (intros Hd; rewrite <- Hd;
                      pose proof (step_session _ w0 H eq_refl) as Hk;
                      unfold session in Hk; congruence).
    apply step_body_keeps.
  - destruct ev; try (intros Hd; rewrite <- Hd;
                      pose proof (step_session _ w0 H eq_refl) as Hk;
                      unfold session in Hk; congruence).
    apply step_body_keeps.
  - intros Hs. pose proof (step_session ev w0 H Hs) as Hk.
    unfold session in Hk; congruence.
Qed.

Lemma conversation_end_and_restart_witness :
  restartClick ClickSend initial = false /\
  userData (step ClickSend initial) = userData initial /\
  session (step (ClickOption 0 0)
             (exec (handleAction (Str "conversation_end") Undefined) initial))
    = (initialUserData, false, false).
Proof.
  destruct (conversation_end_and_restart Undefined initial)
    as (_ & _ & _ & _ & _ & Hclick & Honly).
  split; [reflexivity |].
  split; [apply (Honly ClickSend initial); reflexivity |].
  exact Hclick.
Defined.

(** ** What a call of [sendMessage] does before it suspends *)

(** The page a call of [sendMessage] leaves at its [await], when the
    message converts to text. *)
Lemma sendMessageAs_suspended (a : Awaiter) (m : value) (text : string) (w : World) :
  toText m = inr text ->
  sendMessageAs a m w
  = issueFetch m a
      (disableAllButtons
         (if isStr m "Hello" then w else appendChild (UserMessage text) w)).
Proof.
  intros Ht.
  unfold sendMessageAs, sendMessage_request, bind, modify, ret.
  destruct (isStr m "Hello"); simpl; [reflexivity |].
  unfold addUserMessage, bind, lift, modify. rewrite Ht. reflexivity.
Qed.

Lemma userMessages_disableAllButtons (w : World) :
  userMessages (disableAllButtons w) = userMessages w.
Proof.
  unfold userMessages, disableAllButtons; simpl.
  induction (chatMessages w) as [| n l IH]; simpl; [reflexivity |].
  destruct n; simpl; rewrite IH; reflexivity.
Qed.

Lemma userMessages_issueFetch (m : value) (a : Awaiter) (w : World) :
  userMessages (issueFetch m a w) = userMessages w.
Proof.
  unfold userMessages, issueFetch; simpl.
  rewrite filter_app; simpl. apply app_nil_r.
Qed.

(** C9.  A call of [sendMessage] adds the message to the transcript as a
    user message exactly when the message is not the string "Hello"; the
    call is issued either way.  That holds for text the user typed too:
    with "Hello" (white space around it or not) in the input box, a click
    on the send button issues a call with message "Hello" and shows no
    user message. *)
Theorem user_echo_iff_not_hello :
  (forall (a : Awaiter) (m : value) (text : string) (w : World),
      toText m = inr text ->
      userMessages (sendMessageAs a m w)
        = userMessages w ++ (if isStr m "Hello" then [] else [UserMessage text]) /\
      inflight (sendMessageAs a m w)
        = inflight w ++ [mkCall (nextNode w) (requestData m w) a AwaitingFetch]) /\
  (forall w : World,
      sendButton_disabled w = false ->
      trim (userInput_value w) = "Hello" ->
      userMessages (step ClickSend w) = userMessages w /\
      inflight (step ClickSend w)
        = inflight w ++ [mkCall (nextNode w) (requestData (Str "Hello") w) Detached AwaitingFetch]).
Proof.
  assert (Hsend : forall a m text w,
             toText m = inr text ->
             userMessages (sendMessageAs a m w)
               = userMessages w ++ (if isStr m "Hello" then [] else [UserMessage text]) /\
             inflight (sendMessageAs a m w)
               = inflight w ++ [mkCall (nextNode w) (requestData m w) a AwaitingFetch]).
  { intros a m text w Ht.
    rewrite (sendMessageAs_suspended a m text w Ht).
    rewrite userMessages_issueFetch, userMessages_disableAllButtons.
    destruct (isStr m "Hello"); split; try reflexivity.
    - now rewrite app_nil_r.
    - unfold userMessages; simpl. rewrite filter_app. reflexivity. }
  split; [exact Hsend |].
  intros w Hen Htrim. simpl. rewrite Hen.
  unfold submitInput. rewrite Htrim. simpl.
  destruct (Hsend Detached (Str "Hello") "Hello" w eq_refl) as [Hu Hi].
  split; [rewrite <- app_nil_r; exact Hu | exact Hi].
Qed.

Lemma user_echo_iff_not_hello_witness :
  userMessages (sendMessage (Str "Yes") initial) = [UserMessage "Yes"] /\
  userMessages (sendMessage (Str "Hello") initial) = [] /\
  trim (userInput_value (step (Input "  Hello ") initial)) = "Hello" /\
  userMessages (run [Input "  Hello "; ClickSend] initial) = [].
Proof.
  destruct user_echo_iff_not_hello as [Hsend Htyped].
  split; [apply (Hsend Detached (Str "Yes") "Yes" initial eq_refl) |].
  split; [apply (Hsend Detached (Str "Hello") "Hello" initial eq_refl) |].
  split; [reflexivity |].
  apply (Htyped (step (Input "  Hello ") initial)); reflexivity.
Defined.

(** C10.  A click on the restart button runs its two listeners in the
    order they were added.  The first calls [sendMessage("Hello")], and the
    body of the request it issues holds the session state the page had
    before the click; only then does the second set [userData] to
    [{state: null}]. *)
Theorem restart_request_carries_old_state
    (w : World) (i j : nat) (bs : list Button) (b : Button) :
  nth_error (chatMessages w) i = Some (InChatOptions bs) ->
  nth_error bs j = Some b ->
  btn_disabled b = false ->
  btn_option b = textValue "Start New Conversation" "Hello" ->
  btn_listeners b = [SendOption; ResetSession] ->
  inflight (step (ClickOption i j) w)
    = inflight w ++ [mkCall (nextNode w)
                       (Obj [("message", Str "Hello"); ("user_data", userData w)])
                       Detached AwaitingFetch] /\
  userData (step (ClickOption i j) w) = initialUserData.
Proof.
  intros Hi Hj Hdis Hopt Hls.
  simpl. rewrite Hi, Hj, Hdis, Hls. simpl.
  split; [| reflexivity].
  unfold onOptionClick. rewrite Hi, Hj, Hopt. simpl.
  reflexivity.
Qed.

Lemma restart_request_carries_old_state_witness :
  inflight (step (ClickOption 0 0)
              (exec (handleAction (Str "conversation_end") Null)
                 (set_userData (Obj [("state", Str "done")]) initial)))
    = [mkCall 0 (Obj [("message", Str "Hello");
                      ("user_data", Obj [("state", Str "done")])])
         Detached AwaitingFetch] /\
  userData (step (ClickOption 0 0)
              (exec (handleAction (Str "conversation_end") Null)
                 (set_userData (Obj [("state", Str "done")]) initial)))
    = initialUserData.
Proof.
  apply (restart_request_carries_old_state
           (exec (handleAction (Str "conversation_end") Null)
              (set_userData (Obj [("state", Str "done")]) initial))
           0 0 [restartButton] restartButton); reflexivity.
Defined.

(** ** Failed turns *)

Lemma notice_isNotice (e : error) : isNotice (notice e).
Proof.
  unfold isNotice, notice.
  destruct (err_name e =? "AbortError"); auto.
  destruct (_ || _); auto.
Qed.

Lemma removeFirstIndicator_others (l : list Node) :
  filter (fun n => negb (isTypingIndicator n)) (removeFirstIndicator l)
    = filter (fun n => negb (isTypingIndicator n)) l /\
  chatOptionButtons (removeFirstIndicator l) = chatOptionButtons l.
Proof.
  induction l as [| n l [IH1 IH2]]; simpl; [auto |].
  destruct n; simpl; rewrite ?IH1, ?IH2; auto.
Qed.

Lemma removeIndicator_others (node : nat) (l l' : list Node) :
  removeIndicator node l = Some l' ->
  filter (fun n => negb (isTypingIndicator n)) l'
    = filter (fun n => negb (isTypingIndicator n)) l /\
  chatOptionButtons l' = chatOptionButtons l.
Proof.
  revert l'. induction l as [| n l IH]; simpl; intros l' H; [discriminate |].
  destruct n;
    try (destruct (removeIndicator node l) as [r |]; simpl in H; [| discriminate];
         inversion H; subst l'; destruct (IH r eq_refl) as [IH1 IH2];
         simpl; rewrite IH1, IH2; auto).
  destruct (node0 =? node)%nat.
  - inversion H; subst l'. auto.
  - destruct (removeIndicator node l) as [r |]; simpl in H; [| discriminate].
    inversion H; subst l'. destruct (IH r eq_refl) as [IH1 IH2].
    simpl; auto.
Qed.

Lemma chatOptionButtons_app (l1 l2 : list Node) :
  chatOptionButtons (l1 ++ l2) = chatOptionButtons l1 ++ chatOptionButtons l2.
Proof. unfold chatOptionButtons. apply flat_map_app. Qed.

(** The [catch] block: the first typing indicator goes, one notice comes,
    nothing else moves. *)
Lemma sendMessage_catch_effect (e : error) (w : World) :
  transcript (sendMessage_catch e w) = transcript w ++ [BotMessage (notice e)] /\
  session (sendMessage_catch e w) = session w /\
  inflight (sendMessage_catch e w) = inflight w /\
  chatOptionButtons (chatMessages (sendMessage_catch e w))
    = chatOptionButtons (chatMessages w).
Proof.
  destruct (removeFirstIndicator_others (chatMessages w)) as [Ht Hb].
  unfold transcript, sendMessage_catch, exec; simpl.
  rewrite filter_app, chatOptionButtons_app, Ht, Hb; simpl.
  rewrite app_nil_r. auto.
Qed.

(** On a failure the script detects, the [try] block throws before it has
    shown a reply or touched the session state. *)
Lemma failed_fetch_throws (call : Call) (o : Outcome) (w : World) :
  failedFetch o = true ->
  exists e w1,
    sendMessage_response call o w = (inl e, w1) /\
    transcript w1 = transcript w /\
    session w1 = session w /\
    inflight w1 = inflight w /\
    chatOptionButtons (chatMessages w1) = chatOptionButtons (chatMessages w).
Proof.
  intros Hf. destruct o as [e | ok status].
  - exists e, w. repeat split; reflexivity.
  - simpl in Hf. destruct ok; [discriminate |].
    unfold sendMessage_response, bind, removeChild_indicator, throw.
    destruct (removeIndicator (call_indicator call) (chatMessages w)) as [l' |] eqn:Hrm.
    + destruct (removeIndicator_others _ _ _ Hrm) as [Ht Hb].
      cbn. do 2 eexists; (split; [reflexivity |]); repeat split; assumption.
    + do 2 eexists; (split; [reflexivity |]); repeat split; reflexivity.
Qed.

Lemma failed_body_throws (body : result value) (w : World) :
  failedBody body = true ->
  exists e, sendMessage_body body w = (inl e, w).
Proof.
  intros Hf. unfold sendMessage_body, bind, lift.
  destruct body as [e | [| | | | | |]]; try discriminate; eexists; reflexivity.
Qed.

Lemma onlyOneNotice_catch (e : error) (w w1 : World) :
  transcript w1 = transcript w ->
  session w1 = session w ->
  inflight w1 = inflight w ->
  chatOptionButtons (chatMessages w1) = chatOptionButtons (chatMessages w) ->
  onlyOneNotice w (sendMessage_catch e w1).
Proof.
  intros Ht Hs Hi Hb.
  destruct (sendMessage_catch_effect e w1) as (Ct & Cs & Ci & Cb).
  unfold onlyOneNotice. split.
  { exists (notice e). split; [apply notice_isNotice | congruence]. }
  repeat split; congruence.
Qed.

(** C2 (as amended).  When the [fetch] rejects or the status is not 2xx,
    and when the body is not JSON or is JSON [null], the rest of
    [sendMessage] appends exactly one message to the transcript, one of the
    three notices of the [catch] block, and changes nothing else but typing
    indicators: the session state and both free-text controls are as they
    were, no call is issued (no retry), and every option button is as the
    start of the turn left it.  So it is for the page when such a call,
    awaited by nobody, settles.  The start of a turn never touches the
    session state or the controls. *)
Theorem failed_turn_one_notice :
  (forall call o w,
      failedFetch o = true ->
      onlyOneNotice w (tryCatch (sendMessage_response call o) sendMessage_catch w)) /\
  (forall body w,
      failedBody body = true ->
      onlyOneNotice w (tryCatch (sendMessage_body body) sendMessage_catch w)) /\
  (forall w indicator o call others,
      takeCall indicator (inflight w) = Some (call, others) ->
      call_phase call = AwaitingFetch ->
      call_awaiter call = Detached ->
      failedFetch o = true ->
      onlyOneNotice (set_inflight others w) (step (FetchSettles indicator o) w)) /\
  (forall w indicator body call others,
      takeCall indicator (inflight w) = Some (call, others) ->
      call_phase call = AwaitingJson ->
      call_awaiter call = Detached ->
      failedBody body = true ->
      onlyOneNotice (set_inflight others w) (step (JsonSettles indicator body) w)) /\
  (forall a m w, session (sendMessageAs a m w) = session w).
Proof.
  assert (Hfetch : forall call o w,
             failedFetch o = true ->
             onlyOneNotice w (tryCatch (sendMessage_response call o) sendMessage_catch w)).
  { intros call o w Hf.
    destruct (failed_fetch_throws call o w Hf) as (e & w1 & Hr & Ht & Hs & Hi & Hb).
    unfold tryCatch. rewrite Hr. apply onlyOneNotice_catch; assumption. }
  assert (Hbody : forall body w,
             failedBody body = true ->
             onlyOneNotice w (tryCatch (sendMessage_body body) sendMessage_catch w)).
  { intros body w Hf.
    destruct (failed_body_throws body w Hf) as (e & Hr).
    unfold tryCatch. rewrite Hr. apply onlyOneNotice_catch; reflexivity. }
  split; [exact Hfetch |]. split; [exact Hbody |].
  split; [| split].
  - intros w indicator o call others Ht Hph Haw Hf.
    cbn [step]. rewrite Ht, Hph.
    specialize (Hfetch call o (set_inflight others w) Hf).
    unfold sendMessage_fetched. unfold tryCatch in Hfetch.
    destruct (failed_fetch_throws call o (set_inflight others w) Hf) as (e & w1 & Hr & _).
    rewrite Hr in *. rewrite Haw. exact Hfetch.
  - intros w indicator body call others Ht Hph Haw Hf.
    cbn [step]. rewrite Ht, Hph.
    unfold sendMessage_parsed. rewrite Haw. apply Hbody. exact Hf.
  - intros a m w. apply sendMessageAs_session.
Qed.

Lemma failed_turn_one_notice_witness :
  failedFetch timedOut = true /\
  onlyOneNotice
    (set_inflight [] (step (ClickOption 2 0) bookingOffered))
    (run [ClickOption 2 0; FetchSettles 1 timedOut] bookingOffered) /\
  skipn 3 (transcript (run [ClickOption 2 0; FetchSettles 1 timedOut] bookingOffered))
    = [UserMessage "Yes"; BotMessage sorryNotice] /\
  failedBody (inr Null) = true /\
  onlyOneNotice
    (set_inflight [] (run [ClickOption 2 0; FetchSettles 1 (Responded true 200)]
                          bookingOffered))
    (run [ClickOption 2 0; FetchSettles 1 (Responded true 200); JsonSettles 1 (inr Null)]
         bookingOffered).
Proof.
  destruct failed_turn_one_notice as (_ & _ & Hfetch & Hbody & _).
  split; [reflexivity |].
  split.
  { apply (Hfetch (step (ClickOption 2 0) bookingOffered) 1 timedOut
             (mkCall 1 (Obj [("message", Str "Yes");
                             ("user_data", Obj [("state", Str "offer")])])
                Detached AwaitingFetch) []);
      reflexivity. }
  split; [reflexivity |].
  split; [reflexivity |].
  apply (Hbody (run [ClickOption 2 0; FetchSettles 1 (Responded true 200)] bookingOffered)
           1 (inr Null)
           (mkCall 1 (Obj [("message", Str "Yes");
                           ("user_data", Obj [("state", Str "offer")])])
              Detached AwaitingJson) []);
    reflexivity.
Defined.

(** C2 (as stated) fails.  With "Yes" and "No" on offer, a click on "Yes"
    whose call times out leaves both buttons disabled: the options that
    were open before the call no longer are.  And a 2xx body that parses
    but lacks every field ([{}]) is not treated as a failure at all: no
    notice is shown, an empty reply is, and the session state is replaced
    by [{}]. *)
Lemma failed_turn_counterexample :
  interactionMode bookingOffered
    = ClosedOptions [mkChoice "Yes" (inr (Str "Yes")); mkChoice "No" (inr (Str "No"))] /\
  interactionMode (run [ClickOption 2 0; FetchSettles 1 timedOut] bookingOffered)
    = FreeText /\
  userData bookingOffered = Obj [("state", Str "offer")] /\
  userData (run [Input "hi"; ClickSend;
                 FetchSettles 1 (Responded true 200); JsonSettles 1 (inr (Obj []))]
                bookingOffered)
    = Obj [] /\
  skipn 3 (transcript
             (run [Input "hi"; ClickSend;
                   FetchSettles 1 (Responded true 200); JsonSettles 1 (inr (Obj []))]
                  bookingOffered))
    = [UserMessage "hi"; BotMessage ""].
Proof. repeat split; reflexivity. Qed.

(** ** One call at a time? *)

Lemma chatOptionButtons_disabled (l : list Node) :
  Forall (fun b => btn_disabled b = true) (chatOptionButtons (map disableNode l)).
Proof.
  induction l as [| n l IH]; simpl; [constructor |].
  apply Forall_app; split; [| exact IH].
  destruct n; simpl; try constructor.
  induction buttons; simpl; constructor; auto.
Qed.

Lemma allDisabled_issueFetch (m : value) (a : Awaiter) (w : World) :
  allDisabled (issueFetch m a (disableAllButtons w)).
Proof.
  unfold allDisabled, issueFetch; simpl.
  rewrite chatOptionButtons_app; simpl. rewrite app_nil_r.
  apply chatOptionButtons_disabled.
Qed.

Lemma in_chatOptionButtons (l : list Node) (i j : nat) (bs : list Button) (b : Button) :
  nth_error l i = Some (InChatOptions bs) -> nth_error bs j = Some b ->
  In b (chatOptionButtons l).
Proof.
  intros Hi Hj. unfold chatOptionButtons. apply in_flat_map.
  exists (InChatOptions bs). split.
  - eapply nth_error_In; eassumption.
  - eapply nth_error_In; eassumption.
Qed.

(** No click reaches a listener on a page whose buttons are all disabled. *)
Lemma click_allDisabled (i j : nat) (w : World) :
  allDisabled w -> step (ClickOption i j) w = w.
Proof.
  intros Hall. simpl.
  destruct (nth_error (chatMessages w) i) as [[| | | bs |] |] eqn:Hi; try reflexivity.
  destruct (nth_error bs j) as [b |] eqn:Hj; try reflexivity.
  unfold allDisabled in Hall. rewrite Forall_forall in Hall.
  rewrite (Hall b (in_chatOptionButtons _ _ _ _ _ Hi Hj)). reflexivity.
Qed.

(** C3 (as amended).  A call of [sendMessage] either issues no request (the
    message could not be shown) or issues exactly one after disabling every
    option button on the page, so that no click on an option can submit
    another turn from that page.  Free text is not held back: whenever the
    send button is enabled and the input box holds more than white space, a
    click on it issues one more request, whatever is in flight already. *)
Theorem options_disabled_free_text_not_guarded :
  (forall (a : Awaiter) (m : value) (w : World),
      inflight (sendMessageAs a m w) = inflight w \/
      (inflight (sendMessageAs a m w)
         = inflight w ++ [mkCall (nextNode w) (requestData m w) a AwaitingFetch] /\
       allDisabled (sendMessageAs a m w) /\
       choices (sendMessageAs a m w) = [] /\
       forall i j, step (ClickOption i j) (sendMessageAs a m w) = sendMessageAs a m w)) /\
  (forall w : World,
      sendButton_disabled w = false ->
      trim (userInput_value w) <> "" ->
      inflight (step ClickSend w)
        = inflight w ++ [mkCall (nextNode w)
                           (requestData (Str (trim (userInput_value w))) w)
                           Detached AwaitingFetch]).
Proof.
  split.
  - intros a m w.
    destruct (toText m) as [e | text] eqn:Ht.
    + left.
      assert (Hm : isStr m "Hello" = false).
      { destruct m; try reflexivity. simpl in Ht. discriminate. }
      unfold sendMessageAs, sendMessage_request, bind, modify, ret.
      rewrite Hm. cbn [negb].
      unfold addUserMessage, bind, lift. rewrite Ht.
      now rewrite (proj2 (resume_session a _)).
    + right.
      rewrite (sendMessageAs_suspended a m text w Ht).
      set (w1 := if isStr m "Hello" then w else appendChild (UserMessage text) w).
      assert (Hsame : inflight w1 = inflight w /\ nextNode w1 = nextNode w /\
                      userData w1 = userData w).
      { unfold w1; destruct (isStr m "Hello"); auto. }
      destruct Hsame as (Hi & Hn & Hu).
      pose proof (allDisabled_issueFetch m a w1) as Hall.
      split; [| split; [exact Hall | split]].
      * unfold issueFetch, requestData; simpl. rewrite Hi, Hn, Hu. reflexivity.
      * unfold choices, allDisabled in *.
        induction (chatOptionButtons (chatMessages (issueFetch m a (disableAllButtons w1))))
          as [| b bs IH]; [reflexivity |].
        inversion Hall as [| ? ? Hb Hbs]; subst.
        simpl. rewrite Hb. simpl. apply IH. exact Hbs.
      * intros i j. apply click_allDisabled. exact Hall.
  - intros w Hen Hne. simpl. rewrite Hen.
    unfold submitInput.
    destruct (trim (userInput_value w) =? "") eqn:He.
    + apply String.eqb_eq in He. contradiction.
    + cbn [negb]. unfold sendMessage.
      rewrite (sendMessageAs_suspended Detached (Str (trim (userInput_value w)))
                 (trim (userInput_value w)) w eq_refl).
      destruct (isStr (Str (trim (userInput_value w))) "Hello"); reflexivity.
Qed.

Lemma options_disabled_free_text_not_guarded_witness :
  sendButton_disabled (run [Input "first"; ClickSend; Input "second"] initial) = false /\
  trim (userInput_value (run [Input "first"; ClickSend; Input "second"] initial)) <> "" /\
  length (inflight (run [Input "first"; ClickSend; Input "second"; ClickSend] initial)) = 2.
Proof.
  destruct options_disabled_free_text_not_guarded as [_ Hfree].
  assert (Hne : trim (userInput_value (run [Input "first"; ClickSend; Input "second"] initial))
                <> "") by discriminate.
  split; [reflexivity |].
  split; [exact Hne |].
  change (run [Input "first"; ClickSend; Input "second"; ClickSend] initial)
    with (step ClickSend (run [Input "first"; ClickSend; Input "second"] initial)).
  rewrite (Hfree (run [Input "first"; ClickSend; Input "second"] initial) eq_refl Hne).
  reflexivity.
Defined.

(** C3 (as stated) fails.  Two messages typed one after the other, the
    second before the first is answered, are two requests in flight at
    once, both built from the same session state. *)
Lemma two_calls_in_flight_counterexample :
  map call_body (inflight (run [Input "first"; ClickSend] initial))
    = [Obj [("message", Str "first"); ("user_data", initialUserData)]] /\
  map call_body
      (inflight (run [Input "first"; ClickSend; Input "second"; ClickSend] initial))
    = [Obj [("message", Str "first"); ("user_data", initialUserData)];
       Obj [("message", Str "second"); ("user_data", initialUserData)]].
Proof. split; reflexivity. Qed.

(** ** Successful turns *)

Lemma prop_defined (body r : value) (k k' : string) :
  prop body k = inr r -> prop body k' = inr (field body k').
Proof. destruct body; simpl; intros H; try discriminate; reflexivity. Qed.

Lemma removeIndicator_present (node : nat) (l : list Node) :
  exists l', removeIndicator node (l ++ [TypingIndicator node]) = Some l'.
Proof.
  induction l as [| n l [l' IH]]; simpl.
  - rewrite Nat.eqb_refl. eexists; reflexivity.
  - destruct n; try (rewrite IH; simpl; eexists; reflexivity).
    destruct (node0 =? node)%nat; [eexists; reflexivity |].
    rewrite IH; simpl; eexists; reflexivity.
Qed.

(** The [try] block once a 2xx response has arrived, the typing indicator
    of the call still being on the page: the indicator goes. *)
Lemma sendMessage_response_ok
    (call : Call) (status : nat) (l' : list Node) (w : World) :
  removeIndicator (call_indicator call) (chatMessages w) = Some l' ->
  sendMessage_response call (Responded true status) w = (inr tt, set_chatMessages l' w).
Proof.
  intros Hrm.
  unfold sendMessage_response, bind, removeChild_indicator, ret.
  rewrite Hrm. reflexivity.
Qed.

(** The [try] block once the body has been read, when it carries a reply
    that can be shown: reply shown, session state replaced, action
    dispatched. *)
Lemma sendMessage_body_ok (body r : value) (text : string) (w : World) :
  prop body "response" = inr r ->
  toText r = inr text ->
  sendMessage_body (inr body) w
  = handleAction (field body "action") (field body "data")
      (set_userData (orElse (field body "data") (Obj []))
         (appendChild (BotMessage text) w)).
Proof.
  intros Hr Ht.
  unfold sendMessage_body, bind, lift, modify.
  rewrite Hr.
  unfold addBotMessage, bind, lift, modify. rewrite Ht.
  rewrite (prop_defined body r "response" "data" Hr).
  rewrite (prop_defined body r "response" "action" Hr).
  reflexivity.
Qed.

(** Dispatching and, if it throws, the [catch] block leave the session
    state that was just stored. *)
Lemma dispatch_keeps_userData (action data : value) (w : World) :
  userData (tryCatch (handleAction action data) sendMessage_catch w) = userData w.
Proof.
  unfold tryCatch.
  pose proof (handleAction_keeps action data w) as [Hu _].
  destruct (handleAction action data w) as [[e | u] w']; simpl in *; exact Hu.
Qed.

Lemma takeCall_last (node : nat) (body : value) (a : Awaiter) (ph : Phase) :
  takeCall node [mkCall node body a ph] = Some (mkCall node body a ph, []).
Proof. simpl. now rewrite Nat.eqb_refl. Qed.

Lemma successfulTurn_userData (t : Turn) (w : World) :
  inflight w = [] -> wellFormed t ->
  userData (successfulTurn t w) = orElse (field (turn_body t) "data") (Obj []) /\
  inflight (successfulTurn t w) = [].
Proof.
  intros Hin [[mtext Hm] [rtext Hr]].
  unfold successfulTurn, sendMessage.
  rewrite (sendMessageAs_suspended Detached _ mtext w Hm).
  set (w1 := if isStr (turn_message t) "Hello" then w
             else appendChild (UserMessage mtext) w).
  assert (Hsame : inflight w1 = [] /\ nextNode w1 = nextNode w).
  { unfold w1; destruct (isStr _ _); auto. }
  destruct Hsame as [Hi Hn].
  set (p := issueFetch (turn_message t) Detached (disableAllButtons w1)).
  assert (Hp : inflight p
               = [mkCall (nextNode w) (requestData (turn_message t) w1)
                    Detached AwaitingFetch]).
  { unfold p, issueFetch; simpl. now rewrite Hi, Hn. }
  assert (Hc : chatMessages (set_inflight [] p)
               = map disableNode (chatMessages w1) ++ [TypingIndicator (nextNode w)]).
  { unfold p, issueFetch; simpl. now rewrite Hn. }
  (* the response arrives *)
  destruct (removeIndicator_present (nextNode w) (map disableNode (chatMessages w1)))
    as [l' Hl'].
  cbn [step]. rewrite Hp, takeCall_last. cbn [call_phase].
  unfold sendMessage_fetched.
  rewrite (sendMessage_response_ok _ _ l') by (cbn [call_indicator]; rewrite Hc; exact Hl').
  cbn [inflight set_inflight set_chatMessages app].
  unfold awaitingJson. cbn [call_indicator call_body call_awaiter].
  (* the body has been read *)
  rewrite takeCall_last. cbn [call_phase].
  unfold replyText in Hr.
  destruct (prop (turn_body t) "response") as [e | r] eqn:Hpr; [discriminate |].
  simpl in Hr.
  split.
  - unfold sendMessage_parsed. cbn [call_awaiter resume].
    unfold tryCatch. rewrite (sendMessage_body_ok _ r rtext) by assumption.
    match goal with
    | |- userData (let (r0, w') := handleAction ?a ?d ?q in _) = _ =>
        change (userData (tryCatch (handleAction a d) sendMessage_catch q) =
                orElse (field (turn_body t) "data") (Obj []));
        rewrite dispatch_keeps_userData
    end.
    reflexivity.
  - match goal with
    | |- inflight (sendMessage_parsed ?c ?b ?q) = [] =>
        destruct (sendMessage_parsed_keeps c b q) as (_ & _ & Hk); rewrite Hk
    end.
    reflexivity.
Qed.

(** C1 (as amended).  After any sequence of successful turns taken one
    after the other, the session state the client holds is what the last
    response carried in [data] when that is truthy, and the empty object
    [{}] when it is falsy or absent ([userData = data.data || {}]).
    Nothing of the earlier turns, of the state held before or of the
    message sent enters into it. *)
Theorem session_state_is_last_response (turns : list Turn) (t : Turn) (w : World) :
  inflight w = [] ->
  Forall wellFormed (turns ++ [t]) ->
  userData (conversation (turns ++ [t]) w)
    = orElse (field (turn_body t) "data") (Obj []).
Proof.
  intros Hin Hall.
  apply Forall_app in Hall as [Hturns Ht].
  inversion Ht as [| ? ? Hwf _]; subst.
  unfold conversation. rewrite fold_left_app. simpl.
  apply successfulTurn_userData; [| exact Hwf].
  clear Ht Hwf.
  revert w Hin. induction turns as [| t0 turns IH]; intros w Hin; simpl; [exact Hin |].
  inversion Hturns as [| ? ? Hwf0 Hrest]; subst.
  apply IH; [exact Hrest |].
  apply successfulTurn_userData; assumption.
Qed.

Lemma session_state_is_last_response_witness :
  inflight initial = [] /\
  userData (conversation
              [mkTurn (Str "Hello") 200
                 (Obj [("response", Str "Hi"); ("data", Obj [("state", Str "greeted")])]);
               mkTurn (Str "book") 200
                 (Obj [("response", Str "Which day?");
                       ("action", Str "request_date");
                       ("data", Obj [("available_dates", Arr [Str "Mon"; Str "Tue"])])])]
              initial)
    = Obj [("available_dates", Arr [Str "Mon"; Str "Tue"])].
Proof.
  split; [reflexivity |].
  apply (session_state_is_last_response
           [mkTurn (Str "Hello") 200
              (Obj [("response", Str "Hi"); ("data", Obj [("state", Str "greeted")])])]
           (mkTurn (Str "book") 200
              (Obj [("response", Str "Which day?");
                    ("action", Str "request_date");
                    ("data", Obj [("available_dates", Arr [Str "Mon"; Str "Tue"])])]))
           initial).
  - reflexivity.
  - repeat constructor; simpl; eexists; reflexivity.
Defined.

(** C1 (as stated) fails.  A successful turn whose response carries
    [data: null] leaves the client holding [{}], which is not what the
    server returned. *)
Lemma session_state_null_counterexample :
  field (Obj [("response", Str "Goodbye"); ("data", Null)]) "data" = Null /\
  userData (successfulTurn
              (mkTurn (Str "bye") 200 (Obj [("response", Str "Goodbye"); ("data", Null)]))
              bookingOffered)
    = Obj [] /\
  userData (successfulTurn
              (mkTurn (Str "bye") 200 (Obj [("response", Str "Goodbye"); ("data", Null)]))
              bookingOffered)
    <> field (Obj [("response", Str "Goodbye"); ("data", Null)]) "data".
Proof. repeat split; try reflexivity. discriminate. Qed.

(** ** The bootstrap turn *)

(** The dispatcher only ever appends to the transcript, and what it
    appends is neither a message nor a typing indicator; when it throws it
    has appended nothing. *)
Lemma handleAction_appends (action data : value) (w : World) :
  exists extra,
    chatMessages (snd (handleAction action data w)) = chatMessages w ++ extra /\
    Forall quiet extra /\
    ((exists e, fst (handleAction action data w) = inl e) -> extra = []).
Proof.
  assert (Hopts : forall o,
             exists extra,
               chatMessages (snd (addOptionsToChat o w)) = chatMessages w ++ extra /\
               Forall quiet extra /\
               ((exists e, fst (addOptionsToChat o w) = inl e) -> extra = [])).
  { intros o. destruct (addOptionsToChat_cases o w) as [[e H] | [bs H]]; rewrite H; simpl.
    - exists []. rewrite app_nil_r. auto.
    - exists [InChatOptions bs]. repeat split.
      + repeat constructor.
      + intros [e He]; discriminate. }
  destruct (isStr action "conversation_end") eqn:Hend.
  - destruct action; simpl in Hend; try discriminate.
    apply String.eqb_eq in Hend; subst s.
    rewrite handleAction_conversation_end; simpl.
    exists [InChatOptions [restartButton]]. repeat split.
    + repeat constructor.
    + intros [e He]; discriminate.
  - unfold handleAction. rewrite Hend.
    repeat match goal with
           | |- context [if ?c then _ else _] => destruct c
           end;
      try apply Hopts.
    + exists [ErrorNotice "Error: No department specified. Please type your selection."].
      simpl. repeat split.
      * repeat constructor.
      * intros [e He]; discriminate.
    + exists []. simpl. rewrite app_nil_r. auto.
Qed.

Lemma filter_quiet (extra : list Node) :
  Forall quiet extra ->
  filter isBotMessage extra = [] /\ filter isUserMessage extra = [].
Proof.
  induction 1 as [| n l [Hb Hu] _ [IH1 IH2]]; simpl; [auto |].
  rewrite Hb, Hu. auto.
Qed.

(** The bootstrap turn with nothing between: on a page with an empty
    transcript and nothing in flight, loading the script issues the
    bootstrap request with message "Hello" and shows no user message.
    When that request is answered with a reply, the transcript still holds
    no user message, and the reply is in it as a bot message with nothing
    before it but the welcome banner (and the connecting notice, when that
    was not removed). *)
Lemma bootstrap_alone
    (w : World) (status : nat) (body : value) (text : string) :
  chatMessages w = [] ->
  inflight w = [] ->
  replyText body = inr text ->
  inflight (step Load w)
    = [mkCall (nextNode w) (requestData (Str "Hello") w)
         CheckBackendConnection AwaitingFetch] /\
  userMessages (step Load w) = [] /\
  userMessages (run [Load;
                     FetchSettles (nextNode w) (Responded true status);
                     JsonSettles (nextNode w) (inr body)] w) = [] /\
  exists before after,
    chatMessages (run [Load;
                       FetchSettles (nextNode w) (Responded true status);
                       JsonSettles (nextNode w) (inr body)] w)
      = before ++ BotMessage text :: after /\
    Forall (fun n => n = BotMessage welcomeMsg \/ n = BotMessage loadingMsg) before /\
    Forall (fun n => isUserMessage n = false) after.
Proof.
  intros Hc Hi Hr.
  destruct w as [ud cm iv idis sdis fl nn]; simpl in Hc, Hi; subst cm fl.
  split; [reflexivity |]. split; [reflexivity |].
  unfold replyText in Hr.
  destruct (prop body "response") as [e | r] eqn:Hp; [discriminate |]. simpl in Hr.
  unfold run. cbn [fold_left].
  change (step Load (mkWorld ud [] iv idis sdis [] nn))
    with (mkWorld ud [BotMessage welcomeMsg; BotMessage loadingMsg; TypingIndicator nn]
            iv idis sdis
            [mkCall nn (Obj [("message", Str "Hello"); ("user_data", ud)])
               CheckBackendConnection AwaitingFetch]
            (S nn)).
  (* the response arrives *)
  cbn [step inflight nextNode]. rewrite takeCall_last. cbn [call_phase].
  unfold sendMessage_fetched.
  rewrite (sendMessage_response_ok _ _ [BotMessage welcomeMsg; BotMessage loadingMsg])
    by (simpl; now rewrite Nat.eqb_refl).
  cbn [inflight set_inflight set_chatMessages app].
  unfold awaitingJson. cbn [call_indicator call_body call_awaiter].
  (* the body has been read *)
  rewrite takeCall_last. cbn [call_phase].
  unfold sendMessage_parsed, tryCatch.
  cbn [call_awaiter resume].
  rewrite (sendMessage_body_ok _ r text) by assumption.
  match goal with
  | |- context [handleAction ?a ?d ?p] =>
      destruct (handleAction_appends a d p) as (extra & Hx & Hq & Hthrow);
      destruct (handleAction a d p) as [[e | u] w'] eqn:Hh
  end; simpl in Hx, Hthrow.
  - (* the dispatcher threw: notice appended, connecting notice kept *)
    rewrite (Hthrow (ex_intro _ e eq_refl)) in Hx. simpl in Hx.
    unfold checkBackendConnection_resume, sendMessage_catch, exec.
    simpl. rewrite Hx. simpl.
    destruct (text =? loadingMsg) eqn:Ht; simpl.
    + apply String.eqb_eq in Ht; subst text.
      split; [reflexivity |].
      exists [BotMessage welcomeMsg], [BotMessage (notice e)].
      repeat split; repeat constructor.
    + split; [reflexivity |].
      exists [BotMessage welcomeMsg; BotMessage loadingMsg], [BotMessage (notice e)].
      repeat split;
        [repeat (apply Forall_cons; [auto |]); apply Forall_nil | repeat constructor].
  - (* the dispatcher returned: connecting notice removed *)
    destruct (filter_quiet extra Hq) as [Hfb Hfu].
    unfold checkBackendConnection_resume.
    rewrite Hx. simpl. rewrite Hfb. simpl.
    unfold userMessages. simpl. rewrite Hfu.
    split; [reflexivity |].
    exists [BotMessage welcomeMsg], extra.
    repeat split; [repeat constructor |].
    eapply Forall_impl; [| exact Hq]. intros n [_ Hn]; exact Hn.
Qed.

(** The bootstrap turn failing: the connecting notice gives way to the one
    notice of the [catch] block, and the page stays usable. *)
Example bootstrap_times_out :
  chatMessages (run [Load; FetchSettles 0 timedOut] initial)
    = [BotMessage welcomeMsg; BotMessage sorryNotice] /\
  session (run [Load; FetchSettles 0 timedOut] initial) = session initial /\
  inflight (run [Load; FetchSettles 0 timedOut] initial) = [].
Proof. repeat split; reflexivity. Qed.

(** * Further properties *)

(** ** The dispatcher, branch by branch *)

Lemma addOptionsToChat_anywhere (options : value) (w : World) :
  (exists e,
      addOptionsToChat options w = (inl e, w) /\
      addOptionsToChat options initial = (inl e, initial)) \/
  (exists bs,
      addOptionsToChat options w = (inr tt, appendChild (InChatOptions bs) w) /\
      addOptionsToChat options initial = (inr tt, appendChild (InChatOptions bs) initial)).
Proof.
  destruct options; simpl; try (left; eexists; split; reflexivity).
  unfold bind, lift, modify.
  destruct (createOptionButtons items) as [e | bs].
  - left; eexists; split; reflexivity.
  - right; eexists; split; reflexivity.
Qed.

Lemma handleAction_anywhere (action data : value) (w : World) :
  fst (handleAction action data w) = thrown action data /\
  chatMessages (snd (handleAction action data w)) = chatMessages w ++ rendered action data /\
  userData (snd (handleAction action data w)) = userData w /\
  userInput_value (snd (handleAction action data w)) = userInput_value w /\
  inflight (snd (handleAction action data w)) = inflight w /\
  nextNode (snd (handleAction action data w)) = nextNode w /\
  (forall e, thrown action data = inl e -> snd (handleAction action data w) = w).
Proof.
  unfold thrown, rendered.
  assert (Hopts : forall o,
             fst (addOptionsToChat o w) = fst (addOptionsToChat o initial) /\
             chatMessages (snd (addOptionsToChat o w))
               = chatMessages w ++ chatMessages (snd (addOptionsToChat o initial)) /\
             userData (snd (addOptionsToChat o w)) = userData w /\
             userInput_value (snd (addOptionsToChat o w)) = userInput_value w /\
             inflight (snd (addOptionsToChat o w)) = inflight w /\
             nextNode (snd (addOptionsToChat o w)) = nextNode w /\
             (forall e, fst (addOptionsToChat o initial) = inl e ->
                        snd (addOptionsToChat o w) = w)).
  { intros o.
    destruct (addOptionsToChat_anywhere o w) as [(e & H & H0) | (bs & H & H0)];
      rewrite H, H0; simpl.
    - rewrite app_nil_r. repeat split; auto.
    - repeat split; auto. intros e He; discriminate. }
  destruct (isStr action "conversation_end") eqn:Hend.
  - destruct action; simpl in Hend; try discriminate.
    apply String.eqb_eq in Hend; subst s.
    rewrite !handleAction_conversation_end. simpl.
    repeat split; auto. intros e He; discriminate.
  - unfold handleAction. rewrite Hend.
    repeat match goal with
           | |- context [if ?c then _ else _] => destruct c
           end;
      try apply Hopts; simpl.
    + repeat split; auto. intros e He; discriminate.
    + rewrite app_nil_r. repeat split; auto.
Qed.

(** X1.  What [handleAction] does depends on the response only, not on the
    page it runs on: whether it throws, and which nodes it appends to the
    transcript, are the same on every page.  It only appends: earlier
    nodes, the session state, the input box and the calls in flight stay.
    And it is all or nothing: when it throws, the page is exactly as it
    was. *)
Theorem dispatcher_depends_on_response_only (action data : value) (w : World) :
  fst (handleAction action data w) = thrown action data /\
  chatMessages (snd (handleAction action data w)) = chatMessages w ++ rendered action data /\
  userData (snd (handleAction action data w)) = userData w /\
  userInput_value (snd (handleAction action data w)) = userInput_value w /\
  inflight (snd (handleAction action data w)) = inflight w /\
  nextNode (snd (handleAction action data w)) = nextNode w /\
  (forall e, thrown action data = inl e -> snd (handleAction action data w) = w).
Proof. apply handleAction_anywhere. Qed.


(** X2.  [request_doctor] is the one branch that checks
    [Array.isArray]: with [data.doctors] an array it renders that array
    like any other list of options, and in every other case (no data, no
    [doctors], [doctors] not an array) it appends the "No department
    specified" notice and returns; it throws on no ill-shaped [doctors]. *)
Theorem request_doctor_guarded (data : value) (w : World) :
  (forall items,
      field data "doctors" = Arr items ->
      truthy data = true ->
      handleAction (Str "request_doctor") data w = addOptionsToChat (Arr items) w) /\
  (isArray (field data "doctors") = false ->
   handleAction (Str "request_doctor") data w = (inr tt, appendChild noDepartment w)).
Proof.
  split.
  - intros items Hf Hd. unfold handleAction; simpl. rewrite Hd, Hf. reflexivity.
  - intros Ha. unfold handleAction; simpl. rewrite Ha.
    rewrite !andb_false_r. reflexivity.
Qed.

Lemma request_doctor_guarded_witness :
  isArray (field (Obj [("doctors", Str "Dr. Rao")]) "doctors") = false /\
  handleAction (Str "request_doctor") (Obj [("doctors", Str "Dr. Rao")]) initial
    = (inr tt, appendChild noDepartment initial) /\
  handleAction (Str "request_doctor") Undefined initial
    = (inr tt, appendChild noDepartment initial) /\
  choices (exec (handleAction (Str "request_doctor")
                   (Obj [("doctors", Arr [Str "Dr. Rao"; Str "Dr. Iyer"])]))
                initial)
    = [mkChoice "Dr. Rao" (inr (Str "Dr. Rao")); mkChoice "Dr. Iyer" (inr (Str "Dr. Iyer"))].
Proof.
  split; [reflexivity |].
  split; [apply (proj2 (request_doctor_guarded (Obj [("doctors", Str "Dr. Rao")]) initial));
          reflexivity |].
  split; [apply (proj2 (request_doctor_guarded Undefined initial)); reflexivity |].
  unfold exec.
  rewrite (proj1 (request_doctor_guarded
                    (Obj [("doctors", Arr [Str "Dr. Rao"; Str "Dr. Iyer"])]) initial)
             [Str "Dr. Rao"; Str "Dr. Iyer"] eq_refl eq_refl).
  reflexivity.
Defined.

(** X3.  [show_options] without a usable list falls back to free text:
    when [data] is falsy (absent, [null]) or [data.options] is falsy
    (absent, [null], [false], [0], the empty string), [handleAction] returns
    without throwing and leaves the page as it was. *)
Theorem show_options_absent_is_free_text (data : value) (w : World) :
  truthy data && truthy (field data "options") = false ->
  handleAction (Str "show_options") data w = (inr tt, w).
Proof.
  intros H. unfold handleAction; simpl. rewrite H. reflexivity.
Qed.

Lemma show_options_absent_is_free_text_witness :
  truthy (Obj [("options", Null)]) && truthy (field (Obj [("options", Null)]) "options")
    = false /\
  handleAction (Str "show_options") (Obj [("options", Null)]) bookingOffered
    = (inr tt, bookingOffered) /\
  handleAction (Str "show_options") Undefined bookingOffered = (inr tt, bookingOffered) /\
  handleAction (Str "show_options") (Obj [("options", Str "")]) bookingOffered
    = (inr tt, bookingOffered).
Proof.
  split; [reflexivity |].
  split; [apply (show_options_absent_is_free_text (Obj [("options", Null)]));
          reflexivity |].
  split; [apply (show_options_absent_is_free_text Undefined); reflexivity |].
  apply (show_options_absent_is_free_text (Obj [("options", Str "")])); reflexivity.
Defined.

(** X4.  [request_date] and [request_time] are [show_options] under another
    name: each does with [data.available_dates], respectively
    [data.available_slots], exactly what [show_options] does with an
    [options] field of that value, on every data and every page.  So they
    render an array of entries the same way, do nothing when the field is
    absent or falsy, and throw when it is truthy and not an array. *)
Theorem request_date_time_are_show_options (data : value) (w : World) :
  handleAction (Str "request_date") data w
    = handleAction (Str "show_options") (Obj [("options", field data "available_dates")]) w /\
  handleAction (Str "request_time") data w
    = handleAction (Str "show_options") (Obj [("options", field data "available_slots")]) w /\
  (truthy data = true ->
   truthy (field data "available_dates") = true ->
   isArray (field data "available_dates") = false ->
   exists e, handleAction (Str "request_date") data w = (inl e, w)) /\
  (truthy data = true ->
   truthy (field data "available_slots") = true ->
   isArray (field data "available_slots") = false ->
   exists e, handleAction (Str "request_time") data w = (inl e, w)).
Proof.
  assert (Hfalsy : forall k, truthy data = false -> truthy (field data k) = false).
  { intros k Hd. destruct data; simpl in *; try reflexivity; discriminate. }
  repeat split.
  - unfold handleAction; simpl.
    destruct (truthy data) eqn:Hd; simpl.
    + destruct (truthy (field data "available_dates")); reflexivity.
    + rewrite (Hfalsy "available_dates" eq_refl). reflexivity.
  - unfold handleAction; simpl.
    destruct (truthy data) eqn:Hd; simpl.
    + destruct (truthy (field data "available_slots")); reflexivity.
    + rewrite (Hfalsy "available_slots" eq_refl). reflexivity.
  - intros Hd Ho Ha. unfold handleAction; simpl. rewrite Hd, Ho; simpl.
    apply addOptionsToChat_not_array; assumption.
  - intros Hd Ho Ha. unfold handleAction; simpl. rewrite Hd, Ho; simpl.
    apply addOptionsToChat_not_array; assumption.
Qed.

Lemma request_date_time_are_show_options_witness :
  truthy (Obj [("available_dates", Str "Monday")]) = true /\
  (exists e,
      handleAction (Str "request_date") (Obj [("available_dates", Str "Monday")]) initial
        = (inl e, initial)) /\
  (exists e,
      handleAction (Str "request_time") (Obj [("available_slots", Num 9)]) initial
        = (inl e, initial)) /\
  choices (exec (handleAction (Str "request_time")
                   (Obj [("available_slots", Arr [Str "09:00"; Str "09:30"])]))
                initial)
    = [mkChoice "09:00" (inr (Str "09:00")); mkChoice "09:30" (inr (Str "09:30"))].
Proof.
  split; [reflexivity |].
  split.
  { destruct (request_date_time_are_show_options
                (Obj [("available_dates", Str "Monday")]) initial) as (_ & _ & H & _).
    apply H; reflexivity. }
  split.
  { destruct (request_date_time_are_show_options
                (Obj [("available_slots", Num 9)]) initial) as (_ & _ & _ & H).
    apply H; reflexivity. }
  unfold exec.
  rewrite (proj1 (proj2 (request_date_time_are_show_options
                           (Obj [("available_slots", Arr [Str "09:00"; Str "09:30"])])
                           initial))).
  reflexivity.
Defined.


(** ** A whole turn *)

Lemma filter_disableNode (l : list Node) :
  filter (fun n => negb (isTypingIndicator n)) (map disableNode l)
    = map disableNode (filter (fun n => negb (isTypingIndicator n)) l).
Proof.
  induction l as [| n l IH]; simpl; [reflexivity |].
  destruct n; simpl; rewrite IH; reflexivity.
Qed.

(** A successful turn taken alone, unfolded up to the dispatcher. *)
Lemma successfulTurn_unfolded (t : Turn) (w : World) (mtext rtext : string) :
  inflight w = [] ->
  toText (turn_message t) = inr mtext ->
  replyText (turn_body t) = inr rtext ->
  exists before,
    filter (fun n => negb (isTypingIndicator n)) before
      = map disableNode (transcript w ++ echo (turn_message t) mtext) /\
    chatOptionButtons before
      = map disableButton (chatOptionButtons (chatMessages w)) /\
    successfulTurn t w
      = tryCatch (handleAction (field (turn_body t) "action") (field (turn_body t) "data"))
          sendMessage_catch (atDispatch t before rtext w).
Proof.
  intros Hin Hm Hr.
  unfold successfulTurn, sendMessage.
  rewrite (sendMessageAs_suspended Detached _ mtext w Hm).
  set (w1 := if isStr (turn_message t) "Hello" then w
             else appendChild (UserMessage mtext) w).
  assert (Hw1 : chatMessages w1 = chatMessages w ++ echo (turn_message t) mtext /\
                inflight w1 = [] /\ nextNode w1 = nextNode w /\
                userInput_value w1 = userInput_value w /\
                userInput_disabled w1 = userInput_disabled w /\
                sendButton_disabled w1 = sendButton_disabled w).
  { unfold w1, echo; destruct (isStr _ _); simpl; rewrite ?app_nil_r;
      repeat split; auto. }
  destruct Hw1 as (Hc1 & Hi & Hn & Hv & Hud & Hsd).
  set (p := issueFetch (turn_message t) Detached (disableAllButtons w1)).
  assert (Hp : inflight p
               = [mkCall (nextNode w) (requestData (turn_message t) w1)
                    Detached AwaitingFetch]).
  { unfold p, issueFetch; simpl. now rewrite Hi, Hn. }
  assert (Hc : chatMessages (set_inflight [] p)
               = map disableNode (chatMessages w1) ++ [TypingIndicator (nextNode w)]).
  { unfold p, issueFetch; simpl. now rewrite Hn. }
  destruct (removeIndicator_present (nextNode w) (map disableNode (chatMessages w1)))
    as [l' Hl'].
  exists l'.
  destruct (removeIndicator_others _ _ _ Hl') as [Ht Hb].
  split; [| split].
  - rewrite Ht, filter_app; simpl. rewrite app_nil_r.
    rewrite filter_disableNode, Hc1. unfold transcript.
    rewrite filter_app. f_equal. f_equal.
    unfold echo; destruct (isStr _ _); reflexivity.
  - rewrite Hb, chatOptionButtons_app; simpl. rewrite app_nil_r, Hc1.
    rewrite map_app, chatOptionButtons_app.
    assert (He : chatOptionButtons (map disableNode (echo (turn_message t) mtext)) = []).
    { unfold echo; destruct (isStr _ _); reflexivity. }
    rewrite He, app_nil_r.
    clear. induction (chatMessages w) as [| n l IH]; simpl; [reflexivity |].
    rewrite map_app, <- IH. f_equal. destruct n; reflexivity.
  - cbn [step]. rewrite Hp, takeCall_last. cbn [call_phase].
    unfold sendMessage_fetched.
    rewrite (sendMessage_response_ok _ _ l')
      by (cbn [call_indicator]; rewrite Hc; exact Hl').
    cbn [inflight set_inflight set_chatMessages app].
    unfold awaitingJson. cbn [call_indicator call_body call_awaiter].
    rewrite takeCall_last. cbn [call_phase].
    unfold replyText in Hr.
    destruct (prop (turn_body t) "response") as [e | r] eqn:Hpr; [discriminate |].
    simpl in Hr.
    unfold sendMessage_parsed. cbn [call_awaiter resume].
    unfold tryCatch at 1. rewrite (sendMessage_body_ok _ r rtext) by assumption.
    unfold tryCatch, atDispatch.
    replace (set_userData _ _)
      with (mkWorld (orElse (field (turn_body t) "data") (Obj []))
              (l' ++ [BotMessage rtext])
              (userInput_value w) (userInput_disabled w) (sendButton_disabled w)
              [] (S (nextNode w))); [reflexivity |].
    clear. unfold p, issueFetch, disableAllButtons, appendChild, w1.
    destruct (isStr (turn_message t) "Hello"); reflexivity.
Qed.


Lemma rendered_quiet (action data : value) :
  Forall quiet (rendered action data) /\
  (forall e, thrown action data = inl e -> rendered action data = []).
Proof.
  unfold rendered, thrown.
  destruct (handleAction_appends action data initial) as (extra & Hx & Hq & Hthrow).
  simpl in Hx. rewrite Hx. split; [exact Hq |].
  intros e He. apply Hthrow. exists e. exact He.
Qed.

Lemma filter_quiet_transcript (l : list Node) :
  Forall quiet l -> filter (fun n => negb (isTypingIndicator n)) l = l.
Proof.
  induction 1 as [| n l [Hb _] _ IH]; simpl; [reflexivity |].
  destruct n; simpl in *; try discriminate; now rewrite IH.
Qed.

Lemma filter_enabled_disabled (bs : list Button) :
  filter (fun b => negb (btn_disabled b)) (map disableButton bs) = [].
Proof. induction bs as [| b bs IH]; simpl; auto. Qed.

Lemma successfulTurn_page (t : Turn) (w : World) (mtext rtext : string) :
  inflight w = [] ->
  toText (turn_message t) = inr mtext ->
  replyText (turn_body t) = inr rtext ->
  transcript (successfulTurn t w)
    = map disableNode (transcript w)
      ++ echo (turn_message t) mtext
      ++ [BotMessage rtext]
      ++ rendered (field (turn_body t) "action") (field (turn_body t) "data")
      ++ match thrown (field (turn_body t) "action") (field (turn_body t) "data") with
         | inl e => [BotMessage (notice e)]
         | inr _ => []
         end /\
  choices (successfulTurn t w)
    = choicesIn (rendered (field (turn_body t) "action") (field (turn_body t) "data")) /\
  inflight (successfulTurn t w) = [].
Proof.
  intros Hin Hm Hr.
  destruct (successfulTurn_unfolded t w mtext rtext Hin Hm Hr) as (before & Hbt & Hbb & Heq).
  rewrite Heq. clear Heq.
  set (action := field (turn_body t) "action").
  set (data := field (turn_body t) "data").
  set (q := atDispatch t before rtext w).
  assert (Hecho : map disableNode (transcript w ++ echo (turn_message t) mtext)
                  = map disableNode (transcript w) ++ echo (turn_message t) mtext).
  { rewrite map_app. f_equal. unfold echo; destruct (isStr _ _); reflexivity. }
  assert (Hq : transcript q
               = map disableNode (transcript w) ++ echo (turn_message t) mtext
                 ++ [BotMessage rtext]).
  { unfold transcript, q, atDispatch; simpl.
    rewrite filter_app, Hbt, Hecho; simpl. now rewrite <- app_assoc. }
  destruct (handleAction_anywhere action data q) as (Hf & Hc & _ & _ & Hi & _ & Hsame).
  destruct (rendered_quiet action data) as [Hquiet Hnone].
  unfold tryCatch.
  destruct (handleAction action data q) as [[e | u] q'] eqn:Hh; cbn [fst snd] in Hf, Hc, Hi.
  - (* the dispatcher threw *)
    rewrite <- Hf. rewrite <- Hf in Hsame, Hnone.
    specialize (Hsame e eq_refl). simpl in Hsame. subst q'.
    rewrite (Hnone e eq_refl).
    destruct (sendMessage_catch_effect e q) as (Ct & _ & Ci & Cb).
    split; [| split].
    + rewrite Ct, Hq. rewrite <- !app_assoc. reflexivity.
    + unfold choices. rewrite Cb. unfold q, atDispatch; simpl.
      rewrite chatOptionButtons_app, Hbb; simpl. rewrite app_nil_r.
      now rewrite filter_enabled_disabled.
    + rewrite Ci. reflexivity.
  - (* the dispatcher returned *)
    rewrite <- Hf.
    split; [| split].
    + unfold transcript in Hq |- *. rewrite Hc, filter_app.
      rewrite (filter_quiet_transcript _ Hquiet).
      rewrite Hq. rewrite <- !app_assoc. simpl.
      now rewrite app_nil_r.
    + unfold choices, choicesIn. rewrite Hc.
      unfold q, atDispatch; simpl.
      rewrite !chatOptionButtons_app, Hbb; simpl.
      rewrite app_nil_r, filter_app, filter_enabled_disabled. reflexivity.
    + rewrite Hi. reflexivity.
Qed.




(** X6.  Five tags render a fixed menu whatever [data] holds, and never
    throw: [offer_booking] (Yes/No), [show_existing_appointment] and
    [show_appointments] (one and the same menu), [confirm_cancellation],
    and [request_department] (three department names).  So after a
    successful turn answered with [offer_booking], taken alone, the open
    options are exactly "Yes" and "No", sending "Yes" and "No". *)
Theorem fixed_menus_ignore_data (data : value) :
  (rendered (Str "offer_booking") data = [InChatOptions (menu [("Yes", "Yes"); ("No", "No")])] /\
   thrown (Str "offer_booking") data = inr tt) /\
  (rendered (Str "show_existing_appointment") data = [InChatOptions appointmentMenu] /\
   thrown (Str "show_existing_appointment") data = inr tt) /\
  (rendered (Str "show_appointments") data = [InChatOptions appointmentMenu] /\
   thrown (Str "show_appointments") data = inr tt) /\
  (rendered (Str "confirm_cancellation") data
     = [InChatOptions (menu [("Yes, Cancel", "yes"); ("No, Keep", "no")])] /\
   thrown (Str "confirm_cancellation") data = inr tt) /\
  (choicesIn (rendered (Str "request_department") data)
     = [mkChoice "Cardiology" (inr (Str "Cardiology"));
        mkChoice "Neurology" (inr (Str "Neurology"));
        mkChoice "General Physician" (inr (Str "General Physician"))] /\
   thrown (Str "request_department") data = inr tt) /\
  (forall (t : Turn) (w : World) (mtext rtext : string),
      inflight w = [] ->
      toText (turn_message t) = inr mtext ->
      replyText (turn_body t) = inr rtext ->
      field (turn_body t) "action" = Str "offer_booking" ->
      choices (successfulTurn t w)
        = [mkChoice "Yes" (inr (Str "Yes")); mkChoice "No" (inr (Str "No"))]).
Proof.
  repeat split; try reflexivity.
  intros t w mtext rtext Hin Hm Hr Ha.
  destruct (successfulTurn_page t w mtext rtext Hin Hm Hr) as (_ & Hc & _).
  rewrite Hc, Ha. reflexivity.
Qed.

Lemma fixed_menus_ignore_data_witness :
  inflight bookingOffered = [] /\
  choices (successfulTurn
             (mkTurn (Str "book new appointment") 200
                (Obj [("response", Str "Shall I book?");
                      ("action", Str "offer_booking");
                      ("data", Obj [("options", Str "not a list")])]))
             bookingOffered)
    = [mkChoice "Yes" (inr (Str "Yes")); mkChoice "No" (inr (Str "No"))].
Proof.
  split; [reflexivity |].
  destruct (fixed_menus_ignore_data (Obj [("options", Str "not a list")]))
    as (_ & _ & _ & _ & _ & Hturn).
  apply (Hturn (mkTurn (Str "book new appointment") 200
                  (Obj [("response", Str "Shall I book?");
                        ("action", Str "offer_booking");
                        ("data", Obj [("options", Str "not a list")])]))
           bookingOffered "book new appointment" "Shall I book?");
    reflexivity.
Defined.

Lemma successfulTurn_nextNode (t : Turn) (w : World) :
  inflight w = [] -> wellFormed t ->
  nextNode (successfulTurn t w) = S (nextNode w).
Proof.
  intros Hin [[mtext Hm] [rtext Hr]].
  destruct (successfulTurn_unfolded t w mtext rtext Hin Hm Hr) as (before & _ & _ & Heq).
  rewrite Heq. unfold tryCatch.
  destruct (handleAction_anywhere (field (turn_body t) "action")
              (field (turn_body t) "data") (atDispatch t before rtext w))
    as (_ & _ & _ & _ & _ & Hn & _).
  destruct (handleAction _ _ _) as [[e | u] q']; simpl in Hn |- *; exact Hn.
Qed.

(** X7.  The session state goes round: the request that follows a
    successful turn carries, as [user_data], exactly what that turn's
    response carried in [data] (or [{}] when that was falsy), next to the
    new message.  The client sends back what it was sent. *)
Theorem next_request_returns_state (t : Turn) (m : value) (mtext : string) (w : World) :
  inflight w = [] ->
  wellFormed t ->
  toText m = inr mtext ->
  inflight (sendMessage m (successfulTurn t w))
    = [mkCall (S (nextNode w))
         (Obj [("message", m);
               ("user_data", orElse (field (turn_body t) "data") (Obj []))])
         Detached AwaitingFetch].
Proof.
  intros Hin Hwf Hm.
  destruct (successfulTurn_userData t w Hin Hwf) as [Hu Hi].
  pose proof (successfulTurn_nextNode t w Hin Hwf) as Hn.
  unfold sendMessage.
  rewrite (sendMessageAs_suspended Detached m mtext _ Hm).
  set (w2 := if isStr m "Hello" then successfulTurn t w
             else appendChild (UserMessage mtext) (successfulTurn t w)).
  assert (Hw2 : inflight w2 = [] /\ nextNode w2 = S (nextNode w) /\
                userData w2 = orElse (field (turn_body t) "data") (Obj [])).
  { unfold w2; destruct (isStr m "Hello"); simpl; auto. }
  destruct Hw2 as (Hi2 & Hn2 & Hu2).
  unfold issueFetch, requestData; simpl.
  rewrite Hi2, Hn2, Hu2. reflexivity.
Qed.

Lemma next_request_returns_state_witness :
  inflight initial = [] /\
  map call_body
      (inflight (sendMessage (Str "Cardiology")
                   (successfulTurn
                      (mkTurn (Str "Hello") 200
                         (Obj [("response", Str "Which department?");
                               ("action", Str "request_department");
                               ("data", Obj [("state", Str "awaiting_department")])]))
                      initial)))
    = [Obj [("message", Str "Cardiology");
            ("user_data", Obj [("state", Str "awaiting_department")])]].
Proof.
  split; [reflexivity |].
  rewrite (next_request_returns_state
             (mkTurn (Str "Hello") 200
                (Obj [("response", Str "Which department?");
                      ("action", Str "request_department");
                      ("data", Obj [("state", Str "awaiting_department")])]))
             (Str "Cardiology") "Cardiology" initial eq_refl).
  - reflexivity.
  - split; eexists; reflexivity.
  - reflexivity.
Defined.


(** ** Which notice is shown *)

Lemma index_absent (c : ascii) (p s : string) :
  occurs c s = false -> String.index 0 (String c p) s = None.
Proof.
  induction s as [| b s IH]; simpl; intros H; [reflexivity |].
  apply orb_false_elim in H as [Hb Hs].
  destruct (ascii_dec c b) as [E | _].
  - subst b. rewrite Ascii.eqb_refl in Hb. discriminate.
  - now rewrite (IH Hs).
Qed.

Lemma occurs_app (c : ascii) (s1 s2 : string) :
  occurs c (s1 ++ s2)%string = occurs c s1 || occurs c s2.
Proof.
  induction s1 as [| b s1 IH]; simpl; [reflexivity |].
  now rewrite IH, orb_assoc.
Qed.

Lemma occurs_digits (c : ascii) (d : Decimal.uint) :
  (nat_of_ascii c < 48 \/ 57 < nat_of_ascii c) ->
  occurs c (NilEmpty.string_of_uint d) = false.
Proof.
  intros Hc.
  assert (Hne : forall b, 48 <= nat_of_ascii b <= 57 -> Ascii.eqb b c = false).
  { intros b Hb. apply Ascii.eqb_neq. intros E. subst b. lia. }
  induction d; cbn [NilEmpty.string_of_uint occurs]; try reflexivity;
    rewrite IHd, orb_false_r; apply Hne; vm_compute; lia.
Qed.

Lemma occurs_status (c : ascii) (status : nat) :
  (nat_of_ascii c < 48 \/ 57 < nat_of_ascii c) ->
  occurs c (NilZero.string_of_uint (Nat.to_uint status)) = false.
Proof.
  intros Hc. unfold NilZero.string_of_uint.
  destruct (Nat.to_uint status) eqn:E; try (rewrite <- E; apply occurs_digits; exact Hc).
  cbn [occurs]. rewrite orb_false_r. apply Ascii.eqb_neq. intros H; subst c. vm_compute in Hc. lia.
Qed.

Lemma notice_httpError (status : nat) : notice (httpError status) = sorryNotice.
Proof.
  unfold notice, httpError, Error. cbn [err_name err_message].
  change ("Error" =? "AbortError") with false. cbv iota.
  unfold includes.
  rewrite (index_absent "N" "etworkError"), (index_absent "F" "ailed to fetch").
  - reflexivity.
  - rewrite occurs_app, occurs_status; [reflexivity | vm_compute; lia].
  - rewrite occurs_app, occurs_status; [reflexivity | vm_compute; lia].
Qed.

(** X8.  A response that is not ok always ends in the generic notice
    "Sorry, there was an error processing your request.", whatever its
    status: the status only enters the error message, which holds neither
    "NetworkError" nor "Failed to fetch", and the error is no AbortError.
    The user cannot tell a 404 from a 500. *)
Theorem http_error_shows_generic_notice (call : Call) (status : nat) (w : World) :
  notice (httpError status) = sorryNotice /\
  transcript (tryCatch (sendMessage_response call (Responded false status))
                sendMessage_catch w)
    = transcript w ++ [BotMessage sorryNotice].
Proof.
  split; [apply notice_httpError |].
  unfold tryCatch, sendMessage_response, bind, removeChild_indicator, throw.
  destruct (removeIndicator (call_indicator call) (chatMessages w)) as [l' |] eqn:Hrm.
  - cbn [negb]. fold (httpError status).
    destruct (removeIndicator_others _ _ _ Hrm) as [Ht _].
    destruct (sendMessage_catch_effect (httpError status) (set_chatMessages l' w))
      as (Ct & _).
    rewrite Ct, notice_httpError. unfold transcript; simpl. now rewrite Ht.
  - destruct (sendMessage_catch_effect NotFoundError w) as (Ct & _).
    rewrite Ct. reflexivity.
Qed.


(** ** Typed messages *)

Lemma trimEnd_cons (a : ascii) (r : string) :
  trimEnd (String a r)
  = if isSpace (String a (trimEnd r)) then EmptyString else String a (trimEnd r).
Proof. reflexivity. Qed.

Lemma trimEnd_idempotent (s : string) : trimEnd (trimEnd s) = trimEnd s.
Proof.
  induction s as [| a r IH]; [reflexivity |].
  rewrite trimEnd_cons.
  destruct (isSpace (String a (trimEnd r))) eqn:E; [reflexivity |].
  now rewrite trimEnd_cons, IH, E.
Qed.

Lemma trimEnd_prefix (s : string) : exists cut, s = (trimEnd s ++ cut)%string.
Proof.
  induction s as [| a r [cut IH]]; [now exists "" |].
  rewrite trimEnd_cons.
  destruct (isSpace (String a (trimEnd r))).
  - now exists (String a r).
  - exists cut. simpl. now rewrite <- IH.
Qed.

Lemma startsWithSpace_app (s cut : string) :
  startsWithSpace s = true -> startsWithSpace (s ++ cut)%string = true.
Proof.
  destruct s as [| a [| b [| c r]]]; cbn [startsWithSpace append];
    repeat match goal with
           | |- context [isSpace ?t] => destruct (isSpace t)
           end;
    cbn [orb]; intros H; try discriminate; try reflexivity.
Qed.

Lemma trimStart_fixed (s : string) : startsWithSpace s = false -> trimStart s = s.
Proof.
  destruct s as [| a [| b [| c r]]]; cbn [startsWithSpace trimStart];
    repeat match goal with
           | |- context [isSpace ?t] => destruct (isSpace t)
           end;
    cbn [orb]; intros H; try discriminate; reflexivity.
Qed.

Lemma trimStart_head (s : string) : startsWithSpace (trimStart s) = false.
Proof.
  assert (Hn : forall n s, String.length s < n -> startsWithSpace (trimStart s) = false).
  { induction n as [| n IH]; intros t Hl; [lia |].
    destruct t as [| a r1]; [reflexivity |].
    cbn [trimStart].
    destruct (isSpace (String a "")) eqn:E1; [apply IH; simpl in Hl; lia |].
    destruct r1 as [| b r2]; [cbn [startsWithSpace]; now rewrite E1 |].
    destruct (isSpace (String a (String b ""))) eqn:E2; [apply IH; simpl in Hl; lia |].
    destruct r2 as [| c r3]; [cbn [startsWithSpace]; now rewrite E1, E2 |].
    destruct (isSpace (String a (String b (String c "")))) eqn:E3;
      [apply IH; simpl in Hl; lia |].
    cbn [startsWithSpace]. now rewrite E1, E2, E3. }
  apply (Hn (S (String.length s))). lia.
Qed.

Lemma trim_idempotent (s : string) : trim (trim s) = trim s.
Proof.
  unfold trim.
  rewrite (trimStart_fixed (trimEnd (trimStart s))); [apply trimEnd_idempotent |].
  destruct (startsWithSpace (trimEnd (trimStart s))) eqn:E; [| reflexivity].
  destruct (trimEnd_prefix (trimStart s)) as [cut Hcut].
  pose proof (startsWithSpace_app _ cut E) as H.
  rewrite <- Hcut, trimStart_head in H. discriminate.
Qed.

(** In bytes: the no-break space U+00A0 is C2 A0 and the ideographic
    space U+3000 is E3 80 80; both are trimmed away, at either end.  The
    zero-width space U+200B is no white space and stays. *)
Example trim_beyond_ascii :
  utf8 0xA0 = String "194" (String "160" "") /\
  utf8 0x3000 = String "227" (String "128" (String "128" "")) /\
  trim (utf8 0xA0 ++ "a b" ++ utf8 0x3000 ++ " ")%string = "a b" /\
  trim (utf8 0x200B) = utf8 0x200B.
Proof. repeat split; reflexivity. Qed.

(** A white-space character at the start goes, whatever follows. *)
Lemma trimStart_space (sp rest : string) :
  In sp spaces -> trimStart (sp ++ rest)%string = trimStart rest.
Proof.
  intros H. unfold spaces in H. simpl in H.
  repeat (destruct H as [H | H]; [subst sp; reflexivity |]).
  contradiction.
Qed.

Lemma trim_spaces (parts : list string) :
  Forall (fun sp => In sp spaces) parts -> trim (String.concat "" parts) = "".
Proof.
  unfold trim. induction 1 as [| sp parts Hsp _ IH]; [reflexivity |].
  assert (Hc : String.concat "" (sp :: parts) = (sp ++ String.concat "" parts)%string).
  { destruct parts; simpl; [| reflexivity].
    clear. induction sp; simpl; congruence. }
  rewrite Hc, trimStart_space by assumption. exact IH.
Qed.

(** X9.  Free text is submitted by a click on the send button or by the
    Enter key, which do the same.  Input that is empty or only white space
    is ignored: nothing is sent and the page, input box included, stays as
    it is; any other key does nothing.  White space is what [trim] strips:
    input made of such characters only, the no-break space and the other
    Unicode spaces among them, is blank.  Otherwise one request is issued
    whose message is the input trimmed (never blank, and trimming it again
    changes nothing), and the input box is emptied. *)
Theorem free_text_submission :
  (forall w, trim (userInput_value w) = "" ->
             step ClickSend w = w /\ step (KeyPress "Enter") w = w) /\
  (forall parts, Forall (fun sp => In sp spaces) parts ->
                 trim (String.concat "" parts) = "") /\
  (forall key w, key <> "Enter" -> step (KeyPress key) w = w) /\
  (forall w, userInput_disabled w = sendButton_disabled w ->
             step (KeyPress "Enter") w = step ClickSend w) /\
  (forall w, sendButton_disabled w = false ->
             trim (userInput_value w) <> "" ->
             userInput_value (step ClickSend w) = "" /\
             map call_body (inflight (step ClickSend w))
               = map call_body (inflight w)
                 ++ [Obj [("message", Str (trim (userInput_value w)));
                          ("user_data", userData w)]] /\
             trim (trim (userInput_value w)) = trim (userInput_value w)).
Proof.
  assert (Hsubmit : forall w, trim (userInput_value w) <> "" ->
             submitInput w
             = set_userInput_value "" (sendMessage (Str (trim (userInput_value w))) w)).
  { intros w Hne. unfold submitInput.
    destruct (trim (userInput_value w) =? "") eqn:E; [| reflexivity].
    apply String.eqb_eq in E. contradiction. }
  split; [intros w H; split
         | split; [apply trim_spaces
                  | split; [intros key w H
                           | split; [intros w H | intros w H H0; split; [| split]]]]].
  - cbn [step]. destruct (sendButton_disabled w); [reflexivity |].
    unfold submitInput. rewrite H. reflexivity.
  - cbn [step]. destruct (userInput_disabled w); [reflexivity |].
    unfold onKeyPress, submitInput. rewrite H. reflexivity.
  - cbn [step]. destruct (userInput_disabled w); [reflexivity |].
    unfold onKeyPress. destruct (key =? "Enter") eqn:E; [| reflexivity].
    apply String.eqb_eq in E. contradiction.
  - cbn [step]. rewrite H. reflexivity.
  - cbn [step]. rewrite H, (Hsubmit w H0). reflexivity.
  - cbn [step]. rewrite H, (Hsubmit w H0).
    unfold sendMessage.
    rewrite (sendMessageAs_suspended Detached (Str (trim (userInput_value w)))
               (trim (userInput_value w)) w eq_refl).
    destruct (isStr (Str (trim (userInput_value w))) "Hello"); simpl;
      now rewrite map_app.
  - apply trim_idempotent.
Qed.

Lemma free_text_submission_witness :
  trim (userInput_value (step (Input "   ") bookingOffered)) = "" /\
  step ClickSend (step (Input "   ") bookingOffered) = step (Input "   ") bookingOffered /\
  trim (utf8 0xA0 ++ " " ++ utf8 0x3000)%string = "" /\
  step ClickSend (step (Input (utf8 0xA0)) bookingOffered)
    = step (Input (utf8 0xA0)) bookingOffered /\
  sendButton_disabled (step (Input "  Yes please ") bookingOffered) = false /\
  map call_body (inflight (run [Input "  Yes please "; KeyPress "Enter"] bookingOffered))
    = [Obj [("message", Str "Yes please"); ("user_data", Obj [("state", Str "offer")])]] /\
  userInput_value (run [Input "  Yes please "; KeyPress "Enter"] bookingOffered) = "" /\
  step (KeyPress "a") bookingOffered = bookingOffered.
Proof.
  destruct free_text_submission as (Hblank & Hspaces & Hkey & Henter & Hsend).
  assert (Hne : trim (userInput_value (step (Input "  Yes please ") bookingOffered)) <> "")
    by discriminate.
  destruct (Hsend (step (Input "  Yes please ") bookingOffered) eq_refl Hne)
    as (Hbox & Hcall & _).
  split; [reflexivity |].
  split; [apply (Hblank (step (Input "   ") bookingOffered)); reflexivity |].
  split; [apply (Hspaces [utf8 0xA0; " "; utf8 0x3000]);
          repeat (apply Forall_cons; [vm_compute; tauto |]); apply Forall_nil |].
  split; [apply (Hblank (step (Input (utf8 0xA0)) bookingOffered)); reflexivity |].
  split; [reflexivity |].
  change (run [Input "  Yes please "; KeyPress "Enter"] bookingOffered)
    with (step (KeyPress "Enter") (step (Input "  Yes please ") bookingOffered)).
  rewrite (Henter (step (Input "  Yes please ") bookingOffered) eq_refl).
  split; [rewrite Hcall; reflexivity |].
  split; [exact Hbox |].
  apply Hkey. discriminate.
Defined.


(** ** Option buttons over time *)

Lemma sameOrDisabled_refl (b : Button) : sameOrDisabled b b.
Proof. unfold sameOrDisabled; auto. Qed.

Lemma sameOrDisabled_trans (b1 b2 b3 : Button) :
  sameOrDisabled b1 b2 -> sameOrDisabled b2 b3 -> sameOrDisabled b1 b3.
Proof.
  unfold sameOrDisabled. intros (A & B & C & D) (A' & B' & C' & D').
  repeat split; try congruence. auto.
Qed.

Lemma Forall2_sameOrDisabled_refl (bs : list Button) : Forall2 sameOrDisabled bs bs.
Proof. induction bs; constructor; auto using sameOrDisabled_refl. Qed.

Lemma Forall2_sameOrDisabled_trans (l1 l2 l3 : list Button) :
  Forall2 sameOrDisabled l1 l2 -> Forall2 sameOrDisabled l2 l3 ->
  Forall2 sameOrDisabled l1 l3.
Proof.
  intros H. revert l3. induction H as [| b1 b2 l1 l2 Hb _ IH]; intros l3 H23.
  - inversion H23; constructor.
  - inversion H23 as [| ? b3 ? l3' Hb' H']; subst.
    constructor; [eapply sameOrDisabled_trans; eassumption | apply IH; assumption].
Qed.

Lemma buttonsKept_refl (w : World) : buttonsKept w w.
Proof.
  exists (chatOptionButtons (chatMessages w)), [].
  rewrite app_nil_r. split; [reflexivity | apply Forall2_sameOrDisabled_refl].
Qed.

Lemma buttonsKept_trans (w1 w2 w3 : World) :
  buttonsKept w1 w2 -> buttonsKept w2 w3 -> buttonsKept w1 w3.
Proof.
  intros (k1 & a1 & E1 & F1) (k2 & a2 & E2 & F2).
  rewrite E1 in F2.
  apply Forall2_app_inv_l in F2 as (k2a & k2b & Fa & Fb & Ek).
  subst k2.
  exists k2a, (k2b ++ a2). split.
  - rewrite E2. now rewrite app_assoc.
  - eapply Forall2_sameOrDisabled_trans; eassumption.
Qed.

(** The buttons of [w'] are those of [w], changed as allowed, then
    [added]. *)
Lemma buttonsKept_intro (w w' : World) (kept added : list Button) :
  chatOptionButtons (chatMessages w') = kept ++ added ->
  Forall2 sameOrDisabled (chatOptionButtons (chatMessages w)) kept ->
  buttonsKept w w'.
Proof. intros E F. exists kept, added. auto. Qed.

Lemma buttonsKept_same (w w' : World) :
  chatOptionButtons (chatMessages w') = chatOptionButtons (chatMessages w) ->
  buttonsKept w w'.
Proof.
  intros E. apply (buttonsKept_intro w w' (chatOptionButtons (chatMessages w)) []).
  - now rewrite app_nil_r.
  - apply Forall2_sameOrDisabled_refl.
Qed.

Lemma buttonsKept_appended (w w' : World) (extra : list Node) :
  chatMessages w' = chatMessages w ++ extra -> buttonsKept w w'.
Proof.
  intros E. apply (buttonsKept_intro w w' (chatOptionButtons (chatMessages w))
                     (chatOptionButtons extra)).
  - now rewrite E, chatOptionButtons_app.
  - apply Forall2_sameOrDisabled_refl.
Qed.

Lemma chatOptionButtons_map_disableNode (l : list Node) :
  chatOptionButtons (map disableNode l) = map disableButton (chatOptionButtons l).
Proof.
  induction l as [| n l IH]; simpl; [reflexivity |].
  rewrite map_app, <- IH. f_equal. destruct n; reflexivity.
Qed.

Lemma buttonsKept_disableAllButtons (w : World) : buttonsKept w (disableAllButtons w).
Proof.
  apply (buttonsKept_intro _ _ (map disableButton (chatOptionButtons (chatMessages w))) []).
  - rewrite app_nil_r. apply chatOptionButtons_map_disableNode.
  - induction (chatOptionButtons (chatMessages w)); constructor; auto.
    unfold sameOrDisabled; simpl; auto.
Qed.

Lemma chatOptionButtons_removeBotMessageAt (k : nat) (l : list Node) :
  chatOptionButtons (removeBotMessageAt k l) = chatOptionButtons l.
Proof.
  revert k. induction l as [| n l IH]; intros k; simpl; [reflexivity |].
  destruct n; simpl; try (destruct k; simpl; rewrite ?IH; reflexivity);
    now rewrite IH.
Qed.

Lemma buttonsKept_resume (a : Awaiter) (w : World) : buttonsKept w (resume a w).
Proof.
  destruct a; simpl; [apply buttonsKept_refl |].
  unfold checkBackendConnection_resume.
  destruct (_ && _); [| apply buttonsKept_refl].
  apply buttonsKept_same. simpl. apply chatOptionButtons_removeBotMessageAt.
Qed.

Lemma buttonsKept_catch (e : error) (w : World) : buttonsKept w (sendMessage_catch e w).
Proof.
  apply buttonsKept_same.
  apply (sendMessage_catch_effect e w).
Qed.

Lemma buttonsKept_selected (i j : nat) (bs : list Button) (l : list Node) :
  nth_error l i = Some (InChatOptions bs) ->
  Forall2 sameOrDisabled (chatOptionButtons l)
          (chatOptionButtons (replaceAt i (InChatOptions (selectAt j bs)) l)).
Proof.
  assert (Hsel : forall j bs, Forall2 sameOrDisabled bs (selectAt j bs)).
  { clear. intros j bs. revert j.
    induction bs as [| b bs IH]; intros j; [destruct j; constructor |].
    destruct j; simpl; constructor;
      try (unfold sameOrDisabled; simpl; auto; fail); auto.
    clear. induction bs; simpl; constructor; auto.
    unfold sameOrDisabled; simpl; auto. }
  revert i. induction l as [| n l IH]; intros i Hi; [destruct i; discriminate |].
  destruct i; simpl in *.
  - inversion Hi; subst n. simpl.
    apply Forall2_app; [apply Hsel | apply Forall2_sameOrDisabled_refl].
  - apply Forall2_app; [apply Forall2_sameOrDisabled_refl | apply IH; exact Hi].
Qed.


Lemma addBotMessage_buttons (m : value) : preserves buttonsKept (addBotMessage m).
Proof.
  intros w. unfold addBotMessage, bind, lift, modify.
  destruct (toText m); simpl; [apply buttonsKept_refl |].
  eapply buttonsKept_appended. reflexivity.
Qed.

Lemma addUserMessage_buttons (m : value) : preserves buttonsKept (addUserMessage m).
Proof.
  intros w. unfold addUserMessage, bind, lift, modify.
  destruct (toText m); simpl; [apply buttonsKept_refl |].
  eapply buttonsKept_appended. reflexivity.
Qed.

Lemma removeChild_indicator_buttons (node : nat) :
  preserves buttonsKept (removeChild_indicator node).
Proof.
  intros w. unfold removeChild_indicator.
  destruct (removeIndicator node (chatMessages w)) as [l' |] eqn:Hrm; simpl.
  - apply buttonsKept_same. simpl. apply (removeIndicator_others _ _ _ Hrm).
  - apply buttonsKept_refl.
Qed.

Lemma handleAction_buttons (action data : value) :
  preserves buttonsKept (handleAction action data).
Proof.
  intros w.
  destruct (handleAction_appends action data w) as (extra & Hx & _).
  eapply buttonsKept_appended. exact Hx.
Qed.

Ltac buttons_step :=
  first
    [ apply addBotMessage_buttons
    | apply addUserMessage_buttons
    | apply removeChild_indicator_buttons
    | apply handleAction_buttons
    | apply preserves_throw; apply buttonsKept_refl
    | apply preserves_ret; apply buttonsKept_refl
    | apply preserves_lift; apply buttonsKept_refl
    | apply preserves_bind; [apply buttonsKept_trans | | intros ?] ].

Lemma sendMessageAs_buttons (a : Awaiter) (m : value) (w : World) :
  buttonsKept w (sendMessageAs a m w).
Proof.
  assert (Hreq : preserves buttonsKept (sendMessage_request m a)).
  { unfold sendMessage_request. repeat buttons_step.
    - destruct (negb (isStr m "Hello")); buttons_step.
    - apply preserves_modify. apply buttonsKept_disableAllButtons.
    - apply preserves_modify. intros w0.
      eapply buttonsKept_appended. unfold issueFetch; simpl. reflexivity. }
  unfold sendMessageAs. specialize (Hreq w).
  destruct (sendMessage_request m a w) as [[e | u] w']; simpl in Hreq; [| exact Hreq].
  eapply buttonsKept_trans; [exact Hreq |].
  eapply buttonsKept_trans; [apply buttonsKept_catch | apply buttonsKept_resume].
Qed.

Lemma sendMessage_fetched_buttons (call : Call) (o : Outcome) (w : World) :
  buttonsKept w (sendMessage_fetched call o w).
Proof.
  assert (Hresp : preserves buttonsKept (sendMessage_response call o)).
  { destruct o as [e | ok status]; simpl; [buttons_step |].
    repeat buttons_step. destruct (negb ok); buttons_step. }
  unfold sendMessage_fetched. specialize (Hresp w).
  destruct (sendMessage_response call o w) as [[e | u] w']; simpl in Hresp.
  - eapply buttonsKept_trans; [exact Hresp |].
    eapply buttonsKept_trans; [apply buttonsKept_catch | apply buttonsKept_resume].
  - eapply buttonsKept_trans; [exact Hresp |].
    apply buttonsKept_same. reflexivity.
Qed.

Lemma sendMessage_parsed_buttons (call : Call) (body : result value) (w : World) :
  buttonsKept w (sendMessage_parsed call body w).
Proof.
  unfold sendMessage_parsed.
  eapply buttonsKept_trans; [| apply buttonsKept_resume].
  apply (preserves_tryCatch buttonsKept buttonsKept_trans).
  - unfold sendMessage_body. repeat buttons_step.
    apply preserves_modify. intros w0. apply buttonsKept_same. reflexivity.
  - intros e w0. apply buttonsKept_catch.
Qed.

Lemma onOptionClick_buttons (i j : nat) (w : World) : buttonsKept w (onOptionClick i j w).
Proof.
  unfold onOptionClick.
  destruct (nth_error (chatMessages w) i) as [[| | | bs |] |] eqn:Hi;
    try apply buttonsKept_refl.
  destruct (nth_error bs j) as [b |]; [| apply buttonsKept_refl].
  set (w1 := set_chatMessages _ w).
  assert (H1 : buttonsKept w w1).
  { apply (buttonsKept_intro w w1 (chatOptionButtons (chatMessages w1)) []).
    - now rewrite app_nil_r.
    - unfold w1; simpl. apply buttonsKept_selected. exact Hi. }
  destruct (optionValue (btn_option b)); [exact H1 |].
  eapply buttonsKept_trans; [exact H1 | apply sendMessageAs_buttons].
Qed.

Lemma step_buttons (ev : Event) (w : World) : buttonsKept w (step ev w).
Proof.
  assert (Hsubmit : forall w0, buttonsKept w0 (submitInput w0)).
  { intros w0. unfold submitInput. destruct (negb _); [| apply buttonsKept_refl].
    eapply buttonsKept_trans; [apply sendMessageAs_buttons |].
    apply buttonsKept_same. reflexivity. }
  destruct ev; cbn [step].
  - unfold initChat, checkBackendConnection.
    eapply buttonsKept_trans; [| apply sendMessageAs_buttons].
    eapply buttonsKept_trans; [| apply (addBotMessage_buttons (Str loadingMsg))].
    apply (addBotMessage_buttons (Str welcomeMsg)).
  - destruct (userInput_disabled w); [apply buttonsKept_refl |].
    apply buttonsKept_same. reflexivity.
  - destruct (sendButton_disabled w); [apply buttonsKept_refl | apply Hsubmit].
  - destruct (userInput_disabled w); [apply buttonsKept_refl |].
    unfold onKeyPress. destruct (key =? "Enter"); [apply Hsubmit | apply buttonsKept_refl].
  - destruct (nth_error (chatMessages w) i) as [[| | | bs |] |];
      try apply buttonsKept_refl.
    destruct (nth_error bs j) as [b |]; [| apply buttonsKept_refl].
    destruct (btn_disabled b); [apply buttonsKept_refl |].
    generalize (btn_listeners b). intros ls. revert w.
    induction ls as [| l ls IH]; intros w; simpl; [apply buttonsKept_refl |].
    eapply buttonsKept_trans; [| apply IH].
    destruct l; simpl; [apply onOptionClick_buttons |].
    apply buttonsKept_same. reflexivity.
  - destruct (takeCall indicator (inflight w)) as [[call others] |];
      [| apply buttonsKept_refl].
    destruct (call_phase call); [| apply buttonsKept_refl].
    eapply buttonsKept_trans; [| apply sendMessage_fetched_buttons].
    apply buttonsKept_same. reflexivity.
  - destruct (takeCall indicator (inflight w)) as [[call others] |];
      [| apply buttonsKept_refl].
    destruct (call_phase call); [apply buttonsKept_refl |].
    eapply buttonsKept_trans; [| apply sendMessage_parsed_buttons].
    apply buttonsKept_same. reflexivity.
Qed.

(** X10.  Whatever happens on the page, in whatever order (clicks, typed
    messages, responses, failures, several calls at once), the option
    buttons already shown stay: in their order, before any button added
    later, with their label, their option and their listeners; and a
    button that is disabled is never enabled again. *)
Theorem buttons_never_enabled_again (evs : list Event) (w : World) :
  buttonsKept w (run evs w).
Proof.
  unfold run. revert w.
  induction evs as [| ev evs IH]; intros w; simpl; [apply buttonsKept_refl |].
  eapply buttonsKept_trans; [apply step_buttons | apply IH].
Qed.


(** ** Typing indicators *)

Lemma noMoreTyping_refl (w : World) : noMoreTyping w w.
Proof. unfold noMoreTyping; auto. Qed.

Lemma noMoreTyping_trans (w1 w2 w3 : World) :
  noMoreTyping w1 w2 -> noMoreTyping w2 w3 -> noMoreTyping w1 w3.
Proof. unfold noMoreTyping. intros [A B] [A' B']. split; [lia | congruence]. Qed.

Lemma indicators_appended (w w' : World) (extra : list Node) :
  chatMessages w' = chatMessages w ++ extra ->
  indicators w' = indicators w + length (filter isTypingIndicator extra).
Proof. intros E. unfold indicators. now rewrite E, filter_app, length_app. Qed.

Lemma indicators_removeFirstIndicator (l : list Node) :
  length (filter isTypingIndicator (removeFirstIndicator l))
    = pred (length (filter isTypingIndicator l)).
Proof.
  induction l as [| n l IH]; simpl; [reflexivity |].
  destruct n; simpl; auto.
Qed.

Lemma indicators_removeIndicator (node : nat) (l l' : list Node) :
  removeIndicator node l = Some l' ->
  length (filter isTypingIndicator l') = pred (length (filter isTypingIndicator l)).
Proof.
  revert l'. induction l as [| n l IH]; simpl; intros l' H; [discriminate |].
  destruct n;
    try (destruct (removeIndicator node l) as [r |]; simpl in H; [| discriminate];
         inversion H; subst l'; simpl; apply (IH r eq_refl)).
  destruct (node0 =? node)%nat.
  - inversion H; subst l'. reflexivity.
  - destruct (removeIndicator node l) as [r |] eqn:Hr; simpl in H; [| discriminate].
    inversion H; subst l'. simpl. rewrite (IH r eq_refl).
    assert (0 < length (filter isTypingIndicator l)).
    { clear -Hr. revert r Hr. induction l as [| n l IHl]; simpl; intros r Hr; [discriminate |].
      destruct n; simpl; try lia;
        destruct (removeIndicator node l) as [r' |]; simpl in Hr; try discriminate;
        eapply IHl; reflexivity. }
    lia.
Qed.

Lemma indicators_removeBotMessageAt (k : nat) (l : list Node) :
  length (filter isTypingIndicator (removeBotMessageAt k l))
    <= length (filter isTypingIndicator l).
Proof.
  revert k. induction l as [| n l IH]; intros k; simpl; [lia |].
  destruct n; simpl; try (destruct k; simpl; try lia; specialize (IH k); lia);
    apply IH.
Qed.

Lemma indicators_disableNode (l : list Node) :
  filter isTypingIndicator (map disableNode l) = filter isTypingIndicator l.
Proof.
  induction l as [| n l IH]; simpl; [reflexivity |].
  destruct n; simpl; rewrite IH; reflexivity.
Qed.

Lemma noMoreTyping_catch (e : error) (w : World) :
  indicators (sendMessage_catch e w) = pred (indicators w) /\
  inflight (sendMessage_catch e w) = inflight w.
Proof.
  split; [| reflexivity].
  unfold indicators, sendMessage_catch, exec; simpl.
  rewrite filter_app, length_app; simpl.
  rewrite indicators_removeFirstIndicator. lia.
Qed.

Lemma noMoreTyping_resume (a : Awaiter) (w : World) : noMoreTyping w (resume a w).
Proof.
  destruct a; simpl; [apply noMoreTyping_refl |].
  unfold checkBackendConnection_resume.
  destruct (_ && _); [| apply noMoreTyping_refl].
  split; [| reflexivity]. unfold indicators; simpl.
  apply indicators_removeBotMessageAt.
Qed.

Lemma addBotMessage_typing (m : value) : preserves noMoreTyping (addBotMessage m).
Proof.
  intros w. unfold addBotMessage, bind, lift, modify.
  destruct (toText m); simpl; [apply noMoreTyping_refl |].
  split; [| reflexivity].
  rewrite (indicators_appended w (appendChild (BotMessage s) w) [BotMessage s] eq_refl).
  simpl. lia.
Qed.

Lemma handleAction_typing (action data : value) :
  preserves noMoreTyping (handleAction action data).
Proof.
  intros w.
  destruct (handleAction_appends action data w) as (extra & Hx & Hq & _).
  split.
  - rewrite (indicators_appended w _ extra Hx).
    assert (filter isTypingIndicator extra = []) as ->; [| simpl; lia].
    clear -Hq. induction Hq as [| n l [Hb _] _ IH]; simpl; [reflexivity |].
    destruct n; simpl in *; try discriminate; exact IH.
  - destruct (handleAction_keeps action data w) as (_ & _ & _ & Hi). exact Hi.
Qed.


Lemma takeCall_fetching (indicator : nat) (l others : list Call) (c : Call) :
  takeCall indicator l = Some (c, others) ->
  length (filter awaitsFetch l)
    = length (filter awaitsFetch others) + (if awaitsFetch c then 1 else 0).
Proof.
  revert others. induction l as [| x l IH]; simpl; intros others H; [discriminate |].
  destruct (call_indicator x =? indicator)%nat.
  - inversion H; subst. destruct (awaitsFetch c); simpl; lia.
  - destruct (takeCall indicator l) as [[found rest] |]; [| discriminate].
    inversion H; subst. specialize (IH rest eq_refl).
    simpl. destruct (awaitsFetch x); simpl; lia.
Qed.

Lemma sendMessageAs_typing (a : Awaiter) (m : value) (w : World) :
  indicators w <= fetching w ->
  indicators (sendMessageAs a m w) <= fetching (sendMessageAs a m w).
Proof.
  intros Hinv.
  destruct (toText m) as [e | text] eqn:Ht.
  - assert (Hm : isStr m "Hello" = false).
    { destruct m; try reflexivity. simpl in Ht. discriminate. }
    unfold sendMessageAs, sendMessage_request, bind, modify, ret.
    rewrite Hm. cbn [negb].
    unfold addUserMessage, bind, lift. rewrite Ht.
    destruct (noMoreTyping_resume a (sendMessage_catch e w)) as [Hr Hri].
    destruct (noMoreTyping_catch e w) as [Hc Hci].
    unfold fetching. rewrite Hri, Hci. fold (fetching w). lia.
  - rewrite (sendMessageAs_suspended a m text w Ht).
    set (w1 := if isStr m "Hello" then w else appendChild (UserMessage text) w).
    assert (H1 : indicators w1 = indicators w /\ inflight w1 = inflight w).
    { unfold w1; destruct (isStr m "Hello"); [auto |].
      split; [| reflexivity].
      rewrite (indicators_appended w (appendChild (UserMessage text) w)
                 [UserMessage text] eq_refl). simpl. lia. }
    destruct H1 as [Hn Hi].
    unfold indicators, fetching, issueFetch; simpl.
    rewrite filter_app, !length_app, indicators_disableNode, filter_app, length_app.
    simpl. fold (indicators w1). rewrite Hn, Hi. fold (fetching w). lia.
Qed.

Lemma sendMessage_fetched_typing (call : Call) (o : Outcome) (w : World) :
  indicators w <= S (fetching w) ->
  indicators (sendMessage_fetched call o w) <= fetching (sendMessage_fetched call o w).
Proof.
  intros Hinv. unfold sendMessage_fetched.
  assert (Hcatch : forall e w1,
             indicators w1 <= indicators w -> inflight w1 = inflight w ->
             indicators (resume (call_awaiter call) (sendMessage_catch e w1))
               <= fetching (resume (call_awaiter call) (sendMessage_catch e w1))).
  { intros e w1 Hn Hi.
    destruct (noMoreTyping_resume (call_awaiter call) (sendMessage_catch e w1)) as [Hr Hri].
    destruct (noMoreTyping_catch e w1) as [Hc Hci].
    unfold fetching. rewrite Hri, Hci, Hi. fold (fetching w). lia. }
  destruct o as [e | ok status]; simpl.
  - apply Hcatch; auto.
  - unfold bind, removeChild_indicator.
    destruct (removeIndicator (call_indicator call) (chatMessages w)) as [l' |] eqn:Hrm.
    + pose proof (indicators_removeIndicator _ _ _ Hrm) as Hl.
      destruct ok; simpl.
      * unfold indicators, fetching; simpl.
        rewrite Hl, filter_app, length_app. simpl.
        fold (indicators w). fold (fetching w). lia.
      * apply Hcatch; [| reflexivity].
        unfold indicators; simpl. rewrite Hl. fold (indicators w). lia.
    + apply Hcatch; auto.
Qed.

Lemma sendMessage_parsed_typing (call : Call) (body : result value) (w : World) :
  noMoreTyping w (sendMessage_parsed call body w).
Proof.
  unfold sendMessage_parsed.
  eapply noMoreTyping_trans; [| apply noMoreTyping_resume].
  apply (preserves_tryCatch noMoreTyping noMoreTyping_trans).
  - unfold sendMessage_body.
    repeat first
      [ apply addBotMessage_typing
      | apply handleAction_typing
      | apply preserves_lift; apply noMoreTyping_refl
      | apply preserves_modify; intros ?; split; reflexivity
      | apply preserves_bind; [apply noMoreTyping_trans | | intros ?] ].
  - intros e w0. destruct (noMoreTyping_catch e w0) as [Hc Hi].
    split; [lia | exact Hi].
Qed.

Lemma step_typing (ev : Event) (w : World) :
  indicators w <= fetching w -> indicators (step ev w) <= fetching (step ev w).
Proof.
  intros Hinv.
  assert (Hsubmit : forall w0, indicators w0 <= fetching w0 ->
                               indicators (submitInput w0) <= fetching (submitInput w0)).
  { intros w0 H0. unfold submitInput. destruct (negb _); [| exact H0].
    apply (sendMessageAs_typing Detached _ w0 H0). }
  destruct ev; cbn [step].
  - unfold initChat, checkBackendConnection.
    apply sendMessageAs_typing.
    unfold indicators, fetching in *; simpl.
    rewrite !filter_app, !length_app; simpl. lia.
  - destruct (userInput_disabled w); exact Hinv.
  - destruct (sendButton_disabled w); [exact Hinv | apply Hsubmit; exact Hinv].
  - destruct (userInput_disabled w); [exact Hinv |].
    unfold onKeyPress. destruct (key =? "Enter"); [apply Hsubmit |]; exact Hinv.
  - destruct (nth_error (chatMessages w) i) as [[| | | bs |] |]; try exact Hinv.
    destruct (nth_error bs j) as [b |]; [| exact Hinv].
    destruct (btn_disabled b); [exact Hinv |].
    generalize (btn_listeners b). intros ls. revert w Hinv.
    induction ls as [| l ls IH]; intros w Hinv; simpl; [exact Hinv |].
    apply IH. destruct l; simpl; [| exact Hinv].
    unfold onOptionClick.
    destruct (nth_error (chatMessages w) i) as [[| | | bs' |] |]; try exact Hinv.
    destruct (nth_error bs' j) as [b' |]; [| exact Hinv].
    set (w1 := set_chatMessages _ w).
    assert (H1 : indicators w1 <= fetching w1).
    { unfold w1, indicators, fetching; simpl.
      fold (fetching w).
      assert (E : forall l k n, isTypingIndicator n = false ->
                    length (filter isTypingIndicator (replaceAt k n l))
                      <= length (filter isTypingIndicator l)).
      { clear. induction l as [| x l IHl]; intros k n Hn; destruct k; simpl; try lia.
        - rewrite Hn. destruct (isTypingIndicator x); simpl; lia.
        - specialize (IHl k n Hn). destruct (isTypingIndicator x); simpl; lia. }
      specialize (E (chatMessages w) i (InChatOptions (selectAt j bs')) eq_refl).
      unfold indicators in Hinv. lia. }
    destruct (optionValue (btn_option b')); [exact H1 |].
    apply sendMessageAs_typing. exact H1.
  - destruct (takeCall indicator (inflight w)) as [[call others] |] eqn:Ht; [| exact Hinv].
    destruct (call_phase call) eqn:Hph; [| exact Hinv].
    apply sendMessage_fetched_typing.
    pose proof (takeCall_fetching _ _ _ _ Ht) as Hf.
    unfold awaitsFetch in Hf at 3. rewrite Hph in Hf.
    unfold indicators, fetching in *; simpl. lia.
  - destruct (takeCall indicator (inflight w)) as [[call others] |] eqn:Ht; [| exact Hinv].
    destruct (call_phase call) eqn:Hph; [exact Hinv |].
    destruct (sendMessage_parsed_typing call body (set_inflight others w)) as [Hn Hi].
    pose proof (takeCall_fetching _ _ _ _ Ht) as Hf.
    unfold awaitsFetch in Hf at 3. rewrite Hph in Hf.
    unfold fetching. rewrite Hi. simpl.
    unfold indicators, fetching in *; simpl in *. lia.
Qed.

(** X11.  The "Typing..." indicator never outlives the requests.  On every
    page reached from one where there are no more indicators than calls
    waiting for their [fetch], that is still so, whatever the events and
    their order; in particular, from the start of the script on, a page on
    which no call waits for its [fetch] shows no typing indicator. *)
Theorem typing_indicators_bounded (evs : list Event) :
  (forall w, indicators w <= fetching w ->
             indicators (run evs w) <= fetching (run evs w)) /\
  (fetching (run evs initial) = 0 ->
   filter isTypingIndicator (chatMessages (run evs initial)) = []).
Proof.
  assert (Hrun : forall w, indicators w <= fetching w ->
                           indicators (run evs w) <= fetching (run evs w)).
  { unfold run. induction evs as [| ev evs IH]; intros w Hinv; simpl; [exact Hinv |].
    apply IH. apply step_typing. exact Hinv. }
  split; [exact Hrun |].
  intros H0. specialize (Hrun initial (Nat.le_refl 0)).
  rewrite H0 in Hrun. unfold indicators in Hrun.
  destruct (filter isTypingIndicator (chatMessages (run evs initial)));
    [reflexivity | simpl in Hrun; lia].
Qed.

Lemma typing_indicators_bounded_witness :
  indicators initial <= fetching initial /\
  fetching (run [Load; Input "hi"; ClickSend; FetchSettles 1 (Responded false 500);
                 FetchSettles 0 (Responded true 200)] initial) = 0 /\
  filter isTypingIndicator
    (chatMessages (run [Load; Input "hi"; ClickSend; FetchSettles 1 (Responded false 500);
                        FetchSettles 0 (Responded true 200)] initial)) = [].
Proof.
  split; [apply Nat.le_refl |].
  split; [reflexivity |].
  apply (proj2 (typing_indicators_bounded
                  [Load; Input "hi"; ClickSend; FetchSettles 1 (Responded false 500);
                   FetchSettles 0 (Responded true 200)])).
  reflexivity.
Defined.


(** X12.  The [catch] block removes the first typing indicator it finds,
    which may belong to another call.  A call whose indicator is gone when
    its response arrives is lost: [removeChild] throws, the generic notice
    is shown, the call ends there without reading the body, and the session
    state stays as it was, although the response was a good one. *)
Theorem response_without_indicator_is_dropped
    (w : World) (indicator status : nat) (ok : bool) (call : Call) (others : list Call) :
  takeCall indicator (inflight w) = Some (call, others) ->
  call_phase call = AwaitingFetch ->
  call_awaiter call = Detached ->
  removeIndicator (call_indicator call) (chatMessages w) = None ->
  inflight (step (FetchSettles indicator (Responded ok status)) w) = others /\
  transcript (step (FetchSettles indicator (Responded ok status)) w)
    = transcript w ++ [BotMessage sorryNotice] /\
  session (step (FetchSettles indicator (Responded ok status)) w) = session w.
Proof.
  intros Ht Hph Haw Hrm.
  cbn [step]. rewrite Ht, Hph.
  unfold sendMessage_fetched, sendMessage_response, bind, removeChild_indicator.
  cbn [chatMessages set_inflight]. rewrite Hrm, Haw. cbn [resume].
  destruct (sendMessage_catch_effect NotFoundError (set_inflight others w))
    as (Ct & Cs & Ci & _).
  repeat split; assumption.
Qed.

Lemma response_without_indicator_is_dropped_witness :
  takeCall 1 (inflight secondCallFailed)
    = Some (mkCall 1 (Obj [("message", Str "first");
                           ("user_data", Obj [("state", Str "offer")])])
              Detached AwaitingFetch, []) /\
  removeIndicator 1 (chatMessages secondCallFailed) = None /\
  inflight (step (FetchSettles 1 (Responded true 200)) secondCallFailed) = [] /\
  step (JsonSettles 1 (inr (Obj [("response", Str "Booked.")])))
       (step (FetchSettles 1 (Responded true 200)) secondCallFailed)
    = step (FetchSettles 1 (Responded true 200)) secondCallFailed.
Proof.
  split; [reflexivity |]. split; [reflexivity |].
  split; [| reflexivity].
  apply (response_without_indicator_is_dropped secondCallFailed 1 200 true
           (mkCall 1 (Obj [("message", Str "first");
                           ("user_data", Obj [("state", Str "offer")])])
              Detached AwaitingFetch) []);
    reflexivity.
Defined.

(** ** A click on an option *)

Lemma selectAt_selected (j : nat) (bs : list Button) (k : nat) (b' : Button) :
  nth_error (selectAt j bs) k = Some b' -> btn_selected b' = (k =? j)%nat.
Proof.
  revert j k. induction bs as [| b bs IH]; intros j k H.
  - destruct j, k; discriminate.
  - destruct j as [| j]; simpl in H.
    + destruct k as [| k]; simpl in H.
      * inversion H; reflexivity.
      * rewrite nth_error_map in H.
        destruct (nth_error bs k); [| discriminate].
        inversion H; reflexivity.
    + destruct k as [| k]; simpl in H.
      * inversion H; reflexivity.
      * apply (IH j k H).
Qed.

Lemma nth_error_replaceAt (i : nat) (x y : Node) (l : list Node) :
  nth_error l i = Some y -> nth_error (replaceAt i x l) i = Some x.
Proof.
  revert i. induction l as [| n l IH]; intros i H; destruct i; simpl in *;
    try discriminate; auto.
Qed.

(** X13.  A click on an enabled option button marks that button, and only
    that one, as selected in its container, disables every option button on
    the page, and issues one request whose message is
    [option.value || option], built from the session state of the moment. *)
Theorem click_selects_and_sends
    (w : World) (i j : nat) (bs : list Button) (b : Button) (v : value) (text : string) :
  nth_error (chatMessages w) i = Some (InChatOptions bs) ->
  nth_error bs j = Some b ->
  btn_disabled b = false ->
  btn_listeners b = [SendOption] ->
  optionValue (btn_option b) = inr v ->
  toText v = inr text ->
  nth_error (chatMessages (step (ClickOption i j) w)) i
    = Some (InChatOptions (map disableButton (selectAt j bs))) /\
  (forall k b', nth_error (selectAt j bs) k = Some b' -> btn_selected b' = (k =? j)%nat) /\
  inflight (step (ClickOption i j) w)
    = inflight w ++ [mkCall (nextNode w)
                       (Obj [("message", v); ("user_data", userData w)])
                       Detached AwaitingFetch] /\
  allDisabled (step (ClickOption i j) w).
Proof.
  intros Hi Hj Hdis Hls Hv Ht.
  cbn [step]. rewrite Hi, Hj, Hdis, Hls. cbn [fold_left runListener].
  unfold onOptionClick. rewrite Hi, Hj, Hv.
  set (w1 := set_chatMessages _ w).
  unfold sendMessage. rewrite (sendMessageAs_suspended Detached v text w1 Ht).
  set (w2 := if isStr v "Hello" then w1 else appendChild (UserMessage text) w1).
  assert (H2 : exists tail, chatMessages w2 = chatMessages w1 ++ tail).
  { unfold w2; destruct (isStr v "Hello"); [exists []; now rewrite app_nil_r |].
    eexists; reflexivity. }
  destruct H2 as [tail Htail].
  assert (H2' : inflight w2 = inflight w /\ nextNode w2 = nextNode w /\
                userData w2 = userData w).
  { unfold w2; destruct (isStr v "Hello"); auto. }
  destruct H2' as (Hin & Hn & Hu).
  split; [| split; [| split]].
  - unfold issueFetch, disableAllButtons; simpl. rewrite Htail.
    rewrite map_app, <- app_assoc.
    rewrite nth_error_app1.
    + rewrite nth_error_map.
      unfold w1; simpl. now rewrite (nth_error_replaceAt i _ _ _ Hi).
    + rewrite length_map. apply nth_error_Some.
      unfold w1; simpl. rewrite (nth_error_replaceAt i _ _ _ Hi). discriminate.
  - intros k b'. apply selectAt_selected.
  - unfold issueFetch, requestData; simpl. rewrite Hin, Hn, Hu. reflexivity.
  - apply allDisabled_issueFetch.
Qed.

Lemma click_selects_and_sends_witness :
  nth_error (chatMessages bookingOffered) 2
    = Some (InChatOptions (menu [("Yes", "Yes"); ("No", "No")])) /\
  map btn_selected
      (match nth_error (chatMessages (step (ClickOption 2 1) bookingOffered)) 2 with
       | Some (InChatOptions bs) => bs
       | _ => []
       end)
    = [false; true] /\
  map call_body (inflight (step (ClickOption 2 1) bookingOffered))
    = [Obj [("message", Str "No"); ("user_data", Obj [("state", Str "offer")])]].
Proof.
  destruct (click_selects_and_sends bookingOffered 2 1
              (menu [("Yes", "Yes"); ("No", "No")])
              (mkButton "No" (textValue "No" "No") false "" "" false [SendOption])
              (Str "No") "No" eq_refl eq_refl eq_refl eq_refl eq_refl eq_refl)
    as (Hnode & _ & Hcall & _).
  split; [reflexivity |].
  split; [rewrite Hnode; reflexivity | rewrite Hcall; reflexivity].
Defined.


(** ** Lists of strings *)

Lemma createOptionButtons_strings (names : list string) :
  createOptionButtons (map Str names) = inr (map stringButton names).
Proof.
  induction names as [| s names IH]; simpl; [reflexivity |].
  rewrite IH. unfold createOptionButton, orElse; simpl.
  destruct (negb (s =? "")); reflexivity.
Qed.

Lemma handleAction_strings (tag key : string) (data : value) (names : list string) (w : World) :
  (tag = "show_options" /\ key = "options") \/
  (tag = "request_doctor" /\ key = "doctors") \/
  (tag = "request_date" /\ key = "available_dates") \/
  (tag = "request_time" /\ key = "available_slots") ->
  truthy data = true ->
  field data key = Arr (map Str names) ->
  handleAction (Str tag) data w
    = (inr tt, appendChild (InChatOptions (map stringButton names)) w).
Proof.
  intros Htag Hd Hf.
  destruct Htag as [[-> ->] | [[-> ->] | [[-> ->] | [-> ->]]]];
    unfold handleAction; simpl; rewrite Hd, Hf; simpl;
    unfold bind, lift, modify; rewrite createOptionButtons_strings; reflexivity.
Qed.

(** X14.  A list of strings is offered as it stands: for [show_options],
    [request_doctor], [request_date] and [request_time] alike, an array of
    strings in the tag's field gives one enabled button per string, in
    order, labelled with the string and sending that very string when
    clicked (the empty string included); the dispatcher does not throw. *)
Theorem string_lists_offered_as_they_stand
    (tag key : string) (data : value) (names : list string) (w : World) :
  (tag = "show_options" /\ key = "options") \/
  (tag = "request_doctor" /\ key = "doctors") \/
  (tag = "request_date" /\ key = "available_dates") \/
  (tag = "request_time" /\ key = "available_slots") ->
  truthy data = true ->
  field data key = Arr (map Str names) ->
  handleAction (Str tag) data w
    = (inr tt, appendChild (InChatOptions (map stringButton names)) w) /\
  map choiceOf (map stringButton names) = map (fun s => mkChoice s (inr (Str s))) names /\
  choices (exec (handleAction (Str tag) data) (disableAllButtons w))
    = map (fun s => mkChoice s (inr (Str s))) names.
Proof.
  intros Htag Hd Hf.
  assert (Hc : map choiceOf (map stringButton names)
               = map (fun s => mkChoice s (inr (Str s))) names).
  { rewrite map_map. apply map_ext. intros s.
    unfold choiceOf, stringButton, optionValue, orElse; simpl.
    destruct (negb (s =? "")); reflexivity. }
  split; [apply (handleAction_strings tag key); assumption |].
  split; [exact Hc |].
  unfold exec. rewrite (handleAction_strings tag key data names _ Htag Hd Hf).
  unfold choices; simpl.
  rewrite chatOptionButtons_app, chatOptionButtons_map_disableNode; simpl.
  rewrite app_nil_r, filter_app, filter_enabled_disabled; simpl.
  rewrite <- Hc. f_equal.
  clear. induction names as [| s names IH]; simpl; [reflexivity | now rewrite IH].
Qed.

Lemma string_lists_offered_as_they_stand_witness :
  truthy (Obj [("available_slots", Arr [Str "09:00"; Str ""])]) = true /\
  choices (exec (handleAction (Str "request_time")
                   (Obj [("available_slots", Arr [Str "09:00"; Str ""])]))
                (disableAllButtons bookingOffered))
    = [mkChoice "09:00" (inr (Str "09:00")); mkChoice "" (inr (Str ""))].
Proof.
  split; [reflexivity |].
  destruct (string_lists_offered_as_they_stand "request_time" "available_slots"
              (Obj [("available_slots", Arr [Str "09:00"; Str ""])])
              ["09:00"; ""] bookingOffered)
    as (_ & _ & H); auto.
Defined.

(** ** The bootstrap turn failing *)

(** X15.  When the bootstrap turn fails, at the [fetch] or at the body,
    the page started empty ends with the welcome banner followed by one
    notice of the [catch] block of [sendMessage]: the "Connecting to
    server..." message is removed on failure too.  Nothing is left in
    flight and the session state and the controls are untouched, so the
    user can type. *)
Theorem bootstrap_failure_leaves_one_notice (w : World) :
  chatMessages w = [] ->
  inflight w = [] ->
  (forall o,
      failedFetch o = true ->
      exists text,
        isNotice text /\
        chatMessages (run [Load; FetchSettles (nextNode w) o] w)
          = [BotMessage welcomeMsg; BotMessage text] /\
        inflight (run [Load; FetchSettles (nextNode w) o] w) = [] /\
        session (run [Load; FetchSettles (nextNode w) o] w) = session w) /\
  (forall status body,
      failedBody body = true ->
      exists text,
        isNotice text /\
        chatMessages (run [Load; FetchSettles (nextNode w) (Responded true status);
                           JsonSettles (nextNode w) body] w)
          = [BotMessage welcomeMsg; BotMessage text] /\
        inflight (run [Load; FetchSettles (nextNode w) (Responded true status);
                       JsonSettles (nextNode w) body] w) = [] /\
        session (run [Load; FetchSettles (nextNode w) (Responded true status);
                      JsonSettles (nextNode w) body] w) = session w).
Proof.
  intros Hc Hi.
  destruct w as [ud cm iv idis sdis fl nn]; simpl in Hc, Hi; subst cm fl.
  assert (Hload : step Load (mkWorld ud [] iv idis sdis [] nn)
                  = mkWorld ud [BotMessage welcomeMsg; BotMessage loadingMsg;
                                TypingIndicator nn]
                      iv idis sdis
                      [mkCall nn (Obj [("message", Str "Hello"); ("user_data", ud)])
                         CheckBackendConnection AwaitingFetch]
                      (S nn)) by reflexivity.
  split.
  - intros o Hf. unfold run. cbn [fold_left nextNode]. rewrite Hload.
    cbn [step inflight]. rewrite takeCall_last. cbn [call_phase].
    unfold sendMessage_fetched.
    destruct o as [e | ok status].
    + exists (notice e). split; [apply notice_isNotice |].
      simpl. repeat split; reflexivity.
    + simpl in Hf. destruct ok; [discriminate |].
      exists sorryNotice. split; [right; right; reflexivity |].
      match goal with
      | |- context [sendMessage_response ?c ?o ?p] =>
          assert (Hresp : sendMessage_response c o p
                          = (inl (httpError status),
                             set_chatMessages [BotMessage welcomeMsg; BotMessage loadingMsg] p))
      end.
      { unfold sendMessage_response, bind, removeChild_indicator; simpl.
        rewrite Nat.eqb_refl. reflexivity. }
      rewrite Hresp. unfold sendMessage_catch. rewrite notice_httpError.
      repeat split; reflexivity.
  - intros status body Hf. unfold run. cbn [fold_left nextNode]. rewrite Hload.
    cbn [step inflight]. rewrite takeCall_last. cbn [call_phase].
    unfold sendMessage_fetched.
    rewrite (sendMessage_response_ok _ _ [BotMessage welcomeMsg; BotMessage loadingMsg])
      by (simpl; now rewrite Nat.eqb_refl).
    cbn [inflight set_inflight set_chatMessages app].
    unfold awaitingJson. cbn [call_indicator call_body call_awaiter].
    rewrite takeCall_last. cbn [call_phase].
    unfold sendMessage_parsed, tryCatch. cbn [call_awaiter].
    match goal with
    | |- context [sendMessage_body body ?p] =>
        destruct (failed_body_throws body p Hf) as (e & He); rewrite He
    end.
    exists (notice e). split; [apply notice_isNotice |].
    repeat split; reflexivity.
Qed.

Lemma bootstrap_failure_leaves_one_notice_witness :
  chatMessages initial = [] /\ inflight initial = [] /\
  failedFetch (Rejected (mkError "TypeError" "Failed to fetch")) = true /\
  exists text,
    isNotice text /\
    chatMessages (run [Load; FetchSettles 0 (Rejected (mkError "TypeError" "Failed to fetch"))]
                      initial)
      = [BotMessage welcomeMsg; BotMessage text].
Proof.
  split; [reflexivity |]. split; [reflexivity |]. split; [reflexivity |].
  destruct (bootstrap_failure_leaves_one_notice initial eq_refl eq_refl) as [Hfetch _].
  destruct (Hfetch (Rejected (mkError "TypeError" "Failed to fetch")) eq_refl)
    as (text & Hn & Hc & _).
  exists text. split; [exact Hn | exact Hc].
Defined.


(** ** The panel of the other client *)

Lemma appendButtons_strings (names : list string) (panel : Panel.State) :
  Panel.appendButtons (map Str names) panel
    = (inr tt, panel ++ map (fun s => Panel.mkButton s (Str s)) names).
Proof.
  revert panel. induction names as [| s names IH]; intros panel; simpl.
  - now rewrite app_nil_r.
  - rewrite IH. now rewrite <- app_assoc.
Qed.

(** X16.  In the panel client, [displayOptionButtons] replaces the panel:
    what it leaves does not depend on the buttons that were there.  It
    checks [Array.isArray]: options that are not an array empty the panel
    and nothing is thrown.  An array of strings gives one button per
    string, in order, labelled with the string and sending it. *)
Theorem panel_is_replaced (options : value) (panel : Panel.State) :
  Panel.displayOptionButtons options panel = Panel.displayOptionButtons options [] /\
  (isArray options = false ->
   Panel.displayOptionButtons options panel = (inr tt, [])) /\
  (forall names,
      options = Arr (map Str names) ->
      Panel.displayOptionButtons options panel
        = (inr tt, map (fun s => Panel.mkButton s (Str s)) names)).
Proof.
  split; [destruct options; reflexivity |].
  split.
  - destruct options; simpl; intros H; try reflexivity. discriminate.
  - intros names ->. simpl. apply appendButtons_strings.
Qed.

Lemma panel_is_replaced_witness :
  isArray (Str "Cardiology") = false /\
  Panel.displayOptionButtons (Str "Cardiology") [Panel.mkButton "Yes" (Str "Yes")]
    = (inr tt, []) /\
  Panel.displayOptionButtons (Arr [Str "Mon"; Str "Tue"]) [Panel.mkButton "Yes" (Str "Yes")]
    = (inr tt, [Panel.mkButton "Mon" (Str "Mon"); Panel.mkButton "Tue" (Str "Tue")]).
Proof.
  destruct (panel_is_replaced (Str "Cardiology") [Panel.mkButton "Yes" (Str "Yes")])
    as (_ & Hguard & _).
  destruct (panel_is_replaced (Arr [Str "Mon"; Str "Tue"]) [Panel.mkButton "Yes" (Str "Yes")])
    as (_ & _ & Hnames).
  split; [reflexivity |].
  split; [apply Hguard; reflexivity |].
  apply (Hnames ["Mon"; "Tue"]). reflexivity.
Defined.

(** X17.  In the panel client, every response empties the panel unless it
    is [show_options] with truthy options: any other action does, whatever
    [data] is, and so does [show_options] with options absent or falsy.
    One case escapes: [show_options] with [data] [null] or absent throws,
    [data.options] being read without a guard, and the old buttons stay
    in the panel. *)
Theorem panel_cleared_unless_options (action data : value) (panel : Panel.State) :
  (isStr action "show_options" = false ->
   Panel.handleAction action data panel = (inr tt, [])) /\
  (isStr action "show_options" = true ->
   truthy data = true ->
   truthy (field data "options") = false ->
   Panel.handleAction action data panel = (inr tt, [])) /\
  (isStr action "show_options" = true ->
   truthy data = true ->
   truthy (field data "options") = true ->
   Panel.handleAction action data panel
     = Panel.displayOptionButtons (field data "options") []) /\
  (isStr action "show_options" = true ->
   data = Null \/ data = Undefined ->
   exists e, Panel.handleAction action data panel = (inl e, panel)).
Proof.
  unfold Panel.handleAction.
  split; [intros ->; reflexivity |].
  split; [| split].
  - intros -> Hd Ho. rewrite (prop_truthy data "options" Hd), Ho. reflexivity.
  - intros -> Hd Ho. rewrite (prop_truthy data "options" Hd), Ho.
    destruct (field data "options"); reflexivity.
  - intros -> [-> | ->]; eexists; reflexivity.
Qed.

Lemma panel_cleared_unless_options_witness :
  isStr (Str "offer_booking") "show_options" = false /\
  Panel.handleAction (Str "offer_booking") Undefined [Panel.mkButton "Yes" (Str "Yes")]
    = (inr tt, []) /\
  isStr (Str "show_options") "show_options" = true /\
  (exists e,
      Panel.handleAction (Str "show_options") Undefined [Panel.mkButton "Yes" (Str "Yes")]
        = (inl e, [Panel.mkButton "Yes" (Str "Yes")])) /\
  Panel.handleAction (Str "show_options") (Obj [("options", Str "")])
                     [Panel.mkButton "Yes" (Str "Yes")]
    = (inr tt, []).
Proof.
  split; [reflexivity |].
  split.
  { apply (proj1 (panel_cleared_unless_options (Str "offer_booking") Undefined
                    [Panel.mkButton "Yes" (Str "Yes")])).
    reflexivity. }
  split; [reflexivity |].
  split.
  { destruct (panel_cleared_unless_options (Str "show_options") Undefined
                [Panel.mkButton "Yes" (Str "Yes")]) as (_ & _ & _ & H).
    apply H; [reflexivity | right; reflexivity]. }
  destruct (panel_cleared_unless_options (Str "show_options") (Obj [("options", Str "")])
              [Panel.mkButton "Yes" (Str "Yes")]) as (_ & H & _).
  apply H; reflexivity.
Defined.


(** ** A page that cannot go on *)

(** X18.  Nothing re-enables the controls but the restart button, and
    nothing re-enables a button.  So a page on which both controls and
    every option button are disabled, with nothing in flight, is final: no
    typing, key, click or late response changes it; only reloading the
    script does.  Such a page is reached when the conversation ends while
    older options are still enabled and one of them is clicked. *)
Theorem disabled_page_is_final (w : World) (ev : Event) :
  userInput_disabled w = true ->
  sendButton_disabled w = true ->
  allDisabled w ->
  inflight w = [] ->
  ev <> Load ->
  step ev w = w.
Proof.
  intros Hin Hsb Hall Hfl Hev.
  destruct ev; cbn [step].
  - contradiction.
  - now rewrite Hin.
  - now rewrite Hsb.
  - now rewrite Hin.
  - apply (click_allDisabled i j w Hall).
  - now rewrite Hfl.
  - now rewrite Hfl.
Qed.

Lemma disabled_page_is_final_witness :
  userInput_disabled endedThenClicked = true /\
  sendButton_disabled endedThenClicked = true /\
  allDisabled endedThenClicked /\
  inflight endedThenClicked = [] /\
  step (ClickOption 8 0) endedThenClicked = endedThenClicked /\
  step ClickSend endedThenClicked = endedThenClicked.
Proof.
  assert (Hall : allDisabled endedThenClicked).
  { unfold allDisabled. vm_compute. repeat constructor. }
  split; [reflexivity |]. split; [reflexivity |].
  split; [exact Hall |]. split; [reflexivity |].
  split; apply disabled_page_is_final; try reflexivity; try exact Hall; discriminate.
Defined.

(** ** Bodies arriving in any order *)

(** X19.  Whenever the body of a response is handed to the call that waits
    for it, and it carries a reply that can be shown, the session state
    becomes that body's [data] (or [{}] when that is falsy), whatever the
    page, whatever the state was and whatever else is in flight.  With
    several calls in flight, the state is that of the body read last, not
    of the request sent last. *)
Theorem last_body_read_wins
    (w : World) (indicator : nat) (body : value) (text : string)
    (call : Call) (others : list Call) :
  takeCall indicator (inflight w) = Some (call, others) ->
  call_phase call = AwaitingJson ->
  replyText body = inr text ->
  userData (step (JsonSettles indicator (inr body)) w)
    = orElse (field body "data") (Obj []) /\
  inflight (step (JsonSettles indicator (inr body)) w) = others.
Proof.
  intros Ht Hph Hr.
  cbn [step]. rewrite Ht, Hph.
  split.
  - unfold sendMessage_parsed.
    assert (Hu : forall a x, userData (resume a x) = userData x).
    { intros a x. pose proof (resume_session a x) as [Hs _].
      unfold session in Hs. congruence. }
    rewrite Hu. clear Hu.
    unfold replyText in Hr.
    destruct (prop body "response") as [e | r] eqn:Hp; [discriminate |]. simpl in Hr.
    unfold tryCatch. rewrite (sendMessage_body_ok body r text _ Hp Hr).
    match goal with
    | |- userData (let (r0, w') := handleAction ?a ?d ?q in _) = _ =>
        change (userData (tryCatch (handleAction a d) sendMessage_catch q)
                = orElse (field body "data") (Obj []));
        rewrite dispatch_keeps_userData
    end.
    reflexivity.
  - destruct (sendMessage_parsed_keeps call (inr body) (set_inflight others w))
      as (_ & _ & Hk).
    rewrite Hk. reflexivity.
Qed.

Lemma last_body_read_wins_witness :
  userData secondBodyRead = Obj [("state", Str "after second")] /\
  takeCall 1 (inflight secondBodyRead)
    = Some (mkCall 1 (Obj [("message", Str "first");
                           ("user_data", Obj [("state", Str "offer")])])
              Detached AwaitingJson, []) /\
  userData (step (JsonSettles 1 (inr (Obj [("response", Str "to first");
                                           ("data", Obj [("state", Str "after first")])])))
                 secondBodyRead)
    = Obj [("state", Str "after first")].
Proof.
  split; [vm_compute; reflexivity |].
  split; [vm_compute; reflexivity |].
  apply (last_body_read_wins secondBodyRead 1
           (Obj [("response", Str "to first");
                 ("data", Obj [("state", Str "after first")])])
           "to first"
           (mkCall 1 (Obj [("message", Str "first");
                           ("user_data", Obj [("state", Str "offer")])])
              Detached AwaitingJson) []);
    vm_compute; reflexivity.
Defined.


(** * Turns that overlap *)

(** ** Unknown action tags *)












(** ** The bootstrap turn among other turns *)

Lemma userMessages_removeBotMessageAt (k : nat) (l : list Node) :
  filter isUserMessage (removeBotMessageAt k l) = filter isUserMessage l.
Proof.
  revert k. induction l as [| n l IH]; intros k; simpl; [reflexivity |].
  destruct n; simpl; try (destruct k; simpl; rewrite ?IH; reflexivity);
    now rewrite IH.
Qed.

Lemma userMessages_removeFirstIndicator (l : list Node) :
  filter isUserMessage (removeFirstIndicator l) = filter isUserMessage l.
Proof.
  induction l as [| n l IH]; simpl; [reflexivity |].
  destruct n; simpl; rewrite ?IH; reflexivity.
Qed.

Lemma userMessages_removeIndicator (node : nat) (l l' : list Node) :
  removeIndicator node l = Some l' ->
  filter isUserMessage l' = filter isUserMessage l.
Proof.
  revert l'. induction l as [| n l IH]; simpl; intros l' H; [discriminate |].
  destruct n;
    try (destruct (removeIndicator node l) as [r |]; simpl in H; [| discriminate];
         inversion H; subst l'; simpl; now rewrite (IH r eq_refl)).
  destruct (node0 =? node)%nat.
  - inversion H; subst l'. reflexivity.
  - destruct (removeIndicator node l) as [r |]; simpl in H; [| discriminate].
    inversion H; subst l'. simpl. now apply IH.
Qed.

Lemma userMessages_resume (a : Awaiter) (w : World) :
  userMessages (resume a w) = userMessages w.
Proof.
  destruct a; [reflexivity |]. simpl.
  unfold checkBackendConnection_resume.
  destruct (_ && _); [| reflexivity].
  apply userMessages_removeBotMessageAt.
Qed.

Lemma userMessages_catch (e : error) (w : World) :
  userMessages (sendMessage_catch e w) = userMessages w.
Proof.
  unfold userMessages, sendMessage_catch, exec; simpl.
  rewrite filter_app, userMessages_removeFirstIndicator; simpl.
  apply app_nil_r.
Qed.

Lemma userMessages_addBotMessage (m : value) (w : World) :
  userMessages (snd (addBotMessage m w)) = userMessages w.
Proof.
  unfold addBotMessage, bind, lift, modify.
  destruct (toText m); simpl; [reflexivity |].
  unfold userMessages; simpl. rewrite filter_app; simpl. apply app_nil_r.
Qed.

Lemma userMessages_handleAction (action data : value) (w : World) :
  userMessages (snd (handleAction action data w)) = userMessages w.
Proof.
  destruct (handleAction_appends action data w) as (extra & Hx & Hq & _).
  unfold userMessages. rewrite Hx, filter_app.
  rewrite (proj2 (filter_quiet extra Hq)). apply app_nil_r.
Qed.

Lemma userMessages_response (call : Call) (o : Outcome) (w : World) :
  userMessages (snd (sendMessage_response call o w)) = userMessages w.
Proof.
  destruct o as [e | ok status]; [reflexivity |].
  unfold sendMessage_response, bind, removeChild_indicator.
  destruct (removeIndicator (call_indicator call) (chatMessages w)) as [l' |] eqn:Hrm;
    [| reflexivity].
  destruct (negb ok); simpl; apply (userMessages_removeIndicator _ _ _ Hrm).
Qed.

Lemma userMessages_body (body : result value) (w : World) :
  userMessages (snd (sendMessage_body body w)) = userMessages w.
Proof.
  unfold sendMessage_body, bind, lift.
  destruct body as [e | data]; [reflexivity |].
  destruct (prop data "response") as [e | r]; [reflexivity |].
  pose proof (userMessages_addBotMessage r w) as Hb.
  destruct (addBotMessage r w) as [[e | u] w1]; simpl in Hb; [exact Hb |].
  destruct (prop data "data") as [e | payload]; [exact Hb |].
  unfold modify at 1.
  destruct (prop data "action") as [e | action]; [exact Hb |].
  rewrite userMessages_handleAction. exact Hb.
Qed.

Lemma userMessages_fetched (call : Call) (o : Outcome) (w : World) :
  userMessages (sendMessage_fetched call o w) = userMessages w.
Proof.
  unfold sendMessage_fetched.
  pose proof (userMessages_response call o w) as Hr.
  destruct (sendMessage_response call o w) as [[e | u] w1]; simpl in Hr.
  - now rewrite userMessages_resume, userMessages_catch.
  - exact Hr.
Qed.

Lemma userMessages_parsed (call : Call) (body : result value) (w : World) :
  userMessages (sendMessage_parsed call body w) = userMessages w.
Proof.
  unfold sendMessage_parsed, tryCatch.
  rewrite userMessages_resume.
  pose proof (userMessages_body body w) as Hb.
  destruct (sendMessage_body body w) as [[e | u] w1]; simpl in Hb; [| exact Hb].
  now rewrite userMessages_catch.
Qed.

Lemma userMessages_initChat (w : World) : userMessages (initChat w) = userMessages w.
Proof.
  unfold initChat, checkBackendConnection.
  rewrite (sendMessageAs_suspended CheckBackendConnection (Str "Hello") "Hello" _ eq_refl).
  cbn [isStr String.eqb Ascii.eqb Bool.eqb].
  rewrite userMessages_issueFetch, userMessages_disableAllButtons.
  unfold exec. now rewrite !userMessages_addBotMessage.
Qed.

(** Nothing but a submission by the user adds a user message. *)
Lemma step_userMessages (ev : Event) (w : World) :
  submission ev = false -> userMessages (step ev w) = userMessages w.
Proof.
  intros Hs. destruct ev; try discriminate; cbn [step].
  - apply userMessages_initChat.
  - destruct (userInput_disabled w); reflexivity.
  - destruct (takeCall indicator (inflight w)) as [[call others] |]; [| reflexivity].
    destruct (call_phase call); [| reflexivity].
    apply (userMessages_fetched call o (set_inflight others w)).
  - destruct (takeCall indicator (inflight w)) as [[call others] |]; [| reflexivity].
    destruct (call_phase call); [reflexivity |].
    apply (userMessages_parsed call body (set_inflight others w)).
Qed.

Lemma run_userMessages (evs : list Event) (w : World) :
  Forall (fun ev => submission ev = false) evs ->
  userMessages (run evs w) = userMessages w.
Proof.
  intros H. revert w. unfold run.
  induction H as [| ev evs Hev _ IH]; intros w; simpl; [reflexivity |].
  now rewrite IH, step_userMessages.
Qed.

(** *** Where the reply lands *)

Lemma removeFirstIndicator_app (l : list Node) (n : Node) :
  isTypingIndicator n = false ->
  removeFirstIndicator (l ++ [n]) = removeFirstIndicator l ++ [n].
Proof.
  intros Hn. induction l as [| x l IH]; simpl.
  - destruct n; try reflexivity; discriminate.
  - destruct x; simpl; rewrite ?IH; reflexivity.
Qed.

Lemma incl_removeFirstIndicator (l : list Node) : incl (removeFirstIndicator l) l.
Proof.
  induction l as [| x l IH]; simpl; [apply incl_refl |].
  destruct x; try (apply incl_cons; [now left | now apply incl_tl]).
  apply incl_tl, incl_refl.
Qed.

Lemma incl_removeBotMessageAt (k : nat) (l : list Node) : incl (removeBotMessageAt k l) l.
Proof.
  revert k. induction l as [| x l IH]; intros k; simpl; [apply incl_refl |].
  destruct (isBotMessage x).
  - destruct k; [apply incl_tl, incl_refl |].
    apply incl_cons; [now left | apply incl_tl, IH].
  - apply incl_cons; [now left | apply incl_tl, IH].
Qed.

(** Removing a bot message that lies in the front part of the page. *)
Lemma removeBotMessageAt_front (k : nat) (l1 l2 : list Node) :
  k < length (filter isBotMessage l1) ->
  removeBotMessageAt k (l1 ++ l2) = removeBotMessageAt k l1 ++ l2.
Proof.
  revert k. induction l1 as [| x l1 IH]; intros k Hk; simpl in *; [lia |].
  destruct (isBotMessage x); simpl in *.
  - destruct k; [reflexivity |]. rewrite IH by lia. reflexivity.
  - now rewrite IH.
Qed.

(** Removing the first bot message after the front part. *)
Lemma removeBotMessageAt_next (l1 l2 : list Node) (x : Node) :
  isBotMessage x = true ->
  removeBotMessageAt (length (filter isBotMessage l1)) (l1 ++ x :: l2) = l1 ++ l2.
Proof.
  intros Hx. induction l1 as [| y l1 IH]; simpl.
  - now rewrite Hx.
  - destruct (isBotMessage y); simpl; now rewrite IH.
Qed.

(** The rest of the bootstrap call once its body has been read, followed
    by the rest of [checkBackendConnection]. *)
Lemma bootstrap_parsed (call : Call) (body : value) (text : string) (w : World) :
  call_awaiter call = CheckBackendConnection ->
  replyText body = inr text ->
  exists before,
    incl before (chatMessages w) /\
    chatMessages (sendMessage_parsed call (inr body) w) = before ++ afterReply body text.
Proof.
  intros Ha Hr. unfold replyText in Hr.
  destruct (prop body "response") as [e | r] eqn:Hp; [discriminate |]. simpl in Hr.
  unfold sendMessage_parsed, tryCatch. rewrite Ha. cbn [resume].
  rewrite (sendMessage_body_ok body r text w Hp Hr).
  set (action := field body "action"). set (data := field body "data").
  set (q := set_userData (orElse data (Obj [])) (appendChild (BotMessage text) w)).
  destruct (handleAction_anywhere action data q) as (Hf & Hc & _ & _ & _ & _ & Hsame).
  destruct (rendered_quiet action data) as [Hquiet _].
  unfold afterReply. fold action data.
  destruct (handleAction action data q) as [[e | u] q'] eqn:Hh; cbn [fst snd] in Hf, Hc.
  - (* the dispatcher threw *)
    rewrite <- Hf. rewrite <- Hf in Hsame.
    specialize (Hsame e eq_refl). simpl in Hsame. subst q'.
    exists (removeFirstIndicator (chatMessages w)).
    split; [apply incl_removeFirstIndicator |].
    unfold checkBackendConnection_resume, sendMessage_catch, exec.
    cbn [addBotMessage bind lift modify toText toString snd chatMessages set_chatMessages
         appendChild q set_userData].
    rewrite removeFirstIndicator_app by reflexivity.
    set (c1 := removeFirstIndicator (chatMessages w)).
    rewrite <- app_assoc. cbn [app].
    rewrite filter_app. cbn [filter isBotMessage]. rewrite length_app. cbn [length].
    replace (length (filter isBotMessage c1) + 2 - 2) with (length (filter isBotMessage c1))
      by lia.
    rewrite nth_error_app2 by lia. rewrite Nat.sub_diag. cbn [nth_error textContent].
    replace (1 <? length (filter isBotMessage c1) + 2)%nat with true
      by (symmetry; apply Nat.ltb_lt; lia).
    cbn [andb].
    destruct (text =? loadingMsg).
    + cbn [chatMessages set_chatMessages]. now rewrite removeBotMessageAt_next.
    + unfold appendChild. cbn [chatMessages set_chatMessages].
      now rewrite <- app_assoc.
  - (* the dispatcher returned *)
    rewrite <- Hf.
    unfold checkBackendConnection_resume.
    destruct (_ && _) eqn:Hcond.
    + apply andb_prop in Hcond as [Hlen _]. apply Nat.ltb_lt in Hlen.
      rewrite Hc in Hlen |- *. cbn [chatMessages set_chatMessages].
      unfold q in Hlen |- *. cbn [chatMessages set_userData appendChild set_chatMessages] in Hlen |- *.
      rewrite !filter_app in Hlen. rewrite !filter_app.
      rewrite (proj1 (filter_quiet _ Hquiet)) in Hlen |- *.
      cbn [filter isBotMessage] in Hlen |- *. rewrite !app_nil_r in *.
      rewrite length_app in Hlen |- *. cbn [length] in Hlen |- *.
      exists (removeBotMessageAt (length (filter isBotMessage (chatMessages w)) + 1 - 2)
                (chatMessages w)).
      split; [apply incl_removeBotMessageAt |].
      rewrite <- app_assoc. cbn [app].
      apply removeBotMessageAt_front. lia.
    + exists (chatMessages w). split; [apply incl_refl |].
      rewrite Hc. unfold q. cbn [chatMessages set_userData appendChild set_chatMessages].
      now rewrite <- app_assoc.
Qed.

(** C8 (as amended).  Loading the script issues the bootstrap request,
    with message "Hello" and awaited by [checkBackendConnection], and adds
    no user message, on any page.  No event but a submission by the user
    (send button, key, option click) ever adds a user message: whatever is
    answered, and in whatever order, the sentinel is never shown as one.
    When the body of the bootstrap response is read, its reply (one that
    converts to text) is appended after what the page holds at that moment: nothing comes in front of it
    that was not there, and it is followed only by what the dispatcher
    renders, or by the notice of the [catch] block when the dispatcher
    throws (a reply reading like the connecting message is then removed in
    its place).  So the reply is the first conversational bot message when
    no other reply was shown before it; it is when nothing happens between
    loading and the answer, on a page that was empty. *)
Theorem bootstrap_hidden_reply_shown :
  (forall w,
      inflight (step Load w)
        = inflight w ++ [mkCall (nextNode w) (requestData (Str "Hello") w)
                           CheckBackendConnection AwaitingFetch] /\
      userMessages (step Load w) = userMessages w) /\
  (forall evs w,
      Forall (fun ev => submission ev = false) evs ->
      userMessages (run evs w) = userMessages w) /\
  (forall w id call others body text,
      takeCall id (inflight w) = Some (call, others) ->
      call_phase call = AwaitingJson ->
      call_awaiter call = CheckBackendConnection ->
      replyText body = inr text ->
      exists before,
        incl before (chatMessages w) /\
        chatMessages (step (JsonSettles id (inr body)) w) = before ++ afterReply body text) /\
  (forall w status body text,
      chatMessages w = [] ->
      inflight w = [] ->
      replyText body = inr text ->
      userMessages (run [Load;
                         FetchSettles (nextNode w) (Responded true status);
                         JsonSettles (nextNode w) (inr body)] w) = [] /\
      exists before after,
        chatMessages (run [Load;
                           FetchSettles (nextNode w) (Responded true status);
                           JsonSettles (nextNode w) (inr body)] w)
          = before ++ BotMessage text :: after /\
        Forall (fun n => n = BotMessage welcomeMsg \/ n = BotMessage loadingMsg) before /\
        Forall (fun n => isUserMessage n = false) after).
Proof.
  split; [| split; [| split]].
  - intros w. split.
    + cbn [step]. unfold initChat, checkBackendConnection.
      rewrite (sendMessageAs_suspended CheckBackendConnection (Str "Hello") "Hello" _ eq_refl).
      reflexivity.
    + apply (step_userMessages Load w eq_refl).
  - apply run_userMessages.
  - intros w id call others body text Htake Hphase Ha Hr.
    cbn [step]. rewrite Htake, Hphase.
    apply (bootstrap_parsed call body text (set_inflight others w) Ha Hr).
  - intros w status body text Hc Hi Hr.
    destruct (bootstrap_alone w status body text Hc Hi Hr) as (_ & _ & Hu & Hshown).
    split; assumption.
Qed.

Lemma bootstrap_hidden_reply_shown_witness :
  userMessages (step Load bookingOffered) = [] /\
  map call_body (inflight (step Load bookingOffered))
    = [Obj [("message", Str "Hello"); ("user_data", Obj [("state", Str "offer")])]] /\
  userMessages (run [Load; Input "hi"; FetchSettles 0 (Responded true 200);
                     JsonSettles 0 (inr (Obj [("response", Str "Opening prompt")]))]
                  initial) = [] /\
  chatMessages bookingOffered
    = [BotMessage welcomeMsg; BotMessage "Would you like to book?";
       InChatOptions
         [mkButton "Yes" (textValue "Yes" "Yes") false "" "" false [SendOption];
          mkButton "No" (textValue "No" "No") false "" "" false [SendOption]]].
Proof.
  destruct bootstrap_hidden_reply_shown as (Hload & Huser & Hreply & Halone).
  destruct (Hload bookingOffered) as [Hcall Hnone].
  split; [rewrite Hnone; reflexivity |].
  split; [rewrite Hcall; reflexivity |].
  split; [rewrite Huser; [reflexivity | repeat constructor] |].
  destruct (Halone initial 200
              (Obj [("response", Str "Would you like to book?");
                    ("action", Str "offer_booking");
                    ("data", Obj [("state", Str "offer")])])
              "Would you like to book?" eq_refl eq_refl eq_refl) as (_ & _).
  reflexivity.
Defined.

(** C8 (as stated) fails when the user does not wait.  A message sent
    while the bootstrap request is pending, and answered first, has
    its echo and its reply in front of the reply to the bootstrap request
    (and the connecting message then stays on the page). *)
Lemma bootstrap_reply_not_first_counterexample :
  chatMessages
    (run [Load; Input "hi"; ClickSend;
          FetchSettles 1 (Responded true 200);
          JsonSettles 1 (inr (Obj [("response", Str "reply to hi")]));
          FetchSettles 0 (Responded true 200);
          JsonSettles 0 (inr (Obj [("response", Str "Opening prompt")]))]
       initial)
  = [BotMessage welcomeMsg; BotMessage loadingMsg; UserMessage "hi";
     BotMessage "reply to hi"; BotMessage "Opening prompt"].
Proof. vm_compute. reflexivity. Qed.
